(** * Cross-chain flow radar: briefing service and attestation publisher

    A shallow embedding of [cloudrun/main.py] (the explain entrypoint and its
    BigQuery helpers) and of [attest/attest.py] (the attestation publisher),
    followed by the properties proved about them.

    Conventions of the embedding:
    - a Python [str] is the list of its Unicode code points;
    - a nullable SQL column is an [option]; [None] is SQL NULL;
    - a NUMERIC amount is an exact rational ([Qc]), and so is its [SUM];
    - a finite FLOAT64 value is the rational it denotes, and every FLOAT64
      operation ([CAST(.. AS FLOAT64)], [-], [/], [SUM] and [AVG] of
      FLOAT64) rounds its exact result to the nearest binary64 number,
      ties to even ([fl]); a FLOAT64 aggregate adds in the order of the
      rows it is given, where the engine's order is unspecified;
    - the engine raises where finite operands give a result outside the
      binary64 range, and [SAFE_DIVIDE] returns NULL there: the range is
      checked at the quotients ([f64_div]), the one place where the queries
      can leave it, NUMERIC amounts and their sums and differences being
      far inside; NaN and the infinities, which finite operands therefore
      never produce, and the sign of zero are not represented;
    - a DATE is its day number, so [DATE_SUB(d, INTERVAL 1 DAY)] is [d - 1];
    - a Python call that may raise returns a [result];
    - the row order that an [ORDER BY] leaves open is a relation between the
      rows of the query and the list the engine hands back. *)

From Stdlib Require Import List ZArith NArith QArith Qcanon.
From Stdlib Require Qcabs.
From Stdlib Require Import Qabs Qround Qpower Lqa.
From Stdlib Require PrimFloat FloatOps SpecFloat.
From Stdlib Require DecimalString.
From Stdlib Require Import String Ascii Bool Permutation Sorted Lia.
Import ListNotations.

Set Implicit Arguments.

(* ================================================================== *)
(** * Part I: the embedding                                            *)
(* ================================================================== *)

(** ** Python strings *)

Definition str := list N.

Definition lit (s : string) : str :=
  map N_of_ascii (list_ascii_of_string s).

Definition str_eq_dec : forall a b : str, {a = b} + {a <> b} :=
  list_eq_dec N.eq_dec.

Definition str_eqb (a b : str) : bool :=
  if str_eq_dec a b then true else false.

Fixpoint starts_with (p s : str) : bool :=
  match p, s with
  | [], _ => true
  | _ :: _, [] => false
  | a :: p', b :: s' => N.eqb a b && starts_with p' s'
  end.

(** [p in s] for strings. *)
Fixpoint contains (p s : str) : bool :=
  starts_with p s ||
  match s with
  | [] => false
  | _ :: s' => contains p s'
  end.

(** [sep.join(parts)]. *)
Fixpoint join (sep : str) (parts : list str) : str :=
  match parts with
  | [] => []
  | [p] => p
  | p :: rest => p ++ sep ++ join sep rest
  end.

(** [l[:n]], the slice counted in elements. *)
Fixpoint take {A : Type} (n : N) (l : list A) : list A :=
  match l with
  | [] => []
  | x :: l' => if N.eqb n 0 then [] else x :: take (N.pred n) l'
  end.

Fixpoint len {A : Type} (l : list A) : N :=
  match l with
  | [] => 0%N
  | _ :: l' => N.succ (len l')
  end.

(** [l[n:]]. *)
Fixpoint drop {A : Type} (n : N) (l : list A) : list A :=
  match l with
  | [] => []
  | x :: l' => if N.eqb n 0 then l else drop (N.pred n) l'
  end.

(** [[x] * n]. *)
Definition replicate {A : Type} (n : N) (x : A) : list A :=
  N.iter n (cons x) [].

(** ** Exceptions *)

Inductive result (A : Type) : Type :=
| Ok (a : A)
| Raise (exn : str).
Arguments Ok {A} a.
Arguments Raise {A} exn.

(** ** SQL scalars with NULL *)

Definition Qc_eqb (a b : Qc) : bool := Qeq_bool a b.
Definition Qc_leb (a b : Qc) : bool := Qle_bool a b.

Definition qz (z : Z) : Qc := Q2Qc (inject_Z z).

(** [x = y] in a WHERE or ON clause: NULL never matches. *)
Definition sql_eq {A : Type} (eqb : A -> A -> bool) (x y : option A) : bool :=
  match x, y with
  | Some a, Some b => eqb a b
  | _, _ => false
  end.

(** [x BETWEEN lo AND hi] on dates. *)
Definition sql_between (x : option Z) (lo hi : Z) : bool :=
  match x with
  | Some v => (lo <=? v)%Z && (v <=? hi)%Z
  | None => false
  end.

(** ** FLOAT64 *)

(** [floor (log2 x)] for a positive rational. *)
Definition Qlog2 (x : Q) : Z :=
  if Qle_bool 1 x then Z.log2 (Qfloor x) else (- Z.log2_up (Qceiling (/ x)))%Z.

(** The nearest integer, halfway cases to the even one. *)
Definition rne (x : Q) : Z :=
  let f := Qfloor x in
  match Qcompare (x - inject_Z f) (1 # 2) with
  | Lt => f
  | Gt => (f + 1)%Z
  | Eq => if Z.even f then f else (f + 1)%Z
  end.

Definition pow2 (e : Z) : Q := Qpower 2 e.

(** The exponent of the last place of the binary64 numbers around [x]:
    53 significant bits, and no exponent below that of the subnormal
    numbers. *)
Definition fexp (x : Q) : Z := Z.max (Qlog2 x - 52) (-1074).

(** Rounding of a positive rational to a multiple of its last place. *)
Definition round64 (x : Q) : Q :=
  let e := fexp x in inject_Z (rne (x / pow2 e)) * pow2 e.

(** [fl q]: the binary64 number nearest to [q], ties to even. *)
Definition fl (q : Qc) : Qc :=
  match Qcompare q 0 with
  | Eq => Q2Qc 0
  | Gt => Q2Qc (round64 q)
  | Lt => Q2Qc (- round64 (- q))
  end.

(** The largest finite binary64 number, and the test that a rounded result
    is within the range. *)
Definition max64 : Qc := Q2Qc (inject_Z ((2 ^ 53 - 1) * 2 ^ 971)).

Definition finite64 (v : Qc) : bool := Qc_leb (Qcabs.Qcabs v) max64.


(** The rational that a finite float of the proof assistant's kernel
    denotes; the kernel computes in binary64, which is used to test [fl]. *)
Definition float_value (f : PrimFloat.float) : option Qc :=
  match FloatOps.Prim2SF f with
  | SpecFloat.S754_zero _ => Some (Q2Qc 0)
  | SpecFloat.S754_finite s m e =>
      Some (Q2Qc ((if s then -1 else 1) * inject_Z (Zpos m) * pow2 e))
  | _ => None
  end.

(** FLOAT64 addition and subtraction. *)
Definition f64_add (a b : Qc) : Qc := fl (a + b).
Definition f64_sub (a b : Qc) : Qc := fl (a - b).

(** FLOAT64 division: [None] where the operator raises, for a zero divisor
    and for a quotient outside the range. *)
Definition f64_div (a b : Qc) : option Qc :=
  if Qc_eqb b 0%Qc then None
  else let q := fl (a / b) in
       if finite64 q then Some q else None.

(** [CAST(x AS FLOAT64)] of a NUMERIC value. *)
Definition CAST64 (x : option Qc) : option Qc := option_map fl x.

(** [NULLIF(x, 0)]. *)
Definition NULLIF0 (x : option Qc) : option Qc :=
  match x with
  | Some v => if Qc_eqb v 0%Qc then None else Some v
  | None => None
  end.

(** [x - y] on FLOAT64. *)
Definition sql_minus (x y : option Qc) : option Qc :=
  match x, y with
  | Some a, Some b => Some (f64_sub a b)
  | _, _ => None
  end.

(** [SAFE_DIVIDE(x, y)] on FLOAT64: NULL for a NULL operand and NULL where
    the plain division would raise. *)
Definition SAFE_DIVIDE (x y : option Qc) : option Qc :=
  match x, y with
  | Some a, Some b => f64_div a b
  | _, _ => None
  end.

(** [COALESCE(x, 0)] and [ABS]. *)
Definition COALESCE0 (x : option Qc) : Qc :=
  match x with Some v => v | None => 0%Qc end.

Definition ABS (x : option Qc) : option Qc := option_map Qcabs.Qcabs x.

(** ** SQL aggregates *)

Section Aggregates.
Context {A : Type} (add : A -> A -> A).

(** Accumulation step of [SUM]: NULL inputs are skipped. *)
Definition acc (x y : option A) : option A :=
  match x, y with
  | None, _ => y
  | _, None => x
  | Some a, Some b => Some (add a b)
  end.

(** [SUM(col)]: NULL when no non-NULL input exists. *)
Definition SUM (col : list (option A)) : option A :=
  fold_right acc None col.
End Aggregates.

Definition SUMq : list (option Qc) -> option Qc := SUM Qcplus.
Definition SUMz : list (option Z) -> option Z := SUM Z.add.

Fixpoint count_non_null {A : Type} (col : list (option A)) : Z :=
  match col with
  | [] => 0
  | Some _ :: col' => 1 + count_non_null col'
  | None :: col' => count_non_null col'
  end.

(** [SUM(col)] of a FLOAT64 column. *)
Definition SUM64 : list (option Qc) -> option Qc := SUM f64_add.

(** [AVG(col)] of a FLOAT64 column: the FLOAT64 sum of the non-NULL inputs
    divided by their number, NULL when there is none. *)
Definition AVG (col : list (option Qc)) : option Qc :=
  match SUM64 col with
  | Some s => Some (fl (s / qz (count_non_null col)))
  | None => None
  end.

(** [AVG(col)] of an INT64 column, a FLOAT64. *)
Definition AVGz (col : list (option Z)) : option Qc :=
  AVG (map (fun v => CAST64 (option_map qz v)) col).

(** ** GROUP BY, LEFT JOIN, ORDER BY and LIMIT *)

(** The distinct grouping keys of a row set. *)
Definition group_keys {R K : Type} (K_eq_dec : forall a b : K, {a = b} + {a <> b})
    (key : R -> K) (rows : list R) : list K :=
  nodup K_eq_dec (map key rows).

(** The rows of one group.  GROUP BY puts NULL keys in one group. *)
Definition group {R K : Type} (K_eq_dec : forall a b : K, {a = b} + {a <> b})
    (key : R -> K) (k : K) (rows : list R) : list R :=
  filter (fun r => if K_eq_dec (key r) k then true else false) rows.

(** [ls LEFT JOIN rs ON on]: one output row per match, and one row padded
    with NULLs for a left row without a match. *)
Definition left_join {L R O : Type} (on : L -> R -> bool)
    (mk : L -> option R -> O) (ls : list L) (rs : list R) : list O :=
  flat_map (fun l =>
              match filter (on l) rs with
              | [] => [mk l None]
              | ms => map (fun m => mk l (Some m)) ms
              end) ls.

(** What an engine may hand back for [ORDER BY]: the same rows, arranged so
    that every row precedes the rows it is ordered before.  Rows that compare
    equal may come in any order. *)
Definition ordered_by {R : Type} (leb : R -> R -> bool) (rows out : list R) : Prop :=
  Permutation rows out /\ StronglySorted (fun a b => leb a b = true) out.

(** One admissible engine: stable insertion. *)
Fixpoint insert_by {R : Type} (leb : R -> R -> bool) (x : R) (l : list R) : list R :=
  match l with
  | [] => [x]
  | y :: l' => if leb x y then x :: l else y :: insert_by leb x l'
  end.

Definition sort_by {R : Type} (leb : R -> R -> bool) (rows : list R) : list R :=
  fold_right (insert_by leb) [] rows.

(** ** The flows_daily table *)

(** The amounts are NUMERIC: the query casts their sums to FLOAT64. *)

Module Flow.
Record row : Type := {
  day            : option Z;
  chain          : option str;
  bridge         : option str;
  token_symbol   : option str;
  in_amount_usd  : option Qc;
  out_amount_usd : option Qc;
  net_amount_usd : option Qc;
  tx_count       : option Z;
  unique_wallets : option Z
}.
End Flow.

Definition FlowsTable := list Flow.row.

(** The key of [GROUP BY bridge, token_symbol]. *)
Definition Key : Type := (option str * option str)%type.

Definition Key_eq_dec : forall a b : Key, {a = b} + {a <> b}.
Proof. repeat decide equality. Defined.

Definition day_eq_dec : forall a b : option Z, {a = b} + {a <> b}.
Proof. repeat decide equality. Defined.

Definition flow_key (r : Flow.row) : Key := (Flow.bridge r, Flow.token_symbol r).

(** [USING(bridge, token_symbol)]: both columns equal and not NULL. *)
Definition using_key (a b : Key) : bool :=
  sql_eq str_eqb (fst a) (fst b) && sql_eq str_eqb (snd a) (snd b).

(** [WHERE day = d AND chain = c]. *)
Definition on_day (d : Z) (c : str) (r : Flow.row) : bool :=
  sql_eq Z.eqb (Flow.day r) (Some d) && sql_eq str_eqb (Flow.chain r) (Some c).

(** [WHERE chain = c AND day BETWEEN d - 7 AND d - 1]. *)
Definition in_window (d : Z) (c : str) (r : Flow.row) : bool :=
  sql_eq str_eqb (Flow.chain r) (Some c) && sql_between (Flow.day r) (d - 7) (d - 1).

(** The five sums taken over a row set, the USD sums cast to FLOAT64. *)
Record Totals : Type := {
  t_in  : option Qc;
  t_out : option Qc;
  t_net : option Qc;
  t_txs : option Z;
  t_uw  : option Z
}.

Definition totals (rows : list Flow.row) : Totals :=
  {| t_in  := CAST64 (SUMq (map Flow.in_amount_usd rows));
     t_out := CAST64 (SUMq (map Flow.out_amount_usd rows));
     t_net := CAST64 (SUMq (map Flow.net_amount_usd rows));
     t_txs := SUMz (map Flow.tx_count rows);
     t_uw  := SUMz (map Flow.unique_wallets rows) |}.

(** The three USD sums of the bridge-level reference sets, cast to
    FLOAT64. *)
Record Usd : Type := {
  u_in  : option Qc;
  u_out : option Qc;
  u_net : option Qc
}.

Definition usd (rows : list Flow.row) : Usd :=
  {| u_in  := CAST64 (SUMq (map Flow.in_amount_usd rows));
     u_out := CAST64 (SUMq (map Flow.out_amount_usd rows));
     u_net := CAST64 (SUMq (map Flow.net_amount_usd rows)) |}.

Record Averages : Type := {
  a_in  : option Qc;
  a_out : option Qc;
  a_net : option Qc;
  a_txs : option Qc;
  a_uw  : option Qc
}.

(** ** [_fetch_contrast_rows]: the contrast query *)

Module Contrast.
Record row : Type := {
  level              : str;
  bridge             : option str;
  token_symbol       : option str;
  day                : Z;
  chain              : str;
  in_usd_d           : option Qc;
  out_usd_d          : option Qc;
  net_usd_d          : option Qc;
  txs_d              : option Z;
  uw_d               : option Z;
  in_usd_p1          : option Qc;
  out_usd_p1         : option Qc;
  net_usd_p1         : option Qc;
  txs_p1             : option Z;
  uw_p1              : option Z;
  in_usd_7avg        : option Qc;
  out_usd_7avg       : option Qc;
  net_usd_7avg       : option Qc;
  txs_7avg           : option Qc;
  uw_7avg            : option Qc;
  net_dod_pct        : option Qc;
  net_vs7d_pct       : option Qc;
  net_share_of_chain : option Qc
}.
End Contrast.

Definition CHAIN_LEVEL : str := lit "_CHAIN".
Definition BRIDGE_LEVEL : str := lit "_BRIDGE".

Section ContrastQuery.
Variable T : FlowsTable.
Variable d : Z.
Variable c : str.

(** CTE [chain_today]: one row, the sums over [day = d AND chain = c]. *)
Definition chain_today : Totals := totals (filter (on_day d c) T).

(** CTE [chain_prev1]: the same sums for the previous day. *)
Definition chain_prev1 : Totals := totals (filter (on_day (d - 1) c) T).

(** The subquery of [chain_7d]: the sums per day of the trailing window. *)
Definition chain_daily : list Totals :=
  let w := filter (in_window d c) T in
  map (fun dy => totals (group day_eq_dec Flow.day dy w))
      (group_keys day_eq_dec Flow.day w).

(** CTE [chain_7d]: the averages of the daily sums. *)
Definition chain_7d : Averages :=
  {| a_in  := AVG (map t_in chain_daily);
     a_out := AVG (map t_out chain_daily);
     a_net := AVG (map t_net chain_daily);
     a_txs := AVGz (map t_txs chain_daily);
     a_uw  := AVGz (map t_uw chain_daily) |}.

(** CTE [chain_ctx]: the chain-level row. *)
Definition chain_ctx : Contrast.row :=
  let t := chain_today in
  let p := chain_prev1 in
  let s := chain_7d in
  {| Contrast.level := CHAIN_LEVEL;
     Contrast.bridge := Some (lit "_TOTAL");
     Contrast.token_symbol := Some (lit "_ALL");
     Contrast.day := d;
     Contrast.chain := c;
     Contrast.in_usd_d := t_in t;
     Contrast.out_usd_d := t_out t;
     Contrast.net_usd_d := t_net t;
     Contrast.txs_d := t_txs t;
     Contrast.uw_d := t_uw t;
     Contrast.in_usd_p1 := t_in p;
     Contrast.out_usd_p1 := t_out p;
     Contrast.net_usd_p1 := t_net p;
     Contrast.txs_p1 := t_txs p;
     Contrast.uw_p1 := t_uw p;
     Contrast.in_usd_7avg := a_in s;
     Contrast.out_usd_7avg := a_out s;
     Contrast.net_usd_7avg := a_net s;
     Contrast.txs_7avg := a_txs s;
     Contrast.uw_7avg := a_uw s;
     Contrast.net_dod_pct :=
       SAFE_DIVIDE (sql_minus (t_net t) (t_net p)) (NULLIF0 (t_net p));
     Contrast.net_vs7d_pct :=
       SAFE_DIVIDE (sql_minus (t_net t) (a_net s)) (NULLIF0 (a_net s));
     Contrast.net_share_of_chain := None |}.

(** CTE [bridge_today]: the sums per (bridge, token_symbol) of the day. *)
Definition bridge_today : list (Key * Totals) :=
  let rows := filter (on_day d c) T in
  map (fun k => (k, totals (group Key_eq_dec flow_key k rows)))
      (group_keys Key_eq_dec flow_key rows).

(** CTE [bridge_prev1]: the USD sums per key of the previous day. *)
Definition bridge_prev1 : list (Key * Usd) :=
  let rows := filter (on_day (d - 1) c) T in
  map (fun k => (k, usd (group Key_eq_dec flow_key k rows)))
      (group_keys Key_eq_dec flow_key rows).

(** The subquery of [bridge_7d]: grouped by key only, so one row per key
    holding the sums over the whole window. *)
Definition bridge_window : list (Key * Usd) :=
  let w := filter (in_window d c) T in
  map (fun k => (k, usd (group Key_eq_dec flow_key k w)))
      (group_keys Key_eq_dec flow_key w).

(** CTE [bridge_7d]: the subquery grouped by key again and averaged. *)
Definition bridge_7d : list (Key * Usd) :=
  let sub := bridge_window in
  map (fun k =>
         let g := group Key_eq_dec fst k sub in
         (k, {| u_in  := AVG (map (fun e => u_in (snd e)) g);
                u_out := AVG (map (fun e => u_out (snd e)) g);
                u_net := AVG (map (fun e => u_net (snd e)) g) |}))
      (group_keys Key_eq_dec fst sub).

(** CTE [chain_total_net]: one row, the FLOAT64 sum of the bridge-level
    nets. *)
Definition chain_total_net : option Qc :=
  SUM64 (map (fun bt => t_net (snd bt)) bridge_today).

(** The two keyed joins of [bridge_ctx]. *)
Definition bridge_joined
  : list ((Key * Totals) * option (Key * Usd) * option (Key * Usd)) :=
  left_join (fun l b7 => using_key (fst (fst l)) (fst b7)) pair
    (left_join (fun bt bp => using_key (fst bt) (fst bp)) pair
       bridge_today bridge_prev1)
    bridge_7d.

Definition side (f : Usd -> option Qc) (m : option (Key * Usd)) : option Qc :=
  match m with
  | Some e => f (snd e)
  | None => None
  end.

(** CTE [bridge_ctx]: the bridge-level rows. *)
Definition bridge_ctx : list Contrast.row :=
  let ct := chain_total_net in
  map (fun j =>
         let bt := fst (fst j) in
         let bp := snd (fst j) in
         let b7 := snd j in
         {| Contrast.level := BRIDGE_LEVEL;
            Contrast.bridge := fst (fst bt);
            Contrast.token_symbol := snd (fst bt);
            Contrast.day := d;
            Contrast.chain := c;
            Contrast.in_usd_d := t_in (snd bt);
            Contrast.out_usd_d := t_out (snd bt);
            Contrast.net_usd_d := t_net (snd bt);
            Contrast.txs_d := t_txs (snd bt);
            Contrast.uw_d := t_uw (snd bt);
            Contrast.in_usd_p1 := side u_in bp;
            Contrast.out_usd_p1 := side u_out bp;
            Contrast.net_usd_p1 := side u_net bp;
            Contrast.txs_p1 := None;
            Contrast.uw_p1 := None;
            Contrast.in_usd_7avg := side u_in b7;
            Contrast.out_usd_7avg := side u_out b7;
            Contrast.net_usd_7avg := side u_net b7;
            Contrast.txs_7avg := None;
            Contrast.uw_7avg := None;
            Contrast.net_dod_pct :=
              SAFE_DIVIDE (sql_minus (t_net (snd bt)) (side u_net bp))
                          (NULLIF0 (side u_net bp));
            Contrast.net_vs7d_pct :=
              SAFE_DIVIDE (sql_minus (t_net (snd bt)) (side u_net b7))
                          (NULLIF0 (side u_net b7));
            Contrast.net_share_of_chain :=
              SAFE_DIVIDE (t_net (snd bt)) (NULLIF0 ct) |})
      bridge_joined.

(** [SELECT * FROM chain_ctx UNION ALL SELECT * FROM bridge_ctx]. *)
Definition contrast_union : list Contrast.row := chain_ctx :: bridge_ctx.

End ContrastQuery.

(** [CASE WHEN level = '_CHAIN' THEN 0 ELSE 1 END]. *)
Definition level_rank (r : Contrast.row) : Z :=
  if str_eqb (Contrast.level r) CHAIN_LEVEL then 0 else 1.

(** [ABS(COALESCE(net_usd_d, 0))]. *)
Definition abs_net (r : Contrast.row) : Qc :=
  Qcabs.Qcabs (COALESCE0 (Contrast.net_usd_d r)).

(** [ORDER BY level_rank, abs_net DESC]: [a] may precede [b]. *)
Definition contrast_leb (a b : Contrast.row) : bool :=
  (level_rank a <? level_rank b)%Z
  || ((level_rank a =? level_rank b)%Z && Qc_leb (abs_net b) (abs_net a)).

(** The lists the query of [_fetch_contrast_rows] may return. *)
Definition contrast_result (T : FlowsTable) (d : Z) (c : str)
    (out : list Contrast.row) : Prop :=
  ordered_by contrast_leb (contrast_union T d c) out.

(** [_fetch_contrast_rows] on the engine that sorts by stable insertion. *)
Definition _fetch_contrast_rows (T : FlowsTable) (d : Z) (c : str)
    : list Contrast.row :=
  sort_by contrast_leb (contrast_union T d c).

(** The rows of a result with [level = '_BRIDGE']. *)
Definition bridge_level_rows (out : list Contrast.row) : list Contrast.row :=
  filter (fun r => str_eqb (Contrast.level r) BRIDGE_LEVEL) out.


(** *** Sample flow records *)

Definition ethereum : str := lit "ethereum".

Definition flow (dy : Z) (b t : string) (i o : Z) : Flow.row :=
  {| Flow.day := Some dy;
     Flow.chain := Some ethereum;
     Flow.bridge := Some (lit b);
     Flow.token_symbol := Some (lit t);
     Flow.in_amount_usd := Some (qz i);
     Flow.out_amount_usd := Some (qz o);
     Flow.net_amount_usd := Some (qz (i - o));
     Flow.tx_count := Some 1%Z;
     Flow.unique_wallets := Some 1%Z |}.

(** Two keys on day 10, one of them with two records; history on days 8, 9. *)
Definition flows_sample : FlowsTable :=
  [ flow 10 "across" "USDC" 5 0;
    flow 10 "hop" "USDC" 0 5;
    flow 10 "across" "USDC" 2 0;
    flow 9 "across" "USDC" 4 0;
    flow 8 "hop" "USDC" 0 0 ].




(** One key with 7 on day 10, 4 on day 9 and 6 on day 8. *)
Definition flows_history : FlowsTable :=
  [ flow 10 "across" "USDC" 7 0;
    flow 9 "across" "USDC" 4 0;
    flow 8 "across" "USDC" 6 0 ].

(** Six keys on day 10, with nets 1, -6, 3, -4, 5 and 2. *)
Definition flows_six : FlowsTable :=
  [ flow 10 "across" "USDC" 1 0;
    flow 10 "hop" "USDC" 0 6;
    flow 10 "stargate" "USDC" 3 0;
    flow 10 "synapse" "USDC" 0 4;
    flow 10 "celer" "USDC" 5 0;
    flow 10 "connext" "USDC" 2 0 ].



(** ** Python values *)

Set Warnings "-register-all".

(** The values that BigQuery cells, JSON documents and request parameters
    hold.  [PDate] is a [datetime.date] and [PDecimal] the
    [decimal.Decimal] that the client returns for a NUMERIC cell; a dict
    keeps its insertion order. *)
Inductive pyval : Type :=
| PNone
| PBool (b : bool)
| PInt (z : Z)
| PFloat (q : Qc)
| PDecimal (q : Qc)
| PStr (s : str)
| PDate (d : Z)
| PList (l : list pyval)
| PDict (l : list (str * pyval)).

Definition dict : Type := list (str * pyval).

(** Truthiness, as [if v:] and [v or w] test it. *)
Definition truthy (v : pyval) : bool :=
  match v with
  | PNone => false
  | PBool b => b
  | PInt z => negb (z =? 0)%Z
  | PFloat q => negb (Qc_eqb q 0%Qc)
  | PDecimal q => negb (Qc_eqb q 0%Qc)
  | PStr s => match s with [] => false | _ => true end
  | PDate _ => true
  | PList l => match l with [] => false | _ => true end
  | PDict l => match l with [] => false | _ => true end
  end.

(** [a or b]. *)
Definition py_or (a b : pyval) : pyval := if truthy a then a else b.

(** [d.get(k, default)] on a dict. *)
Fixpoint dict_get (d : dict) (k : str) (default : pyval) : pyval :=
  match d with
  | [] => default
  | (k', v) :: d' => if str_eqb k' k then v else dict_get d' k default
  end.

(** [len(v)]: a TypeError for the values that have no length. *)
Definition py_len (v : pyval) : result N :=
  match v with
  | PStr s => Ok (len s)
  | PList l => Ok (len l)
  | PDict l => Ok (len l)
  | _ => Raise (lit "TypeError")
  end.

(** [s.lower()] and [s.strip()] restricted to ASCII: on a string of ASCII
    characters they are the built-in methods. *)
Definition ascii_lower (s : str) : str :=
  map (fun ch => if ((65 <=? ch) && (ch <=? 90))%N then (ch + 32)%N else ch) s.

Definition is_space (ch : N) : bool :=
  ((9 <=? ch) && (ch <=? 13))%N || (ch =? 32)%N || ((28 <=? ch) && (ch <=? 31))%N.

Fixpoint lstrip (s : str) : str :=
  match s with
  | [] => []
  | ch :: s' => if is_space ch then lstrip s' else s
  end.

Definition ascii_strip (s : str) : str := rev (lstrip (rev (lstrip s))).

(** *** [json.dumps] *)

Definition NL : str := [10%N].

Definition hex_digit (n : N) : N :=
  if (n <? 10)%N then (48 + n)%N else (87 + n)%N.

(** [format(n, "04x")] for [n < 65536]. *)
Definition hex4 (n : N) : str :=
  [ hex_digit (n / 4096); hex_digit ((n / 256) mod 16);
    hex_digit ((n / 16) mod 16); hex_digit (n mod 16) ]%N.

(** One character inside a JSON string literal.  A backslash (92) escapes
    the quote (34), the backslash and the control characters; with
    [ensure_ascii] every character outside [' ' .. '~'] is written as
    [\uXXXX], as a surrogate pair beyond U+FFFF. *)
Definition json_escape_char (ensure_ascii : bool) (ch : N) : str :=
  if (ch =? 34)%N then [92; 34]%N
  else if (ch =? 92)%N then [92; 92]%N
  else if (ch =? 10)%N then 92%N :: lit "n"
  else if (ch =? 13)%N then 92%N :: lit "r"
  else if (ch =? 9)%N then 92%N :: lit "t"
  else if (ch =? 8)%N then 92%N :: lit "b"
  else if (ch =? 12)%N then 92%N :: lit "f"
  else if (ch <? 32)%N then 92%N :: lit "u" ++ hex4 ch
  else if ensure_ascii && (126 <? ch)%N then
    if (ch <? 65536)%N then 92%N :: lit "u" ++ hex4 ch
    else
      let n := (ch - 65536)%N in
      (92%N :: lit "u" ++ hex4 (55296 + (n / 1024) mod 1024))
      ++ (92%N :: lit "u" ++ hex4 (56320 + n mod 1024))
  else [ch].

Definition json_string (ensure_ascii : bool) (s : str) : str :=
  [34%N] ++ flat_map (json_escape_char ensure_ascii) s ++ [34%N].

(** The values [json.dumps] takes without a [default]: no date and no
    Decimal inside. *)
Fixpoint json_serializable (v : pyval) : bool :=
  match v with
  | PDate _ => false
  | PDecimal _ => false
  | PList l => forallb json_serializable l
  | PDict l => forallb (fun kv => json_serializable (snd kv)) l
  | _ => true
  end.

Section Dumps.
(** The built-in [str()], which renders numbers and, through [default=str],
    the values that JSON does not know. *)
Variable py_str : pyval -> str.
Variable ensure_ascii : bool.

(** The text of [json.dumps(v, ensure_ascii=ensure_ascii, default=str)]. *)
Fixpoint json_text (v : pyval) : str :=
  match v with
  | PNone => lit "null"
  | PBool true => lit "true"
  | PBool false => lit "false"
  | PInt z => py_str (PInt z)
  | PFloat q => py_str (PFloat q)
  | PStr s => json_string ensure_ascii s
  | PDate d => json_string ensure_ascii (py_str (PDate d))
  | PDecimal q => json_string ensure_ascii (py_str (PDecimal q))
  | PList l => lit "[" ++ join (lit ", ") (map json_text l) ++ lit "]"
  | PDict l =>
      lit "{" ++
      join (lit ", ")
           (map (fun kv => json_string ensure_ascii (fst kv) ++ lit ": "
                           ++ json_text (snd kv)) l)
      ++ lit "}"
  end.

End Dumps.

(** [json.dumps(v, ensure_ascii=False, default=str)]: never raises. *)
Definition json_dumps (py_str : pyval -> str) (v : pyval) : str :=
  json_text py_str false v.

(** [json.dumps(v)]: a TypeError for a value that is not serializable. *)
Definition json_dumps_std (py_str : pyval -> str) (v : pyval) : result str :=
  if json_serializable v then Ok (json_text py_str true v)
  else Raise (lit "TypeError").

(** ** attest.py: the attestation publisher *)

(** The keyword lists of [decide_has_anomaly].  The last two entries of
    [bad] are U+5F02 U+5E38 and U+663E U+8457; the last entry of [good] is
    U+672A U+53D1 U+73B0 U+663E U+8457 U+5F02 U+5E38. *)
Definition bad : list str :=
  [ lit "anomal"; lit "abnormal"; lit "irregular";
    [24322; 24120]%N; [26174; 33879]%N ].

Definition good : list str :=
  [ lit "no anomaly"; lit "no significant";
    [26410; 21457; 29616; 26174; 33879; 24322; 24120]%N ].

(** [any(k in s for k in keywords)]. *)
Definition any_in (keywords : list str) (s : str) : bool :=
  existsb (fun k => contains k s) keywords.

(** A row of [daily_briefings] as the publisher selects it.  The query
    filters on [day], so [day] is never NULL. *)
Module Briefing.
Record row : Type := {
  day              : Z;
  model            : option str;
  summary_text     : option str;
  source_rows_json : option str
}.
End Briefing.

(** The arguments of [publish]. *)
Record Attestation : Type := {
  att_day          : str;
  att_chain        : str;
  att_summaryHash  : str;
  att_hasAnomaly   : bool;
  att_evidenceRows : N;
  att_model        : option str;
  att_uri          : str
}.

Section Attest.
(** The built-in [str.lower]. *)
Variable lower : str -> str.
(** [Web3.keccak(text=...)]. *)
Variable keccak : str -> str.
(** [json.loads]. *)
Variable json_loads : str -> result pyval.
(** [date.isoformat]. *)
Variable isoformat : Z -> str.

(** [txt or ""] for a string or None. *)
Definition or_empty (txt : option str) : str :=
  match txt with
  | Some s => s
  | None => []
  end.

Definition keccak32 (txt : option str) : str := keccak (or_empty txt).

Definition decide_has_anomaly (summary : option str) : bool :=
  match summary with
  | None => false
  | Some [] => false
  | Some summary =>
      let s := lower summary in
      if any_in good s then false
      else if any_in bad s then true
      else false
  end.

(** [len(json.loads(src_json))] under [try ... except Exception]. *)
Definition count_evidence (src_json : str) : N :=
  match
    match json_loads src_json with
    | Ok v => py_len v
    | Raise e => Raise e
    end
  with
  | Ok n => n
  | Raise _ => 0%N
  end.

(** The body of the loop of [main] up to the call of [publish]. *)
Definition attest_row (chain : str) (r : Briefing.row) : Attestation :=
  let day := isoformat (Briefing.day r) in
  let model := Briefing.model r in
  let summary := or_empty (Briefing.summary_text r) in
  let src_json :=
    match Briefing.source_rows_json r with
    | Some ((_ :: _) as s) => s
    | _ => lit "[]"
    end in
  let ev_rows := count_evidence src_json in
  let has_anom := decide_has_anomaly (Some summary) in
  let h := keccak32 (Some summary) in
  let uri := [] in
  {| att_day := day;
     att_chain := chain;
     att_summaryHash := h;
     att_hasAnomaly := has_anom;
     att_evidenceRows := ev_rows;
     att_model := model;
     att_uri := uri |}.

End Attest.

(** The keywords as the specification lists them, with the whole word
    in place of the stem [anomal]. *)
Definition spec_bad : list str :=
  [ lit "anomaly"; lit "abnormal"; lit "irregular";
    [24322; 24120]%N; [26174; 33879]%N ].

(** A [json.loads] that knows the empty array only. *)
Definition loads_empty_array (s : str) : result pyval :=
  if str_eqb s (lit "[]") then Ok (PList []) else Raise (lit "JSONDecodeError").

(** ** [_fetch_anom_bridges]: the anomaly view *)

Module Anoms.
Record row : Type := {
  day            : option Z;
  chain          : option str;
  bridge         : option str;
  zscore_30d     : option Qc;
  net_usd        : option Qc;
  is_anom_bridge : option bool
}.
End Anoms.

(** [x DESC]: [a] may precede [b]; NULLs come last. *)
Definition desc_leb (a b : option Qc) : bool :=
  match a, b with
  | Some x, Some y => Qc_leb y x
  | Some _, None => true
  | None, Some _ => false
  | None, None => true
  end.

(** [ORDER BY k1 DESC, k2 DESC]: strictly before on the first key, or tied
    on it and not after on the second. *)
Definition lex_leb {R : Type} (k1 k2 : R -> option Qc) (a b : R) : bool :=
  negb (desc_leb (k1 b) (k1 a))
  || (desc_leb (k1 a) (k1 b) && desc_leb (k2 a) (k2 b)).

(** [WHERE day = DATE(@d) AND chain = @c AND is_anom_bridge]. *)
Definition anoms_where (d : Z) (c : str) (r : Anoms.row) : bool :=
  sql_eq Z.eqb (Anoms.day r) (Some d)
  && sql_eq str_eqb (Anoms.chain r) (Some c)
  && match Anoms.is_anom_bridge r with Some b => b | None => false end.

(** [ORDER BY ABS(zscore_30d) DESC, ABS(net_usd) DESC]. *)
Definition anoms_leb : Anoms.row -> Anoms.row -> bool :=
  lex_leb (fun r => ABS (Anoms.zscore_30d r)) (fun r => ABS (Anoms.net_usd r)).

(** A row of the result: [SELECT bridge]. *)
Record Selected : Type := { sel_bridge : option str }.

Definition select_bridge (r : Anoms.row) : Selected :=
  {| sel_bridge := Anoms.bridge r |}.


(** The query on the engine that sorts by stable insertion. *)
Definition anoms_query (V : list Anoms.row) (d : Z) (c : str) : list Selected :=
  map select_bridge (take 12 (sort_by anoms_leb (filter (anoms_where d c) V))).


(** [_fetch_anom_bridges], given what the query did:
    [[r["bridge"] for r in job.result()]], or [[]] under
    [except Exception]. *)
Definition _fetch_anom_bridges (q : result (list Selected))
    : result (list (option str)) :=
  match q with
  | Ok rows => Ok (map sel_bridge rows)
  | Raise _ => Ok []
  end.

(** ** [_fetch_bridge_evidence]: the evidence query *)

Module Evidence.
Record row : Type := {
  chain          : str;
  day            : Z;
  bridge         : option str;
  token_symbol   : option str;
  in_usd         : option Qc;
  out_usd        : option Qc;
  net_usd        : option Qc;
  tx_count       : option Z;
  unique_wallets : option Z
}.
End Evidence.

(** [ROUND(x, 2)] of a NUMERIC value: halfway cases away from zero. *)
Definition ROUND2 (x : option Qc) : option Qc :=
  option_map
    (fun q : Qc =>
       let n := Qfloor (Qabs q * 100 + (1 # 2)) in
       Q2Qc ((if Qle_bool 0 q then n else - n)%Z # 100))
    x.

(** [bridge IN UNNEST(@bridges)]; the clause is present for a non-empty
    list only. *)
Definition in_bridges (bridges : list (option str)) (r : Flow.row) : bool :=
  match bridges with
  | [] => true
  | _ => existsb (fun b => sql_eq str_eqb (Flow.bridge r) b) bridges
  end.

Definition evidence_rows (T : FlowsTable) (d : Z) (c : str)
    (bridges : list (option str)) : list Evidence.row :=
  let rows := filter (fun r => on_day d c r && in_bridges bridges r) T in
  map (fun k =>
         let g := group Key_eq_dec flow_key k rows in
         {| Evidence.chain := c;
            Evidence.day := d;
            Evidence.bridge := fst k;
            Evidence.token_symbol := snd k;
            Evidence.in_usd := ROUND2 (SUMq (map Flow.in_amount_usd g));
            Evidence.out_usd := ROUND2 (SUMq (map Flow.out_amount_usd g));
            Evidence.net_usd := ROUND2 (SUMq (map Flow.net_amount_usd g));
            Evidence.tx_count := SUMz (map Flow.tx_count g);
            Evidence.unique_wallets := SUMz (map Flow.unique_wallets g) |})
      (group_keys Key_eq_dec flow_key rows).

(** [ORDER BY ABS(net_usd) DESC]. *)
Definition evidence_leb (a b : Evidence.row) : bool :=
  desc_leb (ABS (Evidence.net_usd a)) (ABS (Evidence.net_usd b)).

(** The lists the evidence query may return under [LIMIT limit]. *)
Definition evidence_result (T : FlowsTable) (d : Z) (c : str)
    (bridges : list (option str)) (limit : N) (out : list Evidence.row) : Prop :=
  exists sorted,
    ordered_by evidence_leb (evidence_rows T d c bridges) sorted
    /\ out = take limit sorted.

Definition evidence_query (T : FlowsTable) (d : Z) (c : str)
    (bridges : list (option str)) (limit : N) : list Evidence.row :=
  take limit (sort_by evidence_leb (evidence_rows T d c bridges)).

Definition cell {A : Type} (f : A -> pyval) (x : option A) : pyval :=
  match x with
  | Some a => f a
  | None => PNone
  end.

(** [dict(r)] for a row of the evidence query. *)
Definition evidence_dict (r : Evidence.row) : dict :=
  [ (lit "chain", PStr (Evidence.chain r));
    (lit "day", PDate (Evidence.day r));
    (lit "bridge", cell PStr (Evidence.bridge r));
    (lit "token_symbol", cell PStr (Evidence.token_symbol r));
    (lit "in_usd", cell PDecimal (Evidence.in_usd r));
    (lit "out_usd", cell PDecimal (Evidence.out_usd r));
    (lit "net_usd", cell PDecimal (Evidence.net_usd r));
    (lit "tx_count", cell PInt (Evidence.tx_count r));
    (lit "unique_wallets", cell PInt (Evidence.unique_wallets r)) ].

(** ** cloudrun/main.py: the briefing service *)

(** The two instruction templates; 215 is the multiplication sign and 8211
    the en dash. *)
Definition PROMPT_ANOMALY : str :=
  lit "You are a risk analyst for cross-chain monitoring. Based on the provided anomalous bridges and evidence, "
  ++ lit "write a concise English 'Cross-Chain Flow Briefing'. Include:" ++ NL
  ++ lit "1) One-line conclusion: which chain/bridge shows a significant anomaly;" ++ NL
  ++ lit "2) Bullet points: bridge" ++ [215%N] ++ lit "token net flow, tx count, unique wallets;" ++ NL
  ++ lit "3) 2" ++ [8211%N] ++ lit "3 cautious hypotheses (e.g., arbitrage, asset migration, bridge rebalancing);" ++ NL
  ++ lit "4) Action items. Tone: factual, concise, 150" ++ [8211%N] ++ lit "220 words.".

Definition PROMPT_NO_ANOMALY : str :=
  lit "You are a risk analyst for cross-chain monitoring. You are given chain-level totals and top bridge"
  ++ [215%N] ++ lit "token net flows "
  ++ lit "with comparisons (today vs yesterday vs 7d avg). Produce an English 'No Significant Anomaly' note:" ++ NL
  ++ lit "1) Chain-level: in/out/net vs yesterday and 7d avg (direction, magnitude, typical range);" ++ NL
  ++ lit "2) Top 2" ++ [8211%N] ++ lit "3 bridge" ++ [215%N]
  ++ lit "token items: net flow, share of chain net, diffs vs yesterday/7d avg;" ++ NL
  ++ lit "3) Why this is 'no anomaly' (e.g., within historical band, routine settlement/routing);" ++ NL
  ++ lit "4) One actionable note. Tone: factual, 150" ++ [8211%N] ++ lit "220 words.".

(** The character budget of [source_rows_json]. *)
Definition SRC_LIMIT : N := 900000.

(** An HTTP request as [_get_param] reads it. *)
Record Request : Type := {
  args     : list (str * str);
  is_json  : bool;
  get_json : result pyval
}.

(** The response tuple: body, status, headers. *)
Definition Response : Type := (str * Z * list (str * str))%type.

(** The parameters of the MERGE statement. *)
Record Merge : Type := {
  m_day     : pyval;
  m_model   : str;
  m_summary : str;
  m_src     : str
}.

(** Configuration and the outcomes of the external calls of one
    invocation. *)
Record World : Type := {
  MODEL            : str;
  SEND_ON_FALLBACK : bool;
  K_REVISION       : str;
  TG_TOKEN         : option str;
  TG_CHAT          : option str;
  yesterday        : str;
  client           : result unit;
  query_anoms      : pyval -> str -> result (list Selected);
  query_evidence   : pyval -> str -> list (option str) -> N -> result (list dict);
  query_contrast   : pyval -> str -> result (list dict);
  generate         : str -> str -> result (option str);
  query_merge      : Merge -> result unit;
  post_telegram    : str -> str -> str -> result unit
}.

(** What one invocation did besides answering. *)
Record Run : Type := {
  run_response : Response;
  run_text     : str;
  run_merge    : Merge;
  run_merged   : bool;
  run_posted   : option str
}.

(** [request.args.get(name)]. *)
Fixpoint args_get (a : list (str * str)) (name : str) : option str :=
  match a with
  | [] => None
  | (k, v) :: a' => if str_eqb k name then Some v else args_get a' name
  end.

(** [body.get(name, default)]: an AttributeError unless [body] is a dict. *)
Definition get_method (body : pyval) (name : str) (default : pyval) : result pyval :=
  match body with
  | PDict d => Ok (dict_get d name default)
  | _ => Raise (lit "AttributeError")
  end.

Definition _get_param (request : Request) (name : str) (default : pyval) : pyval :=
  match args_get (args request) name with
  | Some ((_ :: _) as v) => PStr v
  | _ =>
      if is_json request then
        match
          match get_json request with
          | Ok parsed => get_method (py_or parsed (PDict [])) name default
          | Raise e => Raise e
          end
        with
        | Ok v => v
        | Raise _ => default
        end
      else default
  end.

Section Service.
(** The built-ins [str()], [str.lower] and [str.strip]. *)
Variable py_str : pyval -> str.
Variable lower : str -> str.
Variable strip : str -> str.
Variable w : World.

(** [v.lower()]: an AttributeError unless [v] is a string. *)
Definition lower_method (v : pyval) : result str :=
  match v with
  | PStr s => Ok (lower s)
  | _ => Raise (lit "AttributeError")
  end.

(** One line of the fallback summary; 8776 is the almost-equal sign. *)
Definition fallback_item (r : dict) : str :=
  lit "- " ++ py_str (dict_get r (lit "chain") PNone)
  ++ lit "/" ++ py_str (dict_get r (lit "bridge") PNone)
  ++ lit " " ++ py_str (dict_get r (lit "token_symbol") PNone) ++ lit ": "
  ++ lit "net" ++ [8776%N]
  ++ py_str (dict_get r (lit "net_usd") (dict_get r (lit "net_amount_usd") (PInt 0)))
  ++ lit ", "
  ++ lit "tx=" ++ py_str (dict_get r (lit "tx_count") (PInt 0))
  ++ lit ", wallets=" ++ py_str (dict_get r (lit "unique_wallets") (PInt 0)).

Definition fallback_head (day_iso : pyval) (reason : str) : str :=
  lit "[Cross-Chain Flow Briefing | " ++ py_str day_iso ++ lit "]" ++ NL
  ++ lit "Conclusion: " ++ reason ++ lit ".".

Definition fallback_tail : str :=
  lit "Action: keep watching major bridges/tokens; set threshold alerts for large addresses.".

Definition fallback_body (rows : list dict) : str :=
  match rows with
  | [] => lit "Top flows: none."
  | _ => lit "Top flows:" ++ NL ++ join NL (map fallback_item (take 5 rows))
  end.

Definition _fallback_summary (day_iso : pyval) (rows : list dict) (reason : str) : str :=
  let head := fallback_head day_iso reason in
  let body := fallback_body rows in
  let tail := fallback_tail in
  join NL [head; body; tail].

(** The evidence snapshot that [_merge_briefing] stores. *)
Definition snapshot (rows_or_json : str + list dict) : str :=
  match rows_or_json with
  | inl s => take SRC_LIMIT s
  | inr rows => take SRC_LIMIT (json_dumps py_str (PList (map PDict rows)))
  end.

Definition merge_params (day_iso : pyval) (text : str)
    (rows_or_json : str + list dict) : Merge :=
  {| m_day := day_iso;
     m_model := MODEL w;
     m_summary := text;
     m_src := snapshot rows_or_json |}.

Definition _merge_briefing (day_iso : pyval) (text : str)
    (rows_or_json : str + list dict) : result unit :=
  query_merge w (merge_params day_iso text rows_or_json).

(** [_send_telegram]: nothing without credentials; a failing post is
    logged and dropped.  The second component is the text posted. *)
Definition _send_telegram (text : str) : result unit * option str :=
  match TG_TOKEN w, TG_CHAT w with
  | Some ((_ :: _) as token), Some ((_ :: _) as chat) =>
      let msg := take 3900 text in
      (match post_telegram w token chat msg with
       | Ok _ => Ok tt
       | Raise _ => Ok tt
       end, Some msg)
  | _, _ => (Ok tt, None)
  end.

(** The model call of either branch, up to [text.strip()] and the check
    for an empty text. *)
Definition ask_model (prompt : str) (payload : pyval) : result str :=
  match generate w prompt (json_dumps py_str payload) with
  | Ok resp_text =>
      let text := strip (match resp_text with Some t => t | None => [] end) in
      match text with
      | [] => Raise (lit "RuntimeError")
      | _ => Ok text
      end
  | Raise e => Raise e
  end.

(** The common end of both branches: persist, notify, answer. *)
Definition finish (day : pyval) (chain : str) (text : str) (rows : list dict)
    (fallback : bool) (reason : str) : result Run :=
  let merged :=
    match _merge_briefing day text (inr rows) with
    | Ok _ => true
    | Raise _ => false
    end in
  let posted :=
    if SEND_ON_FALLBACK w || negb fallback
    then snd (_send_telegram text)
    else None in
  match
    json_dumps_std py_str
      (PDict [ (lit "ok", PBool true);
               (lit "day", day);
               (lit "chain", PStr chain);
               (lit "rev", PStr (K_REVISION w));
               (lit "wrote", PBool true);
               (lit "fallback", PBool fallback);
               (lit "reason", PStr reason);
               (lit "rows", PInt (Z.of_N (len rows)));
               (lit "model", PStr (MODEL w)) ])
  with
  | Ok body =>
      Ok {| run_response :=
              (body, 200%Z, [(lit "Content-Type", lit "application/json")]);
            run_text := text;
            run_merge := merge_params day text (inr rows);
            run_merged := merged;
            run_posted := posted |}
  | Raise e => Raise e
  end.

Definition explain (request : Request) : result Run :=
  let day := py_or (_get_param request (lit "day") PNone) (PStr (yesterday w)) in
  match lower_method (py_or (_get_param request (lit "chain") PNone)
                            (PStr (lit "ethereum"))) with
  | Raise e => Raise e
  | Ok chain =>
  match client w with
  | Raise e => Raise e
  | Ok _ =>
  let bridges :=
    match _fetch_anom_bridges (query_anoms w day chain) with
    | Ok b => b
    | Raise _ => []
    end in
  match bridges with
  | _ :: _ =>
      let ev :=
        match query_evidence w day chain bridges 200 with
        | Ok rows => rows
        | Raise _ => []
        end in
      let payload :=
        PDict [ (lit "date", day);
                (lit "chain", PStr chain);
                (lit "anomaly_bridges", PList (map (cell PStr) (take 12 bridges)));
                (lit "evidence", PList (map PDict (take 100 ev))) ] in
      match ask_model PROMPT_ANOMALY payload with
      | Ok text => finish day chain text ev false []
      | Raise _ =>
          finish day chain
            (_fallback_summary day ev (lit "Anomaly detected but model failed (fallback)"))
            ev true (lit "vertex_failed")
      end
  | [] =>
      let contrast_rows :=
        match query_contrast w day chain with
        | Ok rows => rows
        | Raise _ => []
        end in
      let payload :=
        PDict [ (lit "date", day);
                (lit "chain", PStr chain);
                (lit "contrast", PList (map PDict contrast_rows)) ] in
      match ask_model PROMPT_NO_ANOMALY payload with
      | Ok text => finish day chain text contrast_rows false (lit "no_anomaly")
      | Raise _ =>
          let tops :=
            match query_evidence w day chain [] 20 with
            | Ok rows => rows
            | Raise _ => []
            end in
          let text := _fallback_summary day tops (lit "No significant anomaly") in
          let contrast_rows :=
            match contrast_rows with
            | [] => tops
            | _ => contrast_rows
            end in
          finish day chain text contrast_rows true (lit "no_anomaly_fallback")
      end
  end
  end
  end.

End Service.

(** ** Sample values *)

(** A rendering that agrees with [str()] on None, booleans, integers and
    strings. *)
Definition simple_str (v : pyval) : str :=
  match v with
  | PNone => lit "None"
  | PBool true => lit "True"
  | PBool false => lit "False"
  | PInt z => lit (DecimalString.NilZero.string_of_int (Z.to_int z))
  | PStr s => s
  | PFloat _ => lit "<float>"
  | PDecimal _ => lit "<decimal>"
  | PDate _ => lit "<date>"
  | PList _ => lit "<list>"
  | PDict _ => lit "<dict>"
  end.

Definition anom (b : string) (z n : Z) (flag : bool) : Anoms.row :=
  {| Anoms.day := Some 10%Z;
     Anoms.chain := Some ethereum;
     Anoms.bridge := Some (lit b);
     Anoms.zscore_30d := Some (qz z);
     Anoms.net_usd := Some (qz n);
     Anoms.is_anom_bridge := Some flag |}.

Definition anoms_sample : list Anoms.row :=
  [ anom "hop" 3 10 true; anom "across" (-4) 1 true;
    anom "stargate" 9 9 false; anom "synapse" 3 (-20) true ].

(** Fourteen flagged rows, with |z-score| from 1 to 14. *)
Definition anoms_fourteen : list Anoms.row :=
  [ anom "b1" 1 1 true; anom "b2" (-2) 1 true; anom "b3" 3 1 true;
    anom "b4" (-4) 1 true; anom "b5" 5 1 true; anom "b6" (-6) 1 true;
    anom "b7" 7 1 true; anom "b8" (-8) 1 true; anom "b9" 9 1 true;
    anom "b10" (-10) 1 true; anom "b11" 11 1 true; anom "b12" (-12) 1 true;
    anom "b13" 13 1 true; anom "b14" (-14) 1 true ].

(** A world in which every external call succeeds; the model answers
    "ok", the anomaly view flags nothing. *)
Definition calm_world : World :=
  {| MODEL := lit "gemini-1.5-flash-002";
     SEND_ON_FALLBACK := false;
     K_REVISION := lit "unknown";
     TG_TOKEN := None;
     TG_CHAT := None;
     yesterday := lit "2024-01-15";
     client := Ok tt;
     query_anoms := fun _ _ => Ok [];
     query_evidence := fun _ _ _ _ => Ok [];
     query_contrast := fun _ _ => Ok [];
     generate := fun _ _ => Ok (Some (lit "ok"));
     query_merge := fun _ => Ok tt;
     post_telegram := fun _ _ _ => Ok tt |}.

(** [GET /?chain=Ethereum]. *)
Definition request_get : Request :=
  {| args := [(lit "chain", lit "Ethereum")];
     is_json := false;
     get_json := Ok PNone |}.

(** [POST] with the JSON body [{"chain": 5}]. *)
Definition request_numeric_chain : Request :=
  {| args := [];
     is_json := true;
     get_json := Ok (PDict [(lit "chain", PInt 5)]) |}.

(** One evidence row whose bridge name is 900000 times the letter a. *)
Definition big_rows : list dict :=
  [ [ (lit "bridge", PStr (replicate 900000 97%N)) ] ].

(** One evidence row whose bridge name is 900000 times U+5F02. *)
Definition wide_rows : list dict :=
  [ [ (lit "bridge", PStr (replicate 900000 24322%N)) ] ].

(** The number of bytes of the UTF-8 encoding. *)
Definition utf8_size (ch : N) : N :=
  if (ch <? 128)%N then 1
  else if (ch <? 2048)%N then 2
  else if (ch <? 65536)%N then 3
  else 4.

Fixpoint utf8_len (s : str) : N :=
  match s with
  | [] => 0
  | ch :: s' => utf8_size ch + utf8_len s'
  end.

(** What the specification asks of a stored snapshot of [rows]: it is the
    serialization of the first [k] whole records, or it carries the word
    "truncated". *)
Definition snapshot_intact (py_str : pyval -> str) (rows : list dict) (src : str)
    : Prop :=
  (exists k, src = json_dumps py_str (PList (map PDict (take k rows))))
  \/ contains (lit "truncated") src = true.

(** ** Further sample values *)

(** The same world with other outcomes for the write and the
    notification. *)
Definition with_effects (w : World) (qm : Merge -> result unit)
    (pt : str -> str -> str -> result unit) : World :=
  {| MODEL := MODEL w;
     SEND_ON_FALLBACK := SEND_ON_FALLBACK w;
     K_REVISION := K_REVISION w;
     TG_TOKEN := TG_TOKEN w;
     TG_CHAT := TG_CHAT w;
     yesterday := yesterday w;
     client := client w;
     query_anoms := query_anoms w;
     query_evidence := query_evidence w;
     query_contrast := query_contrast w;
     generate := generate w;
     query_merge := qm;
     post_telegram := pt |}.

(** A world in which the view is missing, the model and the write fail,
    and the notification credentials are set. *)
Definition broken_world : World :=
  {| MODEL := lit "gemini-1.5-flash-002";
     SEND_ON_FALLBACK := false;
     K_REVISION := lit "unknown";
     TG_TOKEN := Some (lit "token");
     TG_CHAT := Some (lit "chat");
     yesterday := lit "2024-01-15";
     client := Ok tt;
     query_anoms := fun _ _ => Raise (lit "NotFound");
     query_evidence := fun _ _ _ _ => Raise (lit "BadRequest");
     query_contrast := fun _ _ => Raise (lit "BadRequest");
     generate := fun _ _ => Raise (lit "DeadlineExceeded");
     query_merge := fun _ => Raise (lit "Forbidden");
     post_telegram := fun _ _ _ => Raise (lit "ConnectionError") |}.

(** ** The MERGE statement of [_merge_briefing] *)

Module Stored.
Record row : Type := {
  day              : option Z;
  model            : option str;
  summary_text     : option str;
  source_rows_json : option str;
  created_at       : option Z
}.
End Stored.

(** [ON T.day = S.day] for the source row of day [d]. *)
Definition merge_on (d : Z) (t : Stored.row) : bool :=
  sql_eq Z.eqb (Stored.day t) (Some d).

(** The table after the MERGE, [now] being CURRENT_TIMESTAMP(): every
    matched row is updated in its four other columns; without a match the
    source row is inserted. *)
Definition merge_statement (T : list Stored.row) (d : Z) (model summary src : str)
    (now : Z) : list Stored.row :=
  if existsb (merge_on d) T
  then map (fun t =>
              if merge_on d t
              then {| Stored.day := Stored.day t;
                      Stored.model := Some model;
                      Stored.summary_text := Some summary;
                      Stored.source_rows_json := Some src;
                      Stored.created_at := Some now |}
              else t) T
  else T ++ [ {| Stored.day := Some d;
                 Stored.model := Some model;
                 Stored.summary_text := Some summary;
                 Stored.source_rows_json := Some src;
                 Stored.created_at := Some now |} ].

(** ** attest.py: [main] *)

(** The parsed command line. *)
Record Args : Type := {
  arg_chain : str;
  arg_day   : option str;
  arg_start : option str;
  arg_end   : option str;
  arg_tz    : str;
  arg_dry   : bool
}.

(** The two SELECT statements. *)
Inductive BriefingQuery : Type :=
| ByDay (d : str)
| ByRange (s e : option str).

(** The dict passed to [build_transaction]. *)
Record TxParams : Type := {
  tx_from     : str;
  tx_nonce    : Z;
  tx_chainId  : Z;
  tx_gas      : Z;
  tx_gasPrice : Z
}.

(** Environment and the outcomes of the external calls of one run of the
    publisher. *)
Record Ledger : Type := {
  yesterday_in          : str -> result str;
  bq_client             : result unit;
  read_briefings        : BriefingQuery -> result (list Briefing.row);
  ZETA_PRIVATE_KEY      : option str;
  PRIVATE_KEY           : option str;
  ZETA_CHAIN_ID         : result Z;
  ZETA_CONTRACT         : option str;
  from_key              : str -> result str;
  to_checksum_address   : str -> result str;
  get_transaction_count : str -> result Z;
  gas_price             : result Z;
  build_transaction     : Attestation -> TxParams -> result pyval;
  sign_transaction      : str -> pyval -> result str;
  send_raw_transaction  : str -> result str
}.

(** What a run prints and broadcasts, in order. *)
Inductive Event : Type :=
| Printed (line : str)
| Sent (a : Attestation) (p : TxParams) (txh : str).

(** The transactions a trace broadcast, in order. *)
Fixpoint sents (trace : list Event) : list (Attestation * TxParams) :=
  match trace with
  | [] => []
  | Sent a p _ :: rest => (a, p) :: sents rest
  | Printed _ :: rest => sents rest
  end.

(** The lines a trace printed, in order. *)
Fixpoint printed (trace : list Event) : list str :=
  match trace with
  | [] => []
  | Printed line :: rest => line :: printed rest
  | Sent _ _ _ :: rest => printed rest
  end.

(** [L] with other outcomes of signing and broadcasting. *)
Definition with_wallet (L : Ledger) (sign : str -> pyval -> result str)
    (send : str -> result str) : Ledger :=
  {| yesterday_in := yesterday_in L;
     bq_client := bq_client L;
     read_briefings := read_briefings L;
     ZETA_PRIVATE_KEY := ZETA_PRIVATE_KEY L;
     PRIVATE_KEY := PRIVATE_KEY L;
     ZETA_CHAIN_ID := ZETA_CHAIN_ID L;
     ZETA_CONTRACT := ZETA_CONTRACT L;
     from_key := from_key L;
     to_checksum_address := to_checksum_address L;
     get_transaction_count := get_transaction_count L;
     gas_price := gas_price L;
     build_transaction := build_transaction L;
     sign_transaction := sign;
     send_raw_transaction := send |}.

(** [v] as an [if] tests it, for a string or None. *)
Definition given (v : option str) : bool :=
  match v with
  | Some (_ :: _) => true
  | _ => false
  end.

(** [a or b] for strings or None. *)
Definition first_given (a b : option str) : option str :=
  if given a then a else b.

Section Publisher.
Variable lower : str -> str.
Variable keccak : str -> str.
Variable json_loads : str -> result pyval.
Variable isoformat : Z -> str.
(** [HexBytes.hex] and the built-in [str()]. *)
Variable hex : str -> str.
Variable py_str : pyval -> str.
Variable L : Ledger.

(** The line of the dry run; 8594 is the arrow. *)
Definition dry_line (a : Attestation) : str :=
  lit "[DRY] " ++ att_day a ++ lit " " ++ [8594%N] ++ lit " hash="
  ++ hex (att_summaryHash a)
  ++ lit " rows=" ++ py_str (PInt (Z.of_N (att_evidenceRows a)))
  ++ lit " anom=" ++ py_str (PBool (att_hasAnomaly a)).

Definition ok_line (a : Attestation) (txh : str) : str :=
  lit "[OK] " ++ att_day a ++ lit " tx=" ++ hex txh.

(** The loop over the rows: what it printed and sent, and how it ended. *)
Fixpoint publish_rows (chain : str) (dry : bool) (pk from : str)
    (cid gasPrice : Z) (rows : list Briefing.row) (nonce : Z)
    : list Event * result unit :=
  match rows with
  | [] => ([], Ok tt)
  | r :: rest =>
      let a := attest_row lower keccak json_loads isoformat chain r in
      let p := {| tx_from := from;
                  tx_nonce := nonce;
                  tx_chainId := cid;
                  tx_gas := 200000;
                  tx_gasPrice := gasPrice |} in
      match build_transaction L a p with
      | Raise e => ([], Raise e)
      | Ok tx =>
          if dry then
            let (trace, ended) :=
              publish_rows chain dry pk from cid gasPrice rest (nonce + 1) in
            (Printed (dry_line a) :: trace, ended)
          else
            match sign_transaction L pk tx with
            | Raise e => ([], Raise e)
            | Ok raw =>
                match send_raw_transaction L raw with
                | Raise e => ([], Raise e)
                | Ok txh =>
                    let (trace, ended) :=
                      publish_rows chain dry pk from cid gasPrice rest (nonce + 1) in
                    (Sent a p txh :: Printed (ok_line a txh) :: trace, ended)
                end
            end
      end
  end.

(** The SELECT that [main] runs. *)
Definition briefing_query (args : Args) (yesterday : str) : BriefingQuery :=
  let day :=
    if negb (given (arg_day args))
       && negb (given (arg_start args) && given (arg_end args))
    then Some yesterday
    else arg_day args in
  match day with
  | Some ((_ :: _) as d) => ByDay d
  | _ =>
      ByRange (arg_start args) (arg_end args)
  end.

Definition main (args : Args) : list Event * result unit :=
  match yesterday_in L (arg_tz args) with
  | Raise e => ([], Raise e)
  | Ok yesterday =>
  match bq_client L with
  | Raise e => ([], Raise e)
  | Ok _ =>
  match read_briefings L (briefing_query args yesterday) with
  | Raise e => ([], Raise e)
  | Ok [] =>
      ([Printed (lit "No rows from daily_briefings for given date(s).")], Ok tt)
  | Ok rows =>
      let pk := first_given (ZETA_PRIVATE_KEY L) (PRIVATE_KEY L) in
      match ZETA_CHAIN_ID L with
      | Raise e => ([], Raise e)
      | Ok cid =>
      match pk, ZETA_CONTRACT L with
      | Some ((_ :: _) as pk), Some ((_ :: _) as addr) =>
          match from_key L pk with
          | Raise e => ([], Raise e)
          | Ok from =>
          match to_checksum_address L addr with
          | Raise e => ([], Raise e)
          | Ok _ =>
          match get_transaction_count L from with
          | Raise e => ([], Raise e)
          | Ok nonce =>
          match gas_price L with
          | Raise e => ([], Raise e)
          | Ok gasPrice =>
              publish_rows (arg_chain args) (arg_dry args) pk from cid gasPrice
                           rows nonce
          end end end end
      | _, _ => ([], Raise (lit "AssertionError"))
      end end
  end end end.

(** Everything [main] does before its loop succeeded: the rows read are
    [rows], the key [pk], the sender [from], the chain id [cid], the gas
    price [gasPrice] and the account's transaction count [nonce]. *)
Definition prepared (args : Args) (rows : list Briefing.row) (pk from : str)
    (cid gasPrice nonce : Z) : Prop :=
  exists yesterday u addr checksum,
    yesterday_in L (arg_tz args) = Ok yesterday
    /\ bq_client L = Ok u
    /\ read_briefings L (briefing_query args yesterday) = Ok rows
    /\ rows <> []
    /\ first_given (ZETA_PRIVATE_KEY L) (PRIVATE_KEY L) = Some pk
    /\ pk <> []
    /\ ZETA_CHAIN_ID L = Ok cid
    /\ ZETA_CONTRACT L = Some addr
    /\ addr <> []
    /\ from_key L pk = Ok from
    /\ to_checksum_address L addr = Ok checksum
    /\ get_transaction_count L from = Ok nonce
    /\ gas_price L = Ok gasPrice.

End Publisher.

Definition calm_rows : list Briefing.row :=
  [ {| Briefing.day := 19737;
       Briefing.model := Some (lit "gemini-1.5-flash-002");
       Briefing.summary_text := Some (lit "No significant anomaly.");
       Briefing.source_rows_json := Some (lit "[]") |};
    {| Briefing.day := 19738;
       Briefing.model := Some (lit "gemini-1.5-flash-002");
       Briefing.summary_text := Some (lit "Abnormal outflow.");
       Briefing.source_rows_json := None |} ].

(** A ledger on which every call succeeds, holding two briefings; the
    transaction hash is the nonce sent. *)
Definition calm_ledger : Ledger :=
  {| yesterday_in := fun _ => Ok (lit "2024-01-15");
     bq_client := Ok tt;
     read_briefings := fun _ => Ok calm_rows;
     ZETA_PRIVATE_KEY := Some (lit "key");
     PRIVATE_KEY := None;
     ZETA_CHAIN_ID := Ok 7001%Z;
     ZETA_CONTRACT := Some (lit "0xabc");
     from_key := fun _ => Ok (lit "0xfrom");
     to_checksum_address := fun a => Ok a;
     get_transaction_count := fun _ => Ok 5%Z;
     gas_price := Ok 1%Z;
     build_transaction := fun _ _ => Ok PNone;
     sign_transaction := fun _ _ => Ok (lit "raw");
     send_raw_transaction := fun _ => Ok (lit "hash") |}.

Definition args_default : Args :=
  {| arg_chain := lit "ethereum";
     arg_day := None;
     arg_start := None;
     arg_end := None;
     arg_tz := lit "Asia/Tokyo";
     arg_dry := false |}.

Definition args_dry : Args :=
  {| arg_chain := lit "ethereum";
     arg_day := Some (lit "2024-01-15");
     arg_start := None;
     arg_end := None;
     arg_tz := lit "Asia/Tokyo";
     arg_dry := true |}.

(** The calm ledger without a contract address. *)
Definition keyless_ledger : Ledger :=
  {| yesterday_in := yesterday_in calm_ledger;
     bq_client := bq_client calm_ledger;
     read_briefings := read_briefings calm_ledger;
     ZETA_PRIVATE_KEY := Some [];
     PRIVATE_KEY := Some (lit "key");
     ZETA_CHAIN_ID := ZETA_CHAIN_ID calm_ledger;
     ZETA_CONTRACT := None;
     from_key := from_key calm_ledger;
     to_checksum_address := to_checksum_address calm_ledger;
     get_transaction_count := get_transaction_count calm_ledger;
     gas_price := gas_price calm_ledger;
     build_transaction := build_transaction calm_ledger;
     sign_transaction := sign_transaction calm_ledger;
     send_raw_transaction := send_raw_transaction calm_ledger |}.

(** The calm ledger whose node refuses the second broadcast. *)
Definition flaky_ledger : Ledger :=
  {| yesterday_in := yesterday_in calm_ledger;
     bq_client := bq_client calm_ledger;
     read_briefings := read_briefings calm_ledger;
     ZETA_PRIVATE_KEY := ZETA_PRIVATE_KEY calm_ledger;
     PRIVATE_KEY := PRIVATE_KEY calm_ledger;
     ZETA_CHAIN_ID := ZETA_CHAIN_ID calm_ledger;
     ZETA_CONTRACT := ZETA_CONTRACT calm_ledger;
     from_key := from_key calm_ledger;
     to_checksum_address := to_checksum_address calm_ledger;
     get_transaction_count := get_transaction_count calm_ledger;
     gas_price := gas_price calm_ledger;
     build_transaction := fun _ p => Ok (PInt (tx_nonce p));
     sign_transaction := fun _ tx => Ok (match tx with PInt 5 => lit "a" | _ => lit "b" end);
     send_raw_transaction := fun raw =>
       if str_eqb raw (lit "a") then Ok (lit "hash") else Raise (lit "ValueError") |}.

(* ================================================================== *)
(** * Part II: properties                                             *)
(* ================================================================== *)

(** ** Basic facts about strings and slices *)

Lemma len_length {A : Type} (l : list A) : len l = N.of_nat (List.length l).
Proof.
  induction l as [|x l IH]; simpl; [reflexivity|].
  rewrite IH. lia.
Qed.

Lemma take_firstn {A : Type} (n : N) (l : list A) :
  take n l = firstn (N.to_nat n) l.
Proof.
  revert n. induction l as [|x l IH]; intros n; simpl.
  - now rewrite firstn_nil.
  - destruct (N.eqb_spec n 0) as [->|Hn]; [reflexivity|].
    rewrite IH.
    replace (N.to_nat n) with (S (N.to_nat (N.pred n))) by lia.
    reflexivity.
Qed.

Lemma take_len_le {A : Type} (n : N) (l : list A) : (len (take n l) <= n)%N.
Proof.
  rewrite len_length, take_firstn.
  pose proof (firstn_le_length (N.to_nat n) l) as H.
  rewrite length_firstn. lia.
Qed.

Lemma take_all {A : Type} (n : N) (l : list A) :
  (len l <= n)%N -> take n l = l.
Proof.
  rewrite len_length, take_firstn. intros H.
  apply firstn_all2. lia.
Qed.

Lemma take_prefix {A : Type} (n : N) (l : list A) :
  exists rest, l = take n l ++ rest.
Proof.
  exists (skipn (N.to_nat n) l).
  rewrite take_firstn. symmetry. apply firstn_skipn.
Qed.

(** ** Rounding to binary64 *)

Unset Implicit Arguments.

Lemma pow2_pos (e : Z) : 0 < pow2 e.
Proof. apply Qpower_0_lt. reflexivity. Qed.

Lemma pow2_plus (a b : Z) : pow2 (a + b) == pow2 a * pow2 b.
Proof. apply Qpower_plus. discriminate. Qed.

Lemma pow2_lt (a b : Z) : (a < b)%Z -> pow2 a < pow2 b.
Proof. intros H. apply Qpower_lt_compat_l; [exact H|reflexivity]. Qed.

Lemma pow2_le (a b : Z) : (a <= b)%Z -> pow2 a <= pow2 b.
Proof. intros H. apply Qpower_le_compat_l; [exact H|discriminate]. Qed.

Lemma pow2_lt_inv (a b : Z) : pow2 a < pow2 b -> (a < b)%Z.
Proof. intros H. apply Qpower_lt_compat_l_inv with (q := 2); [exact H|reflexivity]. Qed.

Lemma pow2_inject (k : Z) : (0 <= k)%Z -> inject_Z (2 ^ k) == pow2 k.
Proof. intros H. now apply Zpower_Qpower. Qed.

Lemma Qlog2_spec (x : Q) : 0 < x -> pow2 (Qlog2 x) <= x /\ x < pow2 (Qlog2 x + 1).
Proof.
  intros Hx. unfold Qlog2. destruct (Qle_bool 1 x) eqn:E.
  - apply Qle_bool_iff in E.
    assert (Hf : (1 <= Qfloor x)%Z).
    { change 1%Z with (Qfloor 1). now apply Qfloor_resp_le. }
    destruct (Z.log2_spec (Qfloor x)) as [H1 H2]; [lia|].
    pose proof (Z.log2_nonneg (Qfloor x)) as Hl.
    pose proof (Qfloor_le x) as F1. pose proof (Qlt_floor x) as F2.
    split.
    + rewrite <- pow2_inject by lia. rewrite Zle_Qle in H1. lra.
    + rewrite <- pow2_inject by lia.
      assert (H3 : (Qfloor x + 1 <= 2 ^ (Z.log2 (Qfloor x) + 1))%Z)
        by (replace (Z.log2 (Qfloor x) + 1)%Z with (Z.succ (Z.log2 (Qfloor x))) by lia; lia).
      rewrite Zle_Qle in H3. lra.
  - assert (E' : x < 1).
    { apply Qnot_le_lt. intros C. apply Qle_bool_iff in C. congruence. }
    set (y := / x).
    assert (Hy : 1 < y).
    { unfold y. apply Qlt_shift_inv_l; [exact Hx|]. now rewrite Qmult_1_l. }
    assert (Hxy : x * y == 1).
    { unfold y. apply Qmult_inv_r. intros C. rewrite C in Hx. discriminate. }
    pose proof (Qle_ceiling y) as C1. pose proof (Qceiling_lt y) as C2.
    set (c := Qceiling y) in *.
    assert (Hc : (1 < c)%Z).
    { rewrite Zlt_Qlt. apply Qlt_le_trans with y; [exact Hy|exact C1]. }
    destruct (Z.log2_up_spec c Hc) as [H1 H2].
    set (k := Z.log2_up c) in *.
    assert (Hk : (0 < k)%Z) by (apply Z.log2_up_pos; exact Hc).
    assert (B1 : y <= pow2 k).
    { rewrite <- pow2_inject by lia. rewrite Zle_Qle in H2. lra. }
    assert (B2 : pow2 (k - 1) < y).
    { rewrite <- pow2_inject by lia.
      assert (H3 : (2 ^ (k - 1) <= c - 1)%Z)
        by (replace (k - 1)%Z with (Z.pred k) by lia; lia).
      rewrite Zle_Qle in H3.
      apply Qle_lt_trans with (inject_Z (c - 1)); assumption. }
    assert (P1 : pow2 (- k) * pow2 k == 1).
    { rewrite <- pow2_plus. replace (- k + k)%Z with 0%Z by lia. reflexivity. }
    assert (P2 : pow2 (- k + 1) * pow2 (k - 1) == 1).
    { rewrite <- pow2_plus. replace (- k + 1 + (k - 1))%Z with 0%Z by lia. reflexivity. }
    pose proof (pow2_pos (- k)) as Q1. pose proof (pow2_pos (- k + 1)) as Q2.
    pose proof (pow2_pos k) as Q3. pose proof (pow2_pos (k - 1)) as Q4.
    split.
    + (* pow2 (-k) <= x : pow2 (-k) * y <= pow2(-k) * pow2 k = 1 = x * y *)
      apply Qmult_le_r with y; [lra|].
      rewrite Hxy, <- P1. apply Qmult_le_l; assumption.
    + apply Qmult_lt_r with y; [lra|].
      rewrite Hxy, <- P2. apply Qmult_lt_l; assumption.
Qed.

Lemma Qlog2_unique (x : Q) (L : Z) :
  pow2 L <= x -> x < pow2 (L + 1) -> Qlog2 x = L.
Proof.
  intros H1 H2.
  assert (Hx : 0 < x) by (pose proof (pow2_pos L); lra).
  destruct (Qlog2_spec x Hx) as [S1 S2].
  assert (A : (Qlog2 x < L + 1)%Z) by (apply pow2_lt_inv; lra).
  assert (B : (L < Qlog2 x + 1)%Z) by (apply pow2_lt_inv; lra).
  lia.
Qed.

#[global] Instance Qlog2_comp : Proper (Qeq ==> eq) Qlog2.
Proof.
  intros x y E. unfold Qlog2.
  assert (H1 : Qle_bool 1 x = Qle_bool 1 y) by (apply Qleb_comp; [reflexivity|exact E]).
  assert (H2 : Qfloor x = Qfloor y) by now apply Qfloor_comp.
  assert (H3 : Qceiling (/ x) = Qceiling (/ y)).
  { apply Qceiling_comp. now apply Qinv_comp. }
  now rewrite H1, H2, H3.
Qed.

#[global] Instance rne_comp : Proper (Qeq ==> eq) rne.
Proof.
  intros x y E. unfold rne. rewrite (Qfloor_comp x y E).
  assert (H : Qcompare (x - inject_Z (Qfloor y)) (1 # 2)
              = Qcompare (y - inject_Z (Qfloor y)) (1 # 2)).
  { apply Qcompare_comp; [|reflexivity]. now rewrite E. }
  now rewrite H.
Qed.

#[global] Instance fexp_comp : Proper (Qeq ==> eq) fexp.
Proof. intros x y E. unfold fexp. now rewrite (Qlog2_comp x y E). Qed.

#[global] Instance round64_comp : Proper (Qeq ==> Qeq) round64.
Proof.
  intros x y E. unfold round64. rewrite (fexp_comp x y E).
  assert (H : rne (x / pow2 (fexp y)) = rne (y / pow2 (fexp y))).
  { apply rne_comp. now rewrite E. }
  now rewrite H.
Qed.

Lemma rne_Z (z : Z) : rne (inject_Z z) = z.
Proof.
  unfold rne. rewrite Qfloor_Z.
  replace (Qcompare (inject_Z z - inject_Z z) (1 # 2)) with Lt; [reflexivity|].
  symmetry. apply (proj1 (Qlt_alt _ _)). lra.
Qed.

Lemma rne_floor (x : Q) : (Qfloor x <= rne x <= Qfloor x + 1)%Z.
Proof. unfold rne. destruct (Qcompare _ _); [destruct (Z.even _)| |]; lia. Qed.

Lemma rne_ge (x : Q) (a : Z) : inject_Z a <= x -> (a <= rne x)%Z.
Proof.
  intros H. apply Qfloor_resp_le in H. rewrite Qfloor_Z in H.
  pose proof (rne_floor x). lia.
Qed.

Lemma rne_le (x : Q) (b : Z) : x <= inject_Z b -> (rne x <= b)%Z.
Proof.
  intros H. pose proof (Qfloor_le x) as F.
  assert (Hf : (Qfloor x <= b)%Z).
  { apply Qfloor_resp_le in H. now rewrite Qfloor_Z in H. }
  unfold rne. destruct (Qcompare_spec (x - inject_Z (Qfloor x)) (1 # 2)) as [E|E|E].
  - destruct (Z.even _); [exact Hf|].
    assert (inject_Z (Qfloor x) < inject_Z b) by lra.
    rewrite <- Zlt_Qlt in H0. lia.
  - exact Hf.
  - assert (inject_Z (Qfloor x) < inject_Z b) by lra.
    rewrite <- Zlt_Qlt in H0. lia.
Qed.

Lemma round64_0 : round64 0 == 0.
Proof. reflexivity. Qed.

Lemma round64_nonneg (x : Q) : 0 <= x -> 0 <= round64 x.
Proof.
  intros H. unfold round64.
  pose proof (pow2_pos (fexp x)) as P.
  assert (0 <= x / pow2 (fexp x)).
  { apply Qle_shift_div_l; [exact P|]. lra. }
  apply (rne_ge _ 0) in H0.
  apply Qmult_le_0_compat; [|lra].
  change 0 with (inject_Z 0). now rewrite <- Zle_Qle.
Qed.

(** A value of the form m * 2^e whose rounding exponent is e is left
    unchanged. *)
Lemma round64_exact (m e : Z) :
  fexp (inject_Z m * pow2 e) = e ->
  round64 (inject_Z m * pow2 e) == inject_Z m * pow2 e.
Proof.
  intros H. unfold round64. rewrite H.
  assert (E : inject_Z m * pow2 e / pow2 e == inject_Z m).
  { apply Qdiv_mult_l. pose proof (pow2_pos e). intros C. rewrite C in H0. discriminate. }
  now rewrite E, rne_Z.
Qed.

Lemma scaled_log2 (m e l : Z) :
  (2 ^ l <= m < 2 ^ (l + 1))%Z -> (0 <= l)%Z ->
  Qlog2 (inject_Z m * pow2 e) = (l + e)%Z.
Proof.
  intros [H1 H2] Hl. pose proof (pow2_pos e) as P.
  apply Qlog2_unique.
  - rewrite pow2_plus, <- (pow2_inject l) by lia.
    apply Qmult_le_r; [exact P|]. now rewrite <- Zle_Qle.
  - replace (l + e + 1)%Z with ((l + 1) + e)%Z by lia.
    rewrite pow2_plus, <- (pow2_inject (l + 1)) by lia.
    apply Qmult_lt_r; [exact P|]. now rewrite <- Zlt_Qlt.
Qed.

Lemma round64_idem (x : Q) : 0 < x -> round64 (round64 x) == round64 x.
Proof.
  intros Hx.
  destruct (Qlog2_spec x Hx) as [S1 S2].
  set (L := Qlog2 x) in *.
  unfold round64 at 2 3. set (e := fexp x). set (m := rne (x / pow2 e)).
  pose proof (pow2_pos e) as P.
  assert (Pne : ~ pow2 e == 0) by (intros C; rewrite C in P; discriminate).
  destruct (Z.le_gt_cases (-1074) (L - 52)) as [Hn|Hs].
  - (* normal range *)
    assert (He : e = (L - 52)%Z) by (unfold e, fexp; fold L; lia).
    assert (B1 : inject_Z (2 ^ 52) <= x / pow2 e).
    { apply Qle_shift_div_l; [exact P|].
      rewrite pow2_inject by lia. rewrite <- pow2_plus.
      replace (52 + e)%Z with L by lia. exact S1. }
    assert (B2 : x / pow2 e <= inject_Z (2 ^ 53)).
    { apply Qlt_le_weak. apply Qlt_shift_div_r; [exact P|].
      rewrite pow2_inject by lia. rewrite <- pow2_plus.
      replace (53 + e)%Z with (L + 1)%Z by lia. exact S2. }
    apply rne_ge in B1. apply rne_le in B2. fold m in B1, B2.
    destruct (Z.eq_dec m (2 ^ 53)) as [Em|Nm].
    + (* the significand carried into the next binade *)
      assert (Ev : inject_Z m * pow2 e == inject_Z (2 ^ 52) * pow2 (e + 1)).
      { rewrite Em, !pow2_inject by lia. rewrite <- !pow2_plus.
        replace (52 + (e + 1))%Z with (53 + e)%Z by lia. reflexivity. }
      rewrite Ev. apply round64_exact.
      unfold fexp. rewrite (@scaled_log2 (2 ^ 52) (e + 1) 52); lia.
    + apply round64_exact.
      unfold fexp. rewrite (@scaled_log2 m e 52); [lia| |lia].
      change (52 + 1)%Z with 53%Z. lia.
  - (* subnormal range *)
    assert (He : e = (-1074)%Z) by (unfold e, fexp; fold L; lia).
    assert (B2 : x / pow2 e <= inject_Z (2 ^ 52)).
    { apply Qlt_le_weak. apply Qlt_shift_div_r; [exact P|].
      rewrite pow2_inject by lia. rewrite <- pow2_plus.
      apply Qlt_le_trans with (pow2 (L + 1)); [exact S2|].
      apply pow2_le. lia. }
    assert (B1 : inject_Z 0 <= x / pow2 e).
    { apply Qle_shift_div_l; [exact P|]. change (inject_Z 0) with 0. lra. }
    apply rne_ge in B1. apply rne_le in B2. fold m in B1, B2.
    destruct (Z.eq_dec m 0) as [Em|Nm].
    + rewrite Em.
      assert (Z0 : inject_Z 0 * pow2 e == 0) by (change (inject_Z 0) with 0; lra).
      rewrite Z0. apply round64_0.
    + apply round64_exact.
      destruct (Z.log2_spec m) as [H1 H2]; [lia|].
      pose proof (Z.log2_nonneg m) as Hl.
      assert (Hl52 : (Z.log2 m <= 52)%Z).
      { rewrite <- (Z.log2_pow2 52) by lia. apply Z.log2_le_mono. exact B2. }
      unfold fexp. rewrite (@scaled_log2 m e (Z.log2 m)); [lia| |lia].
      unfold Z.succ in H2. lia.
Qed.

Lemma fl_0 : fl (Q2Qc 0) = Q2Qc 0.
Proof. reflexivity. Qed.

Theorem fl_idem (q : Qc) : fl (fl q) = fl q.
Proof.
  assert (H : fl q = match Qcompare q 0 with
                     | Eq => Q2Qc 0
                     | Gt => Q2Qc (round64 q)
                     | Lt => Q2Qc (- round64 (- q))
                     end) by reflexivity.
  destruct (Qcompare_spec q 0) as [E|E|E]; rewrite H.
  - reflexivity.
  - (* negative *)
    set (r := round64 (- q)).
    assert (Hr : 0 <= r) by (apply round64_nonneg; lra).
    unfold fl. cbn [this Q2Qc].
    destruct (Qcompare_spec (Qred (- r)) 0) as [F|F|F].
    + apply Q2Qc_eq_iff. rewrite Qred_correct in F. rewrite F. reflexivity.
    + apply Q2Qc_eq_iff. rewrite Qred_correct in F.
      assert (E1 : - Qred (- r) == r) by (rewrite Qred_correct; ring).
      rewrite E1.
      assert (Hi : round64 r == r) by (apply round64_idem; lra).
      rewrite Hi. reflexivity.
    + rewrite Qred_correct in F. lra.
  - set (r := round64 q).
    assert (Hr : 0 <= r) by (apply round64_nonneg; lra).
    unfold fl. cbn [this Q2Qc].
    destruct (Qcompare_spec (Qred r) 0) as [F|F|F].
    + apply Q2Qc_eq_iff. rewrite Qred_correct in F. rewrite F. reflexivity.
    + rewrite Qred_correct in F. lra.
    + apply Q2Qc_eq_iff. rewrite Qred_correct in F. rewrite Qred_correct.
      apply round64_idem. exact E.
Qed.




(** [fl] and the operations built on it give what binary64 hardware gives:
    on the tenths, on a division that does not terminate in binary, at the
    largest number and among the subnormal numbers. *)
Section MachineFloats.
Import PrimFloat.

Example fl_agrees_with_binary64 :
  let same (f : float) (q : option Qc) :=
    option_map this (float_value f) = option_map this q in
  same (1 / 10)%float (Some (fl (Q2Qc (1 # 10))))
  /\ same (3 / 10)%float (Some (fl (Q2Qc (3 # 10))))
  /\ same (1 / 10 + 2 / 10)%float
          (Some (f64_add (fl (Q2Qc (1 # 10))) (fl (Q2Qc (2 # 10)))))
  /\ same (1 / 10 + 2 / 10 - 3 / 10)%float
          (Some (f64_sub (f64_add (fl (Q2Qc (1 # 10))) (fl (Q2Qc (2 # 10))))
                         (fl (Q2Qc (3 # 10)))))
  /\ same (- (7 / 3))%float (f64_div (Q2Qc (-7 # 1)) (Q2Qc (3 # 1)))
  /\ same (0x1.fffffffffffffp+1023)%float (Some max64)
  /\ same (0x1p-1074 / 2)%float (Some (fl (Q2Qc (pow2 (-1075)))))
  /\ same (0x3p-1074 / 2)%float (Some (fl (Q2Qc (3 * pow2 (-1075)))))
  /\ same (0x1.0000000000001p+0 / 3)%float (f64_div (Q2Qc (1 + pow2 (-52))) (Q2Qc 3)).
Proof. vm_compute. repeat split. Qed.

End MachineFloats.

Set Implicit Arguments.

(** ** Facts about SQL scalars *)

Lemma Qc_eqb_eq (a b : Qc) : Qc_eqb a b = true <-> a = b.
Proof.
  unfold Qc_eqb. rewrite Qeq_bool_iff. split.
  - apply Qc_is_canon.
  - intros ->. reflexivity.
Qed.

Lemma Qc_eqb_neq (a b : Qc) : Qc_eqb a b = false <-> a <> b.
Proof.
  rewrite <- Qc_eqb_eq. destruct (Qc_eqb a b); split; congruence.
Qed.

Lemma Qc_leb_le (a b : Qc) : Qc_leb a b = true <-> (a <= b)%Qc.
Proof. unfold Qc_leb, Qcle. apply Qle_bool_iff. Qed.

Lemma str_eqb_eq (a b : str) : str_eqb a b = true <-> a = b.
Proof. unfold str_eqb. destruct (str_eq_dec a b); split; congruence. Qed.

Lemma NULLIF0_None (x : option Qc) :
  NULLIF0 x = None <-> x = None \/ x = Some 0%Qc.
Proof.
  destruct x as [v|]; simpl.
  - destruct (Qc_eqb v 0%Qc) eqn:E.
    + apply Qc_eqb_eq in E. subst. tauto.
    + apply Qc_eqb_neq in E. split; [discriminate|].
      intros [H|H]; [discriminate|]. congruence.
  - tauto.
Qed.

Lemma NULLIF0_Some (x : option Qc) (v : Qc) :
  NULLIF0 x = Some v <-> x = Some v /\ v <> 0%Qc.
Proof.
  destruct x as [w|]; simpl.
  - destruct (Qc_eqb w 0%Qc) eqn:E.
    + apply Qc_eqb_eq in E. subst. split; [discriminate|].
      intros [H1 H2]. congruence.
    + apply Qc_eqb_neq in E. split.
      * intros H. inversion H. subst. auto.
      * intros [H _]. exact H.
  - split; [discriminate|]. intros [H _]. discriminate.
Qed.

Lemma f64_div_zero (a : Qc) : f64_div a 0%Qc = None.
Proof. reflexivity. Qed.



(** The percentage column [SAFE_DIVIDE(t - r, NULLIF(r, 0))]. *)
Local Abbreviation pct t r := (SAFE_DIVIDE (sql_minus t r) (NULLIF0 r)).




(** ** Facts about SUM *)

Section AggregateFacts.
Context {A : Type} (add : A -> A -> A).
Hypothesis add_comm : forall a b, add a b = add b a.
Hypothesis add_assoc : forall a b c, add a (add b c) = add (add a b) c.

Lemma acc_None_r (x : option A) : acc add x None = x.
Proof. destruct x; reflexivity. Qed.

Lemma acc_comm (x y : option A) : acc add x y = acc add y x.
Proof. destruct x, y; simpl; try reflexivity. now rewrite add_comm. Qed.

Lemma acc_assoc (x y z : option A) :
  acc add x (acc add y z) = acc add (acc add x y) z.
Proof. destruct x, y, z; simpl; try reflexivity. now rewrite add_assoc. Qed.

Lemma SUM_app (l1 l2 : list (option A)) :
  SUM add (l1 ++ l2) = acc add (SUM add l1) (SUM add l2).
Proof.
  induction l1 as [|x l1 IH]; simpl; [reflexivity|].
  unfold SUM in *. simpl. rewrite IH. apply acc_assoc.
Qed.

Lemma SUM_Permutation (l1 l2 : list (option A)) :
  Permutation l1 l2 -> SUM add l1 = SUM add l2.
Proof.
  induction 1 as [|x l l' _ IH|x y l|l l' l'' _ IH1 _ IH2]; unfold SUM in *; simpl.
  - reflexivity.
  - now rewrite IH.
  - rewrite !acc_assoc. f_equal. apply acc_comm.
  - congruence.
Qed.

(** Summing two columns row by row. *)
Lemma SUM_pointwise {K : Type} (g h : K -> option A) (ks : list K) :
  SUM add (map (fun k => acc add (g k) (h k)) ks) =
  acc add (SUM add (map g ks)) (SUM add (map h ks)).
Proof.
  induction ks as [|k ks IH]; [reflexivity|].
  unfold SUM in *. simpl. rewrite IH.
  rewrite !acc_assoc. f_equal.
  rewrite <- !acc_assoc. f_equal. apply acc_comm.
Qed.

(** A column that is NULL except on one row of a duplicate-free list. *)
Lemma SUM_single {K : Type} (K_eq_dec : forall a b : K, {a = b} + {a <> b})
    (k0 : K) (v : option A) (ks : list K) :
  NoDup ks -> In k0 ks ->
  SUM add (map (fun k => if K_eq_dec k0 k then v else None) ks) = v.
Proof.
  induction ks as [|k ks IH]; intros Hnd Hin; [destruct Hin|].
  inversion Hnd as [|? ? Hnotin Hnd']; subst.
  unfold SUM in *. simpl.
  destruct (K_eq_dec k0 k) as [->|Hne].
  - assert (E : map (fun k' => if K_eq_dec k k' then v else None) ks
                = map (fun _ => None) ks).
    { apply map_ext_in. intros k' Hk'.
      destruct (K_eq_dec k k') as [->|]; [contradiction|reflexivity]. }
    rewrite E.
    assert (Z0 : fold_right (acc add) None (map (fun _ : K => None) ks) = None).
    { clear. induction ks; simpl; auto. }
    rewrite Z0. apply acc_None_r.
  - simpl. apply IH; [assumption|]. destruct Hin; congruence.
Qed.

(** GROUP BY splits a SUM: the sum of the group sums is the sum over all
    rows, for every duplicate-free key list that covers the rows. *)
Lemma SUM_group {R K : Type} (K_eq_dec : forall a b : K, {a = b} + {a <> b})
    (key : R -> K) (f : R -> option A) (rows : list R) (ks : list K) :
  NoDup ks -> (forall r, In r rows -> In (key r) ks) ->
  SUM add (map (fun k => SUM add (map f (group K_eq_dec key k rows))) ks) =
  SUM add (map f rows).
Proof.
  intros Hnd. induction rows as [|r rows IH]; intros Hcov.
  - simpl. clear. induction ks; simpl; auto.
  - assert (E : map (fun k => SUM add (map f (group K_eq_dec key k (r :: rows)))) ks
              = map (fun k => acc add (if K_eq_dec (key r) k then f r else None)
                                   (SUM add (map f (group K_eq_dec key k rows)))) ks).
    { apply map_ext. intros k. unfold group. simpl.
      destruct (K_eq_dec (key r) k); reflexivity. }
    rewrite E, SUM_pointwise, SUM_single, IH.
    + reflexivity.
    + intros r' Hr'. apply Hcov. now right.
    + assumption.
    + apply Hcov. now left.
Qed.

Lemma SUM_group_keys {R K : Type} (K_eq_dec : forall a b : K, {a = b} + {a <> b})
    (key : R -> K) (f : R -> option A) (rows : list R) :
  SUM add (map (fun k => SUM add (map f (group K_eq_dec key k rows)))
               (group_keys K_eq_dec key rows)) =
  SUM add (map f rows).
Proof.
  apply SUM_group.
  - apply NoDup_nodup.
  - intros r Hr. unfold group_keys. apply nodup_In. now apply in_map.
Qed.

End AggregateFacts.

(** ** Facts about joins and ordering *)

Lemma using_key_eq (a b : Key) : using_key a b = true -> a = b.
Proof.
  destruct a as [[a1|] [a2|]], b as [[b1|] [b2|]]; unfold using_key; simpl;
    rewrite ?andb_false_r; try discriminate.
  intros H. apply andb_true_iff in H. destruct H as [H1 H2].
  apply str_eqb_eq in H1, H2. now subst.
Qed.

Lemma filter_keyed_unique {V : Type} (P : Key * V -> bool) (k : Key)
    (tbl : list (Key * V)) :
  NoDup (map fst tbl) ->
  (forall e, P e = true -> fst e = k) ->
  (List.length (filter P tbl) <= 1)%nat.
Proof.
  intros Hnd HP. induction tbl as [|e tbl IH]; simpl; [lia|].
  inversion Hnd as [|? ? Hnotin Hnd']; subst.
  destruct (P e) eqn:E; [|now apply IH].
  assert (F : filter P tbl = []).
  { destruct (filter P tbl) as [|e' rest] eqn:F; [reflexivity|].
    assert (Hin : In e' (filter P tbl)) by (rewrite F; now left).
    apply filter_In in Hin. destruct Hin as [Hin He'].
    exfalso. apply Hnotin. apply in_map_iff. exists e'. split; [|assumption].
    rewrite (HP e E), (HP e' He'). reflexivity. }
  simpl. rewrite F. simpl. lia.
Qed.

Lemma left_join_cons {L R O : Type} (on : L -> R -> bool) (mk : L -> option R -> O)
    (l : L) (ls : list L) (rs : list R) :
  left_join on mk (l :: ls) rs =
  match filter (on l) rs with
  | [] => [mk l None]
  | ms => map (fun m => mk l (Some m)) ms
  end ++ left_join on mk ls rs.
Proof. reflexivity. Qed.

Lemma left_join_fst {L R : Type} (on : L -> R -> bool) (ls : list L) (rs : list R) :
  (forall l, (List.length (filter (on l) rs) <= 1)%nat) ->
  map fst (left_join on pair ls rs) = ls.
Proof.
  intros H. induction ls as [|l ls IH]; [reflexivity|].
  rewrite left_join_cons, map_app, IH.
  specialize (H l). destruct (filter (on l) rs) as [|m [|m' ms]]; simpl in *.
  - reflexivity.
  - reflexivity.
  - lia.
Qed.

Lemma keyed_map_fst {V : Type} (f : Key -> V) (ks : list Key) :
  map fst (map (fun k => (k, f k)) ks) = ks.
Proof. rewrite map_map. simpl. apply map_id. Qed.

Lemma insert_by_Permutation {R : Type} (leb : R -> R -> bool) (x : R) (l : list R) :
  Permutation (x :: l) (insert_by leb x l).
Proof.
  induction l as [|y l IH]; simpl; [apply Permutation_refl|].
  destruct (leb x y); [apply Permutation_refl|].
  eapply perm_trans; [apply perm_swap|]. now apply perm_skip.
Qed.

Lemma sort_by_Permutation {R : Type} (leb : R -> R -> bool) (l : list R) :
  Permutation l (sort_by leb l).
Proof.
  induction l as [|x l IH]; simpl; [constructor|].
  eapply perm_trans; [|apply insert_by_Permutation]. now apply perm_skip.
Qed.

Section SortFacts.
Context {R : Type} (leb : R -> R -> bool).
Hypothesis leb_total : forall a b, leb a b = true \/ leb b a = true.
Hypothesis leb_trans : forall a b c, leb a b = true -> leb b c = true -> leb a c = true.

Lemma insert_by_sorted (x : R) (l : list R) :
  StronglySorted (fun a b => leb a b = true) l ->
  StronglySorted (fun a b => leb a b = true) (insert_by leb x l).
Proof.
  induction 1 as [|y l Hs IH Hall]; simpl.
  - constructor; constructor.
  - destruct (leb x y) eqn:E.
    + constructor; [constructor; assumption|].
      constructor; [assumption|].
      eapply Forall_impl; [|exact Hall]. intros z Hz. simpl in Hz.
      now apply leb_trans with y.
    + constructor; [assumption|].
      assert (Hyx : leb y x = true).
      { destruct (leb_total x y); congruence. }
      eapply Permutation_Forall; [apply insert_by_Permutation|].
      constructor; assumption.
Qed.

Lemma sort_by_sorted (l : list R) :
  StronglySorted (fun a b => leb a b = true) (sort_by leb l).
Proof.
  induction l as [|x l IH]; simpl; [constructor|].
  now apply insert_by_sorted.
Qed.

(** The insertion engine is an admissible [ORDER BY]. *)
Lemma sort_by_ordered (l : list R) : ordered_by leb l (sort_by leb l).
Proof. split; [apply sort_by_Permutation | apply sort_by_sorted]. Qed.

End SortFacts.



(** ** The contrast query *)

Section ContrastFacts.
Variable T : FlowsTable.
Variable d : Z.
Variable c : str.

Lemma bridge_joined_left :
  map (fun j => fst (fst j)) (bridge_joined T d c) = bridge_today T d c.
Proof.
  unfold bridge_joined.
  rewrite <- (map_map fst fst).
  rewrite left_join_fst.
  - apply left_join_fst. intros l.
    apply filter_keyed_unique with (k := fst l).
    + unfold bridge_prev1. rewrite keyed_map_fst. apply NoDup_nodup.
    + intros e He. symmetry. now apply using_key_eq.
  - intros l.
    apply filter_keyed_unique with (k := fst (fst l)).
    + unfold bridge_7d. rewrite keyed_map_fst. apply NoDup_nodup.
    + intros e He. symmetry. now apply using_key_eq.
Qed.


Lemma bridge_ctx_In (r : Contrast.row) :
  In r (bridge_ctx T d c) ->
  Contrast.level r = BRIDGE_LEVEL
  /\ Contrast.net_dod_pct r =
       SAFE_DIVIDE (sql_minus (Contrast.net_usd_d r) (Contrast.net_usd_p1 r))
                   (NULLIF0 (Contrast.net_usd_p1 r))
  /\ Contrast.net_vs7d_pct r =
       SAFE_DIVIDE (sql_minus (Contrast.net_usd_d r) (Contrast.net_usd_7avg r))
                   (NULLIF0 (Contrast.net_usd_7avg r))
  /\ Contrast.net_share_of_chain r =
       SAFE_DIVIDE (Contrast.net_usd_d r) (NULLIF0 (chain_total_net T d c)).
Proof.
  unfold bridge_ctx. intros H. apply in_map_iff in H.
  destruct H as [j [<- _]]. simpl. auto.
Qed.

Lemma chain_ctx_fields :
  let r := chain_ctx T d c in
  Contrast.level r = CHAIN_LEVEL
  /\ Contrast.net_dod_pct r =
       SAFE_DIVIDE (sql_minus (Contrast.net_usd_d r) (Contrast.net_usd_p1 r))
                   (NULLIF0 (Contrast.net_usd_p1 r))
  /\ Contrast.net_vs7d_pct r =
       SAFE_DIVIDE (sql_minus (Contrast.net_usd_d r) (Contrast.net_usd_7avg r))
                   (NULLIF0 (Contrast.net_usd_7avg r))
  /\ Contrast.net_share_of_chain r = None.
Proof. simpl. auto. Qed.



Lemma level_rank_chain (r : Contrast.row) :
  Contrast.level r = CHAIN_LEVEL -> level_rank r = 0%Z.
Proof. unfold level_rank. intros ->. reflexivity. Qed.

Lemma level_rank_bridge (r : Contrast.row) :
  Contrast.level r = BRIDGE_LEVEL -> level_rank r = 1%Z.
Proof. unfold level_rank. intros ->. reflexivity. Qed.

Lemma contrast_leb_total (a b : Contrast.row) :
  contrast_leb a b = true \/ contrast_leb b a = true.
Proof.
  unfold contrast_leb.
  destruct (Z.ltb_spec (level_rank a) (level_rank b)); [now left|].
  destruct (Z.ltb_spec (level_rank b) (level_rank a)); [now right|].
  assert (E : level_rank a = level_rank b) by lia.
  rewrite E, Z.eqb_refl. simpl.
  destruct (Qclt_le_dec (abs_net a) (abs_net b)) as [Hlt|Hle].
  - right. apply Qc_leb_le. now apply Qclt_le_weak.
  - left. now apply Qc_leb_le.
Qed.

Lemma contrast_leb_trans (x y z : Contrast.row) :
  contrast_leb x y = true -> contrast_leb y z = true -> contrast_leb x z = true.
Proof.
  unfold contrast_leb. intros H1 H2.
  apply orb_true_iff in H1, H2. apply orb_true_iff.
  rewrite !andb_true_iff, !Z.ltb_lt, !Z.eqb_eq, !Qc_leb_le in *.
  destruct H1 as [H1|[E1 L1]], H2 as [H2|[E2 L2]].
  - left. lia.
  - left. lia.
  - left. lia.
  - right. split; [lia|]. now apply Qcle_trans with (abs_net y).
Qed.

(** The reference engine returns an admissible result. *)
Lemma fetch_contrast_rows_result :
  contrast_result T d c (_fetch_contrast_rows T d c).
Proof.
  apply sort_by_ordered; [apply contrast_leb_total | apply contrast_leb_trans].
Qed.

(** Every admissible result is the chain-level row followed by the
    bridge-level rows in non-increasing [ABS(COALESCE(net_usd_d, 0))]. *)
Lemma contrast_result_shape (out : list Contrast.row) :
  contrast_result T d c out ->
  exists tail,
    out = chain_ctx T d c :: tail
    /\ Permutation (bridge_ctx T d c) tail
    /\ StronglySorted (fun a b => (abs_net b <= abs_net a)%Qc) tail.
Proof.
  intros [Hp Hs]. unfold contrast_union in Hp.
  assert (Hb : forall r, In r (bridge_ctx T d c) -> level_rank r = 1%Z).
  { intros r Hr. apply level_rank_bridge. now apply bridge_ctx_In. }
  assert (Hc : level_rank (chain_ctx T d c) = 0%Z) by reflexivity.
  destruct out as [|x tail].
  { apply Permutation_sym, Permutation_nil in Hp. discriminate. }
  inversion Hs as [|? ? Hs' Hall]; subst.
  rewrite Forall_forall in Hall.
  assert (Hx : x = chain_ctx T d c).
  { assert (Ic : In (chain_ctx T d c) (x :: tail)).
    { eapply Permutation_in; [exact Hp|]. now left. }
    destruct Ic as [Ic|Ic]; [assumption|].
    assert (Ix : In x (chain_ctx T d c :: bridge_ctx T d c)).
    { eapply Permutation_in; [apply Permutation_sym; exact Hp|]. now left. }
    destruct Ix as [Ix|Ix]; [congruence|].
    specialize (Hall _ Ic). unfold contrast_leb in Hall.
    rewrite (Hb _ Ix), Hc in Hall. discriminate. }
  subst x. exists tail. split; [reflexivity|].
  assert (Hp' : Permutation (bridge_ctx T d c) tail).
  { now apply Permutation_cons_inv with (chain_ctx T d c). }
  split; [assumption|].
  assert (Ht : forall r, In r tail -> level_rank r = 1%Z).
  { intros r Hr. apply Hb. eapply Permutation_in; [apply Permutation_sym; exact Hp'|assumption]. }
  clear Hp Hs Hall Hp'. induction Hs' as [|y l Hs IH Hall]; constructor.
  - apply IH. intros r Hr. apply Ht. now right.
  - rewrite Forall_forall in *. intros z Hz.
    specialize (Hall _ Hz). unfold contrast_leb in Hall.
    rewrite (Ht y), (Ht z) in Hall by (simpl; auto). simpl in Hall.
    now apply Qc_leb_le.
Qed.

End ContrastFacts.

(** ** Claims about the contrast query *)

Lemma contrast_result_bridge_rows (T : FlowsTable) (d : Z) (c : str)
    (out : list Contrast.row) :
  contrast_result T d c out ->
  Permutation (bridge_ctx T d c) (bridge_level_rows out).
Proof.
  intros H. destruct (contrast_result_shape H) as [tail [-> [Hp _]]].
  unfold bridge_level_rows. simpl.
  replace (str_eqb (Contrast.level (chain_ctx T d c)) BRIDGE_LEVEL) with false
    by reflexivity.
  assert (E : filter (fun r => str_eqb (Contrast.level r) BRIDGE_LEVEL) tail = tail).
  { apply forallb_filter_id. apply forallb_forall. intros r Hr.
    apply str_eqb_eq. apply (@bridge_ctx_In T d c).
    eapply Permutation_in; [apply Permutation_sym; exact Hp|assumption]. }
  now rewrite E.
Qed.

Lemma contrast_result_chain_row (T : FlowsTable) (d : Z) (c : str)
    (out : list Contrast.row) (ch : Contrast.row) :
  contrast_result T d c out -> In ch out -> Contrast.level ch = CHAIN_LEVEL ->
  ch = chain_ctx T d c.
Proof.
  intros H Hin Hl. destruct (contrast_result_shape H) as [tail [-> [Hp _]]].
  destruct Hin as [Hin|Hin]; [now symmetry|].
  assert (Hb : Contrast.level ch = BRIDGE_LEVEL).
  { apply (@bridge_ctx_In T d c).
    eapply Permutation_in; [apply Permutation_sym; exact Hp|assumption]. }
  rewrite Hl in Hb. discriminate.
Qed.

Lemma contrast_result_In (T : FlowsTable) (d : Z) (c : str)
    (out : list Contrast.row) (r : Contrast.row) :
  contrast_result T d c out -> In r out ->
  r = chain_ctx T d c \/ In r (bridge_ctx T d c).
Proof.
  intros [Hp _] Hin.
  apply Permutation_sym in Hp. apply (Permutation_in _ Hp) in Hin.
  destruct Hin; [left; now symmetry | now right].
Qed.

(** *** Keys and reference columns of the bridge-level rows *)

(** The key of a row of the result. *)
Local Abbreviation row_key r := (Contrast.bridge r, Contrast.token_symbol r).

Lemma bridge_ctx_keys (T : FlowsTable) (d : Z) (c : str) :
  map (fun r => row_key r) (bridge_ctx T d c) =
  group_keys Key_eq_dec flow_key (filter (on_day d c) T).
Proof.
  unfold bridge_ctx. rewrite map_map. simpl.
  transitivity (map fst (map (fun j => fst (fst j)) (bridge_joined T d c))).
  - rewrite map_map. apply map_ext. intros [[[k t] bp] b7]. simpl.
    now destruct k.
  - rewrite bridge_joined_left. unfold bridge_today. apply keyed_map_fst.
Qed.

Lemma chain_level_rows_of_result (T : FlowsTable) (d : Z) (c : str)
    (out : list Contrast.row) :
  contrast_result T d c out ->
  filter (fun r => str_eqb (Contrast.level r) CHAIN_LEVEL) out = [chain_ctx T d c].
Proof.
  intros H. destruct (contrast_result_shape H) as [tail [-> [Hp _]]].
  simpl. replace (str_eqb (Contrast.level (chain_ctx T d c)) CHAIN_LEVEL) with true
    by reflexivity.
  f_equal. 
  destruct (filter (fun r => str_eqb (Contrast.level r) CHAIN_LEVEL) tail)
    as [|r rest] eqn:F; [reflexivity|].
  assert (Hin : In r (filter (fun r => str_eqb (Contrast.level r) CHAIN_LEVEL) tail))
    by (rewrite F; now left).
  apply filter_In in Hin. destruct Hin as [Hin Hl]. apply str_eqb_eq in Hl.
  assert (Hb : Contrast.level r = BRIDGE_LEVEL).
  { apply (@bridge_ctx_In T d c). exact (Permutation_in r (Permutation_sym Hp) Hin). }
  rewrite Hl in Hb. discriminate.
Qed.

Lemma using_key_iff (a b : Key) :
  using_key a b = true <->
  a = b /\ exists x y, a = (Some x, Some y).
Proof.
  split.
  - intros H. split; [now apply using_key_eq|].
    destruct a as [[x|] [y|]], b as [[x'|] [y'|]]; unfold using_key in H; simpl in H;
      rewrite ?andb_false_r in H; try discriminate.
    eauto.
  - intros [<- [x [y ->]]]. unfold using_key. simpl.
    apply andb_true_iff. split; apply str_eqb_eq; reflexivity.
Qed.

Lemma filter_none {A : Type} (P : A -> bool) (l : list A) :
  (forall x, In x l -> P x = false) -> filter P l = [].
Proof.
  intros H. induction l as [|x l IH]; [reflexivity|]. simpl.
  rewrite (H x (or_introl eq_refl)). apply IH. intros y Hy. apply H. now right.
Qed.

(** Looking a key up in a table that holds one entry per key. *)
Lemma keyed_filter {V : Type} (P : Key -> bool) (f : Key -> V) (k : Key)
    (ks : list Key) :
  NoDup ks -> (forall k', P k' = true <-> k' = k) -> In k ks ->
  filter (fun e => P (fst e)) (map (fun k' => (k', f k')) ks) = [(k, f k)].
Proof.
  intros Hnd HP Hin. induction ks as [|k0 ks IH]; [destruct Hin|].
  inversion Hnd as [|? ? Hnotin Hnd']; subst. simpl.
  destruct (P k0) eqn:E.
  - apply HP in E. subst k0. f_equal.
    apply filter_none. intros e He. apply in_map_iff in He.
    destruct He as [k' [<- Hk']]. simpl.
    destruct (P k') eqn:E'; [|reflexivity].
    apply HP in E'. subst k'. contradiction.
  - destruct Hin as [->|Hin].
    + assert (P k = true) by now apply HP. congruence.
    + now apply IH.
Qed.

Lemma keyed_filter_absent {V : Type} (P : Key -> bool) (f : Key -> V) (k : Key)
    (ks : list Key) :
  (forall k', P k' = true -> k' = k) -> ~ In k ks ->
  filter (fun e => P (fst e)) (map (fun k' => (k', f k')) ks) = [].
Proof.
  intros HP Hnotin. apply filter_none. intros e He. apply in_map_iff in He.
  destruct He as [k' [<- Hk']]. simpl.
  destruct (P k') eqn:E; [|reflexivity].
  apply HP in E. subst k'. contradiction.
Qed.

Lemma group_absent (k : Key) (rows : list Flow.row) :
  ~ In k (map flow_key rows) -> group Key_eq_dec flow_key k rows = [].
Proof.
  intros H. apply filter_none. intros r Hr.
  destruct (Key_eq_dec (flow_key r) k) as [E|]; [|reflexivity].
  exfalso. apply H. rewrite <- E. now apply in_map.
Qed.

Lemma left_join_lookup {L R : Type} (on : L -> R -> bool) (ls : list L) (rs : list R) :
  (forall l, (List.length (filter (on l) rs) <= 1)%nat) ->
  left_join on pair ls rs = map (fun l => (l, hd_error (filter (on l) rs))) ls.
Proof.
  intros H. induction ls as [|l ls IH]; [reflexivity|].
  rewrite left_join_cons, IH. simpl. specialize (H l).
  destruct (filter (on l) rs) as [|m [|m' ms]]; simpl in *; try reflexivity.
  lia.
Qed.

Lemma Qcdiv_1 (s : Qc) : (s / qz (1 + 0))%Qc = s.
Proof.
  replace (qz (1 + 0)) with 1%Qc by (apply Qc_is_canon; reflexivity).
  unfold Qcdiv. replace (/ 1)%Qc with 1%Qc by (apply Qc_is_canon; reflexivity).
  apply Qcmult_1_r.
Qed.

(** The average of one FLOAT64 value is the value. *)
Lemma AVG_single (v : option Qc) : AVG [CAST64 v] = CAST64 v.
Proof.
  destruct v as [s|]; [|reflexivity].
  unfold AVG. simpl. now rewrite Qcdiv_1, fl_idem.
Qed.

Lemma nodup_NoDup {A : Type} (dec : forall a b : A, {a = b} + {a <> b}) (l : list A) :
  NoDup l -> nodup dec l = l.
Proof. apply nodup_fixed_point. Qed.

(** The outer GROUP BY and AVG of [bridge_7d] change nothing: every group
    holds the one row that the inner query made for the key. *)
Lemma bridge_7d_is_window (T : FlowsTable) (d : Z) (c : str) :
  bridge_7d T d c = bridge_window T d c.
Proof.
  unfold bridge_7d.
  set (w := filter (in_window d c) T).
  set (ks := group_keys Key_eq_dec flow_key w).
  set (f := fun k : Key => usd (group Key_eq_dec flow_key k w)).
  assert (Hsub : bridge_window T d c = map (fun k => (k, f k)) ks) by reflexivity.
  rewrite Hsub.
  assert (Hnd : NoDup ks) by apply NoDup_nodup.
  unfold group_keys at 1. rewrite keyed_map_fst, (nodup_NoDup Key_eq_dec Hnd).
  apply map_ext_in. intros k Hk.
  assert (G : group Key_eq_dec fst k (map (fun k' => (k', f k')) ks) = [(k, f k)]).
  { unfold group.
    apply (@keyed_filter _ (fun k' => if Key_eq_dec k' k then true else false) f k ks).
    - exact Hnd.
    - intros k'. destruct (Key_eq_dec k' k); split; congruence.
    - exact Hk. }
  rewrite G. simpl map. rewrite !AVG_single. reflexivity.
Qed.

Lemma keyed_side (proj : Usd -> option Qc) (rows : list Flow.row) (k : Key) :
  proj (usd []) = None ->
  side proj
    (hd_error
       (filter (fun e => using_key k (fst e))
          (map (fun k' => (k', usd (group Key_eq_dec flow_key k' rows)))
               (group_keys Key_eq_dec flow_key rows)))) =
  match k with
  | (Some _, Some _) => proj (usd (group Key_eq_dec flow_key k rows))
  | _ => None
  end.
Proof.
  intros Hproj.
  pose (f := fun k' : Key => usd (group Key_eq_dec flow_key k' rows)).
  change (map (fun k' => (k', usd (group Key_eq_dec flow_key k' rows)))
              (group_keys Key_eq_dec flow_key rows))
    with (map (fun k' => (k', f k')) (group_keys Key_eq_dec flow_key rows)).
  assert (Hnull : (forall x y, k <> (Some x, Some y)) ->
            filter (fun e => using_key k (fst e))
              (map (fun k' => (k', f k')) (group_keys Key_eq_dec flow_key rows)) = []).
  { intros Hk. apply filter_none. intros e _.
    destruct (using_key k (fst e)) eqn:E; [|reflexivity].
    apply using_key_iff in E. destruct E as [_ [x [y E]]]. now apply Hk in E. }
  destruct k as [[x|] [y|]];
    try (rewrite Hnull by (intros ? ?; discriminate); reflexivity).
  destruct (in_dec Key_eq_dec (Some x, Some y) (group_keys Key_eq_dec flow_key rows))
    as [Hin|Hout].
  - rewrite (@keyed_filter _ (fun k' => using_key (Some x, Some y) k') f (Some x, Some y)).
    + reflexivity.
    + apply NoDup_nodup.
    + intros k'. rewrite using_key_iff. split; [intros [E _]; now symmetry|].
      intros ->. split; eauto.
    + exact Hin.
  - rewrite (@keyed_filter_absent _ (fun k' => using_key (Some x, Some y) k') f
               (Some x, Some y)).
    + simpl. rewrite group_absent; [now symmetry|].
      intros C. apply Hout. unfold group_keys. now apply nodup_In.
    + intros k' E. apply using_key_eq in E. now symmetry.
    + exact Hout.
Qed.

(** The reference columns of the bridge-level rows, by key. *)
Lemma bridge_ctx_references (T : FlowsTable) (d : Z) (c : str) (r : Contrast.row) :
  In r (bridge_ctx T d c) ->
  let k := (Contrast.bridge r, Contrast.token_symbol r) in
  let prev := filter (on_day (d - 1) c) T in
  let w := filter (in_window d c) T in
  let pick (proj : Usd -> option Qc) (rows : list Flow.row) :=
    match k with
    | (Some _, Some _) => proj (usd (group Key_eq_dec flow_key k rows))
    | _ => None
    end in
  Contrast.in_usd_p1 r = pick u_in prev
  /\ Contrast.out_usd_p1 r = pick u_out prev
  /\ Contrast.net_usd_p1 r = pick u_net prev
  /\ Contrast.in_usd_7avg r = pick u_in w
  /\ Contrast.out_usd_7avg r = pick u_out w
  /\ Contrast.net_usd_7avg r = pick u_net w.
Proof.
  unfold bridge_ctx, bridge_joined. rewrite bridge_7d_is_window.
  unfold bridge_prev1, bridge_window.
  rewrite (@left_join_lookup _ _ (fun bt bp => using_key (fst bt) (fst bp))).
  2:{ intros l. apply filter_keyed_unique with (k := fst l).
      - rewrite keyed_map_fst. apply NoDup_nodup.
      - intros e He. symmetry. now apply using_key_eq. }
  rewrite (@left_join_lookup _ _ (fun l b7 => using_key (fst (fst l)) (fst b7))).
  2:{ intros l. apply filter_keyed_unique with (k := fst (fst l)).
      - rewrite keyed_map_fst. apply NoDup_nodup.
      - intros e He. symmetry. now apply using_key_eq. }
  rewrite !map_map. intros H. apply in_map_iff in H.
  destruct H as [[[kb kt] tot] [<- _]].
  cbn [fst snd Contrast.bridge Contrast.token_symbol
    Contrast.in_usd_p1 Contrast.out_usd_p1 Contrast.net_usd_p1
    Contrast.in_usd_7avg Contrast.out_usd_7avg Contrast.net_usd_7avg].
  repeat split; apply (@keyed_side _ _ (kb, kt)); reflexivity.
Qed.

Lemma bridge_row_of_result (T : FlowsTable) (d : Z) (c : str)
    (out : list Contrast.row) (r : Contrast.row) :
  contrast_result T d c out -> In r out -> Contrast.level r = BRIDGE_LEVEL ->
  In r (bridge_ctx T d c).
Proof.
  intros Hres Hin Hl.
  destruct (@contrast_result_In T d c out r Hres Hin) as [->|H]; [|exact H].
  discriminate Hl.
Qed.







(** The percentage and share columns computed for [flows_sample]: the chain
    row, then the keys across/USDC and hop/USDC. *)
Example contrast_sample_values :
  map (fun r => (option_map this (Contrast.net_usd_d r),
                 option_map this (Contrast.net_dod_pct r),
                 option_map this (Contrast.net_vs7d_pct r),
                 option_map this (Contrast.net_share_of_chain r)))
      (_fetch_contrast_rows flows_sample 10 ethereum)
  = [ (Some 2, Some (-1 # 2), Some 0, None);
      (Some 7, Some (3 # 4), Some (3 # 4), Some (7 # 2));
      (Some (-5), None, None, Some (-5 # 2)) ]%Q.
Proof. vm_compute. reflexivity. Qed.












(** ** The text heuristic of the attestation publisher *)

Lemma starts_with_app (p q s : str) :
  starts_with (p ++ q) s = true -> starts_with p s = true.
Proof.
  revert s. induction p as [|a p IH]; intros s H; [reflexivity|].
  destruct s as [|b s]; simpl in *; [discriminate|].
  apply andb_true_iff in H. destruct H as [H1 H2].
  rewrite H1. simpl. now apply IH.
Qed.

(** A text that contains a word contains every prefix of the word. *)
Lemma contains_app (p q s : str) :
  contains (p ++ q) s = true -> contains p s = true.
Proof.
  induction s as [|b s IH]; simpl; intros H.
  - rewrite orb_false_r in *. now apply starts_with_app with q.
  - apply orb_true_iff in H. apply orb_true_iff. destruct H as [H|H].
    + left. now apply starts_with_app with q.
    + right. now apply IH.
Qed.

Lemma starts_with_In (p s : str) (ch : N) :
  starts_with p s = true -> In ch p -> In ch s.
Proof.
  revert s. induction p as [|a p IH]; intros s H Hin; [destruct Hin|].
  destruct s as [|b s]; simpl in H; [discriminate|].
  apply andb_true_iff in H. destruct H as [H1 H2].
  apply N.eqb_eq in H1. subst b.
  destruct Hin as [->|Hin]; [now left|right; now apply IH].
Qed.

(** A text that contains a word contains each of its characters. *)
Lemma contains_In (p s : str) (ch : N) :
  contains p s = true -> In ch p -> In ch s.
Proof.
  induction s as [|b s IH]; simpl; intros H Hin.
  - rewrite orb_false_r in H. destruct p; [destruct Hin|discriminate].
  - apply orb_true_iff in H. destruct H as [H|H].
    + exact (@starts_with_In p (b :: s) ch H Hin).
    + right. now apply IH.
Qed.

Lemma any_in_spec_bad (s : str) :
  any_in spec_bad s = true -> any_in bad s = true.
Proof.
  unfold any_in, spec_bad, bad. simpl. intros H.
  destruct (contains (lit "anomaly") s) eqn:E.
  - change (lit "anomaly") with (lit "anomal" ++ lit "y") in E.
    apply contains_app in E. now rewrite E.
  - simpl in H. rewrite H. apply orb_true_r.
Qed.

(** C5, as stated, fails: "anomalous outflow" holds none of the listed
    keywords and no negation phrase, yet it is classified anomalous, because
    the code matches the stem "anomal". *)
Lemma C5_stem_matches_beyond_listed_keywords :
  let s := lit "anomalous outflow" in
  ascii_lower s = s
  /\ any_in good s = false
  /\ any_in spec_bad s = false
  /\ decide_has_anomaly ascii_lower (Some s) = true.
Proof. repeat split. Qed.

(** C5 (amended): [decide_has_anomaly] works on the lower-cased text.  It
    returns false when that text contains a negation phrase, whatever else
    it contains; true when it contains no negation phrase and one of the
    keywords "anomal" (a stem: "anomaly", "anomalous", "anomalies"),
    "abnormal", "irregular" or their localized equivalents; and false when
    it contains none of these keywords, and for the empty and the missing
    text. *)
Theorem C5_decide_has_anomaly (lower : str -> str) (summary : str) :
  (any_in good (lower summary) = true ->
   decide_has_anomaly lower (Some summary) = false)
  /\ (summary <> [] -> any_in good (lower summary) = false ->
      any_in bad (lower summary) = true ->
      decide_has_anomaly lower (Some summary) = true)
  /\ (summary <> [] -> any_in good (lower summary) = false ->
      any_in spec_bad (lower summary) = true ->
      decide_has_anomaly lower (Some summary) = true)
  /\ (any_in bad (lower summary) = false ->
      decide_has_anomaly lower (Some summary) = false)
  /\ decide_has_anomaly lower (Some []) = false
  /\ decide_has_anomaly lower None = false.
Proof.
  unfold decide_has_anomaly.
  split; [|split; [|split; [|split; [|split]]]]; try reflexivity.
  - intros H. destruct summary; [reflexivity|]. now rewrite H.
  - intros Hne Hg Hb. destruct summary; [congruence|]. now rewrite Hg, Hb.
  - intros Hne Hg Hb. destruct summary; [congruence|].
    now rewrite Hg, (any_in_spec_bad _ Hb).
  - intros Hb. destruct summary as [|ch rest]; [reflexivity|]. rewrite Hb.
    destruct (any_in good (lower (ch :: rest))); reflexivity.
Qed.

(** Negation takes precedence over the keyword "irregular". *)
Lemma C5_decide_has_anomaly_witness :
  let s := lit "No anomaly despite irregular-looking totals." in
  any_in good (ascii_lower s) = true
  /\ any_in bad (ascii_lower s) = true
  /\ decide_has_anomaly ascii_lower (Some s) = false.
Proof.
  intros s. split; [reflexivity|]. split; [reflexivity|].
  exact (proj1 (C5_decide_has_anomaly ascii_lower s) eq_refl).
Defined.

(** The three narratives of the specification. *)
Example decide_no_significant :
  decide_has_anomaly ascii_lower
    (Some (lit "No significant anomaly detected today.")) = false.
Proof. reflexivity. Qed.

Example decide_significant_anomaly :
  decide_has_anomaly ascii_lower
    (Some (lit "We observed a significant anomaly in bridge flows.")) = true.
Proof. reflexivity. Qed.

Example decide_negation_precedence :
  decide_has_anomaly ascii_lower
    (Some (lit "No anomaly despite irregular-looking totals.")) = false.
Proof. reflexivity. Qed.

(** ** Deriving the attestation fields *)

Section AttestFacts.
Variable lower : str -> str.
Variable keccak : str -> str.
Variable json_loads : str -> result pyval.
Variable isoformat : Z -> str.

Lemma count_evidence_raise (src : str) (e : str) :
  json_loads src = Raise e -> count_evidence json_loads src = 0%N.
Proof. unfold count_evidence. now intros ->. Qed.

Lemma count_evidence_no_len (src : str) (v : pyval) (e : str) :
  json_loads src = Ok v -> py_len v = Raise e ->
  count_evidence json_loads src = 0%N.
Proof. unfold count_evidence. now intros -> ->. Qed.

Lemma count_evidence_len (src : str) (v : pyval) (n : N) :
  json_loads src = Ok v -> py_len v = Ok n ->
  count_evidence json_loads src = n.
Proof. unfold count_evidence. now intros -> ->. Qed.

End AttestFacts.

(** C10: the fields derived from a stored briefing row are defined for every
    row.  With [json.loads] reading "[]" as the empty array, a missing (or
    empty) [source_rows_json] gives evidenceRows = 0; a [source_rows_json]
    that [json.loads] rejects, or that parses to a value without a length,
    gives evidenceRows = 0 as well; and a missing [summary_text] is hashed
    as the empty string and classified as not anomalous. *)
Theorem C10_attestation_fields_total (lower : str -> str) (keccak : str -> str)
    (json_loads : str -> result pyval) (isoformat : Z -> str)
    (chain : str) (r : Briefing.row) :
  json_loads (lit "[]") = Ok (PList []) ->
  let a := attest_row lower keccak json_loads isoformat chain r in
  (Briefing.source_rows_json r = None \/ Briefing.source_rows_json r = Some [] ->
   att_evidenceRows a = 0%N)
  /\ (forall s e, Briefing.source_rows_json r = Some s ->
        json_loads s = Raise e -> att_evidenceRows a = 0%N)
  /\ (forall s v e, Briefing.source_rows_json r = Some s -> s <> [] ->
        json_loads s = Ok v -> py_len v = Raise e -> att_evidenceRows a = 0%N)
  /\ (Briefing.summary_text r = None ->
        att_summaryHash a = keccak [] /\ att_hasAnomaly a = false).
Proof.
  intros Hempty a. unfold a, attest_row. simpl.
  assert (Z0 : count_evidence json_loads (lit "[]") = 0%N).
  { now apply count_evidence_len with (v := PList []). }
  split; [|split; [|split]].
  - intros [-> | ->]; exact Z0.
  - intros s e -> He. destruct s as [|ch s]; [exact Z0|].
    exact (@count_evidence_raise json_loads (ch :: s) e He).
  - intros s v e -> Hne Hv Hl. destruct s as [|ch s]; [congruence|].
    exact (@count_evidence_no_len json_loads (ch :: s) v e Hv Hl).
  - intros ->. split; reflexivity.
Qed.

(** A row without summary whose snapshot was cut after two characters. *)
Lemma C10_attestation_fields_total_witness :
  let r := {| Briefing.day := 19737;
              Briefing.model := Some (lit "gemini-1.5-flash-002");
              Briefing.summary_text := None;
              Briefing.source_rows_json := Some (lit "[{") |} in
  let a := attest_row ascii_lower (fun s => s) loads_empty_array
                      (fun _ => lit "2024-01-15") ethereum r in
  loads_empty_array (lit "[]") = Ok (PList [])
  /\ att_evidenceRows a = 0%N
  /\ att_hasAnomaly a = false.
Proof.
  intros r a.
  assert (H : loads_empty_array (lit "[]") = Ok (PList [])) by reflexivity.
  split; [exact H|].
  destruct (@C10_attestation_fields_total ascii_lower (fun s => s)
              loads_empty_array (fun _ => lit "2024-01-15") ethereum r H)
    as [_ [H2 [_ H4]]].
  split.
  - apply (H2 (lit "[{") (lit "JSONDecodeError")); reflexivity.
  - apply H4. reflexivity.
Defined.

(** ** Ordering with NULLs last, and LIMIT *)

Lemma desc_leb_total (a b : option Qc) :
  desc_leb a b = true \/ desc_leb b a = true.
Proof.
  destruct a as [x|], b as [y|]; simpl; auto.
  destruct (Qclt_le_dec x y) as [H|H].
  - right. apply Qc_leb_le. now apply Qclt_le_weak.
  - left. now apply Qc_leb_le.
Qed.

Lemma desc_leb_trans (a b c : option Qc) :
  desc_leb a b = true -> desc_leb b c = true -> desc_leb a c = true.
Proof.
  destruct a as [x|], b as [y|], c as [z|]; simpl; try congruence.
  rewrite !Qc_leb_le. intros H1 H2. now apply Qcle_trans with y.
Qed.

Section Lexicographic.
Context {R : Type} (k1 k2 : R -> option Qc).



End Lexicographic.



Lemma take_StronglySorted {A : Type} (le : A -> A -> Prop) (n : N) (l : list A) :
  StronglySorted le l -> StronglySorted le (take n l).
Proof.
  intros H. revert n. induction H as [|x l Hs IH Hall]; intros n; simpl.
  - constructor.
  - destruct (N.eqb n 0); constructor.
    + apply IH.
    + rewrite Forall_forall in *. intros y Hy. apply Hall.
      destruct (take_prefix (N.pred n) l) as [rest E].
      rewrite E. apply in_or_app. now left.
Qed.

Lemma take_drop {A : Type} (n : N) (l : list A) : l = take n l ++ drop n l.
Proof.
  revert n. induction l as [|x l IH]; intros n; simpl; [reflexivity|].
  destruct (N.eqb n 0); simpl; [reflexivity|]. f_equal. apply IH.
Qed.

Lemma take_In {A : Type} (n : N) (l : list A) (x : A) : In x (take n l) -> In x l.
Proof.
  intros H. rewrite (take_drop n l). apply in_or_app. now left.
Qed.

(** In a sorted list everything kept by [take] precedes everything cut. *)
Lemma take_before_drop {A : Type} (le : A -> A -> Prop) (n : N) (l : list A) :
  StronglySorted le l ->
  forall a b, In a (take n l) -> In b (drop n l) -> le a b.
Proof.
  intros H. revert n. induction H as [|x l Hs IH Hall]; intros n a b; simpl.
  - intros [].
  - destruct (N.eqb n 0); [intros []|].
    intros [<-|Ha] Hb.
    + rewrite Forall_forall in Hall. apply Hall.
      rewrite (take_drop (N.pred n) l). apply in_or_app. now right.
    + now apply IH with (N.pred n).
Qed.

Lemma take_take {A : Type} (n : N) (l : list A) : take n (take n l) = take n l.
Proof.
  revert n. induction l as [|x l IH]; intros n; simpl; [reflexivity|].
  destruct (N.eqb n 0) eqn:E; simpl; [reflexivity|]. rewrite E. f_equal. apply IH.
Qed.

Lemma take_map {A B : Type} (f : A -> B) (n : N) (l : list A) :
  take n (map f l) = map f (take n l).
Proof.
  revert n. induction l as [|x l IH]; intros n; simpl; [reflexivity|].
  destruct (N.eqb n 0); simpl; [reflexivity|]. f_equal. apply IH.
Qed.


Lemma len_app {A : Type} (l1 l2 : list A) : len (l1 ++ l2) = (len l1 + len l2)%N.
Proof. induction l1 as [|x l1 IH]; simpl; [reflexivity|]. rewrite IH. lia. Qed.

(** ** The anomaly classifier *)










(** The sample view: the unflagged row is left out and the tie on
    |z-score| is decided by |net USD|. *)
Example anoms_query_sample :
  _fetch_anom_bridges (Ok (anoms_query anoms_sample 10 ethereum)) =
  Ok [Some (lit "across"); Some (lit "synapse"); Some (lit "hop")].
Proof. reflexivity. Qed.

(** Of fourteen flagged rows the twelve of largest |z-score| are returned,
    the largest first. *)
Example anoms_query_capped :
  _fetch_anom_bridges (Ok (anoms_query anoms_fourteen 10 ethereum)) =
  Ok (map (fun b => Some (lit b))
          ["b14"; "b13"; "b12"; "b11"; "b10"; "b9"; "b8"; "b7"; "b6"; "b5";
           "b4"; "b3"]%string).
Proof. reflexivity. Qed.

(** ** The stored evidence snapshot *)

Lemma replicate_succ {A : Type} (n : N) (x : A) :
  replicate (N.succ n) x = x :: replicate n x.
Proof. unfold replicate. now rewrite N.iter_succ. Qed.

Lemma len_replicate {A : Type} (n : N) (x : A) : len (replicate n x) = n.
Proof.
  induction n as [|n IH] using N.peano_ind; [reflexivity|].
  rewrite replicate_succ. simpl. now rewrite IH.
Qed.

Lemma In_replicate {A : Type} (n : N) (x y : A) : In y (replicate n x) -> y = x.
Proof.
  induction n as [|n IH] using N.peano_ind; [intros []|].
  rewrite replicate_succ. intros [H|H]; [now symmetry|now apply IH].
Qed.

Lemma flat_map_replicate {A : Type} (f : A -> list A) (n : N) (x : A) :
  f x = [x] -> flat_map f (replicate n x) = replicate n x.
Proof.
  intros Hf. induction n as [|n IH] using N.peano_ind; [reflexivity|].
  rewrite replicate_succ. simpl. now rewrite Hf, IH.
Qed.

Lemma take_replicate_app {A : Type} (m n : N) (x : A) (post : list A) :
  (m <= n)%N -> take m (replicate n x ++ post) = replicate m x.
Proof.
  revert m. induction n as [|n IH] using N.peano_ind; intros m Hm.
  - assert (m = 0%N) by lia. subst m. simpl. destruct post; reflexivity.
  - rewrite replicate_succ. simpl.
    destruct (N.eqb_spec m 0) as [->|Hne]; [reflexivity|].
    rewrite IH by lia.
    rewrite <- replicate_succ. f_equal. lia.
Qed.

Lemma take_app_ge {A : Type} (n : N) (a b : list A) :
  (len a <= n)%N -> take n (a ++ b) = a ++ take (n - len a) b.
Proof.
  revert n. induction a as [|x a IH]; intros n Hn; cbn [len app take] in *.
  - now rewrite N.sub_0_r.
  - destruct (N.eqb_spec n 0) as [->|Hne]; [exfalso; lia|].
    rewrite IH by lia. do 3 f_equal. lia.
Qed.

Lemma take_len_exact {A : Type} (n : N) (l : list A) :
  (n <= len l)%N -> len (take n l) = n.
Proof.
  rewrite !len_length, take_firstn, length_firstn. lia.
Qed.

Lemma take_short_iff {A : Type} (n : N) (l : list A) :
  take n l = l <-> (len l <= n)%N.
Proof.
  split; [|apply take_all].
  intros E. rewrite <- E. apply take_len_le.
Qed.

(** The serialization of one record with one string field. *)
Lemma json_dumps_one_field (py_str : pyval -> str) (k s : str) :
  json_dumps py_str (PList [PDict [(k, PStr s)]]) =
  (lit "[{" ++ json_string false k ++ lit ": " ++ [34%N])
  ++ flat_map (json_escape_char false) s ++ [34%N] ++ lit "}]".
Proof.
  unfold json_dumps. simpl json_text. unfold json_string.
  repeat (rewrite <- ?app_assoc; simpl app). reflexivity.
Qed.

(** A record whose string field alone exceeds the budget: the budget ends
    inside the string. *)
Lemma snapshot_long_field (py_str : pyval -> str) (n x : N) :
  json_escape_char false x = [x] ->
  (899987 <= n)%N ->
  snapshot py_str (inr [[(lit "bridge", PStr (replicate n x))]]) =
  (lit "[{" ++ json_string false (lit "bridge") ++ lit ": " ++ [34%N])
  ++ replicate 899987 x.
Proof.
  intros Hx Hn. unfold snapshot. simpl map.
  rewrite json_dumps_one_field.
  rewrite flat_map_replicate by assumption.
  rewrite take_app_ge by (vm_compute; discriminate).
  f_equal. unfold SRC_LIMIT.
  replace (900000 - len (lit "[{" ++ json_string false (lit "bridge") ++ lit ": " ++ [34%N]))%N
    with 899987%N by reflexivity.
  now apply take_replicate_app.
Qed.

Lemma len_dumps_long_field (py_str : pyval -> str) (n x : N) :
  json_escape_char false x = [x] ->
  len (json_dumps py_str (PList [PDict [(lit "bridge", PStr (replicate n x))]])) =
  (n + 16)%N.
Proof.
  intros Hx. rewrite json_dumps_one_field.
  rewrite flat_map_replicate by assumption.
  rewrite !len_app, len_replicate.
  replace (len (lit "[{")) with 2%N by reflexivity.
  replace (len (json_string false (lit "bridge"))) with 8%N by reflexivity.
  replace (len (lit ": ")) with 2%N by reflexivity.
  replace (len [34%N]) with 1%N by reflexivity.
  replace (len (lit "}]")) with 2%N by reflexivity.
  lia.
Qed.

Lemma snapshot_big_rows (py_str : pyval -> str) :
  snapshot py_str (inr big_rows) =
  (lit "[{" ++ json_string false (lit "bridge") ++ lit ": " ++ [34%N])
  ++ replicate 899987 97%N.
Proof. unfold big_rows. apply snapshot_long_field; [reflexivity|lia]. Qed.

Lemma len_snapshot_big_rows (py_str : pyval -> str) :
  len (snapshot py_str (inr big_rows)) = 900000%N.
Proof.
  rewrite snapshot_big_rows, len_app, len_replicate. reflexivity.
Qed.

Lemma utf8_len_app (a b : str) : utf8_len (a ++ b) = (utf8_len a + utf8_len b)%N.
Proof. induction a as [|x a IH]; simpl; [reflexivity|]. rewrite IH. lia. Qed.

Lemma utf8_len_replicate (n x : N) :
  utf8_len (replicate n x) = (n * utf8_size x)%N.
Proof.
  induction n as [|n IH] using N.peano_ind; [reflexivity|].
  rewrite replicate_succ. cbn [utf8_len]. rewrite IH. lia.
Qed.

(** C7, as stated, fails.  The snapshot stored for [big_rows] is cut inside
    the record: it is not the serialization of any number of whole records
    and it carries no marker.  And the budget counts characters: the
    snapshot stored for [wide_rows] holds 2699974 bytes of UTF-8. *)
Lemma C7_snapshot_cut_inside_record :
  ~ snapshot_intact simple_str big_rows (snapshot simple_str (inr big_rows))
  /\ utf8_len (snapshot simple_str (inr wide_rows)) = 2699974%N.
Proof.
  split.
  - intros [[k Hk]|Hm].
    + apply (f_equal (@len N)) in Hk. rewrite len_snapshot_big_rows in Hk.
      unfold big_rows in Hk. cbn [take] in Hk.
      destruct (N.eqb k 0).
      * discriminate Hk.
      * cbn [map] in Hk.
        rewrite len_dumps_long_field in Hk by reflexivity. discriminate Hk.
    + rewrite snapshot_big_rows in Hm.
      assert (Hin : In 116%N
                ((lit "[{" ++ json_string false (lit "bridge") ++ lit ": " ++ [34%N])
                 ++ replicate 899987 97%N)).
      { apply (@contains_In _ _ 116%N Hm). vm_compute. tauto. }
      apply in_app_or in Hin. destruct Hin as [Hin|Hin].
      * vm_compute in Hin. intuition discriminate.
      * apply In_replicate in Hin. discriminate Hin.
  - unfold wide_rows.
    rewrite snapshot_long_field by (reflexivity || lia).
    rewrite utf8_len_app, utf8_len_replicate. reflexivity.
Qed.

(** C7 (amended): every briefing write stores the first [SRC_LIMIT] =
    900000 characters of the serialized evidence (of the string itself when
    a string is passed).  The stored value is a prefix of the serialization
    of at most 900000 characters; it is the whole, hence valid,
    serialization when that has at most 900000 characters; otherwise it is
    exactly the first 900000 characters, a proper prefix to which nothing is
    added.  Every write of [explain] goes through this. *)
Theorem C7_snapshot_is_bounded_prefix (py_str : pyval -> str)
    (lower strip : str -> str) (w : World) :
  (forall (day : pyval) (text : str) (rows_or_json : str + list dict),
     let full := match rows_or_json with
                 | inl s => s
                 | inr rows => json_dumps py_str (PList (map PDict rows))
                 end in
     let src := m_src (merge_params py_str w day text rows_or_json) in
     src = take SRC_LIMIT full
     /\ (len src <= SRC_LIMIT)%N
     /\ (exists rest, full = src ++ rest)
     /\ ((len full <= SRC_LIMIT)%N -> src = full)
     /\ ((SRC_LIMIT < len full)%N -> len src = SRC_LIMIT /\ src <> full))
  /\ (forall request run,
        explain py_str lower strip w request = Ok run ->
        exists day rows,
          run_merge run = merge_params py_str w day (run_text run) (inr rows)).
Proof.
  split.
  - intros day text rows_or_json full src.
    assert (E : src = take SRC_LIMIT full).
    { unfold src, full. destruct rows_or_json; reflexivity. }
    split; [exact E|]. rewrite E.
    split; [apply take_len_le|].
    split; [apply take_prefix|].
    split; [apply take_all|].
    intros Hlt. split.
    + apply take_len_exact. lia.
    + intros C. apply take_short_iff in C. lia.
  - intros request run. unfold explain.
    destruct (lower_method lower _) as [chain|e]; [|discriminate].
    destruct (client w) as [u|e]; [|discriminate].
    assert (F : forall day text rows fb reason,
              finish py_str w day chain text rows fb reason = Ok run ->
              exists day' rows',
                run_merge run = merge_params py_str w day' (run_text run) (inr rows')).
    { intros day text rows fb reason. unfold finish.
      destruct (json_dumps_std py_str _) as [body|e]; [|discriminate].
      intros H. inversion H. simpl. eauto. }
    destruct (match _fetch_anom_bridges _ with Ok b => b | Raise _ => [] end);
      destruct (ask_model _ _ _ _ _); apply F.
Qed.

(** The write of a run in [calm_world]. *)
Lemma C7_snapshot_is_bounded_prefix_witness :
  exists run,
    explain simple_str ascii_lower ascii_strip calm_world request_get = Ok run
    /\ exists day rows,
         run_merge run =
         merge_params simple_str calm_world day (run_text run) (inr rows).
Proof.
  eexists. split; [reflexivity|].
  apply (proj2 (C7_snapshot_is_bounded_prefix simple_str ascii_lower ascii_strip
                  calm_world) request_get).
  reflexivity.
Defined.

(** ** The explain entrypoint *)

Lemma dict_get_serializable (d : dict) (k : str) (default : pyval) :
  forallb (fun kv => json_serializable (snd kv)) d = true ->
  json_serializable default = true ->
  json_serializable (dict_get d k default) = true.
Proof.
  intros Hd Hdef. induction d as [|[k' v] d IH]; simpl in *; [assumption|].
  apply andb_true_iff in Hd. destruct Hd as [Hv Hd].
  destruct (str_eqb k' k); [assumption|now apply IH].
Qed.

(** A parameter read from a JSON request is a JSON value. *)
Lemma get_param_serializable (request : Request) (name : str) :
  (forall v, get_json request = Ok v -> json_serializable v = true) ->
  json_serializable (_get_param request name PNone) = true.
Proof.
  intros Hwf. unfold _get_param.
  destruct (args_get (args request) name) as [[|ch v]|]; try reflexivity;
    (destruct (is_json request); [|reflexivity]);
    (destruct (get_json request) as [parsed|e]; [|reflexivity]);
    specialize (Hwf parsed eq_refl);
    (assert (Hp : json_serializable (py_or parsed (PDict [])) = true)
       by (unfold py_or; destruct (truthy parsed); [assumption|reflexivity]));
    (destruct (py_or parsed (PDict [])); simpl; try reflexivity);
    now apply dict_get_serializable.
Qed.

(** The common end answers 200 whatever the write and the notification
    did. *)
Lemma finish_answers (py_str : pyval -> str) (w : World) (day : pyval)
    (chain text : str) (rows : list dict) (fallback : bool) (reason : str) :
  json_serializable day = true ->
  exists run,
    finish py_str w day chain text rows fallback reason = Ok run
    /\ run_text run = text
    /\ run_response run =
       (json_text py_str true
          (PDict [ (lit "ok", PBool true);
                   (lit "day", day);
                   (lit "chain", PStr chain);
                   (lit "rev", PStr (K_REVISION w));
                   (lit "wrote", PBool true);
                   (lit "fallback", PBool fallback);
                   (lit "reason", PStr reason);
                   (lit "rows", PInt (Z.of_N (len rows)));
                   (lit "model", PStr (MODEL w)) ]),
        200%Z, [(lit "Content-Type", lit "application/json")]).
Proof.
  intros Hday. unfold finish, json_dumps_std.
  cbn [json_serializable forallb snd]. rewrite Hday. simpl andb.
  eexists. split; [reflexivity|]. split; reflexivity.
Qed.

(** C8, as stated, fails: a POST whose JSON body gives a number for
    [chain] makes [.lower()] raise outside every [try], although every
    external call succeeds; no response is built. *)
Lemma C8_numeric_chain_raises :
  explain simple_str ascii_lower ascii_strip calm_world request_numeric_chain
  = Raise (lit "AttributeError").
Proof. reflexivity. Qed.

(** C8 (amended): for every request whose [chain] parameter, when given, is
    a string, and once the BigQuery client is constructed, the response is
    HTTP 200 with a JSON body that has ok = true.  The failures of the
    anomaly lookup, the evidence and contrast queries, the model call, the
    write and the notification are all absorbed: they show only in the
    [fallback], [reason] and [rows] fields. *)
Theorem C8_explain_answers_200 (py_str : pyval -> str) (lower strip : str -> str)
    (w : World) (request : Request) :
  (exists u, client w = Ok u) ->
  (exists c, py_or (_get_param request (lit "chain") PNone) (PStr (lit "ethereum"))
             = PStr c) ->
  (forall v, get_json request = Ok v -> json_serializable v = true) ->
  exists run day chain fallback reason rows,
    explain py_str lower strip w request = Ok run
    /\ run_response run =
       (json_text py_str true
          (PDict [ (lit "ok", PBool true);
                   (lit "day", day);
                   (lit "chain", PStr chain);
                   (lit "rev", PStr (K_REVISION w));
                   (lit "wrote", PBool true);
                   (lit "fallback", PBool fallback);
                   (lit "reason", PStr reason);
                   (lit "rows", PInt rows);
                   (lit "model", PStr (MODEL w)) ]),
        200%Z, [(lit "Content-Type", lit "application/json")]).
Proof.
  intros [u Hu] [c Hc] Hwf. unfold explain. rewrite Hc, Hu. simpl lower_method.
  cbv iota beta.
  set (day := py_or (_get_param request (lit "day") PNone) (PStr (yesterday w))).
  assert (Hday : json_serializable day = true).
  { unfold day, py_or.
    destruct (truthy _); [now apply get_param_serializable|reflexivity]. }
  assert (F : forall text rows fb reason,
            exists run day' chain fallback reason' n,
              finish py_str w day (lower c) text rows fb reason = Ok run
              /\ run_response run =
                 (json_text py_str true
                    (PDict [ (lit "ok", PBool true);
                             (lit "day", day');
                             (lit "chain", PStr chain);
                             (lit "rev", PStr (K_REVISION w));
                             (lit "wrote", PBool true);
                             (lit "fallback", PBool fallback);
                             (lit "reason", PStr reason');
                             (lit "rows", PInt n);
                             (lit "model", PStr (MODEL w)) ]),
                  200%Z, [(lit "Content-Type", lit "application/json")])).
  { intros text rows fb reason.
    destruct (@finish_answers py_str w day (lower c) text rows fb reason Hday)
      as [run [E [_ R]]].
    exists run, day, (lower c), fb, reason, (Z.of_N (len rows)). auto. }
  destruct (match _fetch_anom_bridges _ with Ok b => b | Raise _ => [] end);
    destruct (ask_model _ _ _ _ _); apply F.
Qed.

(** A GET request in [calm_world]. *)
Lemma C8_explain_answers_200_witness :
  (exists u, client calm_world = Ok u)
  /\ (exists c, py_or (_get_param request_get (lit "chain") PNone)
                      (PStr (lit "ethereum")) = PStr c)
  /\ (forall v, get_json request_get = Ok v -> json_serializable v = true)
  /\ exists run,
       explain simple_str ascii_lower ascii_strip calm_world request_get = Ok run
       /\ snd (fst (run_response run)) = 200%Z.
Proof.
  assert (H1 : exists u, client calm_world = Ok u) by (exists tt; reflexivity).
  assert (H2 : exists c, py_or (_get_param request_get (lit "chain") PNone)
                               (PStr (lit "ethereum")) = PStr c)
    by (eexists; reflexivity).
  assert (H3 : forall v, get_json request_get = Ok v -> json_serializable v = true)
    by (intros v E; inversion E; reflexivity).
  split; [exact H1|]. split; [exact H2|]. split; [exact H3|].
  destruct (@C8_explain_answers_200 simple_str ascii_lower ascii_strip calm_world
              request_get H1 H2 H3)
    as [run [day [chain [fb [reason [rows [E R]]]]]]].
  exists run. split; [exact E|]. rewrite R. reflexivity.
Defined.

(** ** The fallback summary *)

Lemma starts_with_self (p s : str) : starts_with p (p ++ s) = true.
Proof.
  induction p as [|a p IH]; simpl; [reflexivity|].
  now rewrite N.eqb_refl, IH.
Qed.

Lemma contains_here (p s : str) : contains p (p ++ s) = true.
Proof.
  destruct (p ++ s) eqn:E; simpl; rewrite <- E, starts_with_self; reflexivity.
Qed.

Lemma contains_later (p a s : str) :
  contains p s = true -> contains p (a ++ s) = true.
Proof.
  intros H. induction a as [|x a IH]; simpl; [assumption|].
  rewrite IH. apply orb_true_r.
Qed.

Lemma take_nil_iff {A : Type} (l : list A) : take 5 l = [] <-> l = [].
Proof. destruct l; simpl; split; congruence. Qed.

Lemma fallback_body_take (py_str : pyval -> str) (rows : list dict) :
  fallback_body py_str rows = fallback_body py_str (take 5 rows).
Proof.
  unfold fallback_body. rewrite take_take.
  destruct rows as [|r rows]; reflexivity.
Qed.

(** The evidence query's reference engine returns an admissible result. *)
Lemma evidence_query_result (T : FlowsTable) (d : Z) (c : str)
    (bridges : list (option str)) (limit : N) :
  evidence_result T d c bridges limit (evidence_query T d c bridges limit).
Proof.
  exists (sort_by evidence_leb (evidence_rows T d c bridges)).
  split; [|reflexivity].
  apply sort_by_ordered.
  - intros a b. apply desc_leb_total.
  - intros a b c'. apply desc_leb_trans.
Qed.

(** The model call fails exactly when the client raises (a timeout is a
    raise) or the stripped text is empty. *)
Lemma ask_model_fails (py_str : pyval -> str) (strip : str -> str) (w : World)
    (prompt : str) (payload : pyval) :
  (exists e, ask_model py_str strip w prompt payload = Raise e) <->
  ((exists e, generate w prompt (json_dumps py_str payload) = Raise e)
   \/ (exists t, generate w prompt (json_dumps py_str payload) = Ok t
                 /\ strip (match t with Some s => s | None => [] end) = [])).
Proof.
  unfold ask_model.
  destruct (generate w prompt (json_dumps py_str payload)) as [t|e].
  - destruct (strip _) eqn:E; split.
    + intros _. right. exists t. auto.
    + intros _. eexists. reflexivity.
    + intros [e He]. discriminate.
    + intros [[e He]|[t' [H1 H2]]]; [discriminate|].
      inversion H1. subst t'. rewrite E in H2. discriminate.
  - split; [intros _; left|intros _]; eexists; reflexivity.
Qed.

Lemma take_app_le {A : Type} (n : N) (a b : list A) :
  (n <= len a)%N -> take n (a ++ b) = take n a.
Proof.
  revert n. induction a as [|x a IH]; intros n H; simpl in *.
  - assert (n = 0%N) by lia. subst n. now destruct b.
  - destruct (N.eqb_spec n 0); [reflexivity|]. f_equal. apply IH. lia.
Qed.

(** C9: the fallback summary is defined for every list of evidence rows,
    the empty list included, and is never empty.  It is the header with the
    day, the line "Conclusion: <reason>." with the reason verbatim, the
    flows and the action line.  The flows are "Top flows: none." for no
    rows, and otherwise one line for each of the first five rows, giving the
    row's chain, bridge, token, net, transaction count and wallet count;
    rows after the fifth change nothing.  It is a function of the day, the
    rows and the reason alone.  For rows handed back by the evidence query
    the first five are the five of largest |net_usd|, NULLs last.  And it is
    the text of a run whenever the model call raises or returns a text that
    is empty once stripped: over the evidence rows in the anomaly branch,
    over the top evidence in the routine branch. *)
Theorem C9_fallback_summary (py_str : pyval -> str) (day : pyval)
    (rows : list dict) (reason : str) :
  let s := _fallback_summary py_str day rows reason in
  let get (r : dict) (k : str) (default : pyval) : str :=
    py_str (dict_get r k default) in
  let line (r : dict) : str :=
    lit "- " ++ get r (lit "chain") PNone ++ lit "/" ++ get r (lit "bridge") PNone
    ++ lit " " ++ get r (lit "token_symbol") PNone ++ lit ": "
    ++ lit "net" ++ [8776%N]
    ++ get r (lit "net_usd") (dict_get r (lit "net_amount_usd") (PInt 0)) ++ lit ", "
    ++ lit "tx=" ++ get r (lit "tx_count") (PInt 0)
    ++ lit ", wallets=" ++ get r (lit "unique_wallets") (PInt 0) in
  let flows : str :=
    match rows with
    | [] => lit "Top flows: none."
    | _ => lit "Top flows:" ++ NL ++ join NL (map line (take 5 rows))
    end in
  s <> []
  /\ s = lit "[Cross-Chain Flow Briefing | " ++ py_str day ++ lit "]" ++ NL
         ++ lit "Conclusion: " ++ reason ++ lit "." ++ NL
         ++ flows ++ NL
         ++ lit "Action: keep watching major bridges/tokens; set threshold alerts for large addresses."
  /\ contains reason s = true
  /\ (forall day' rows' reason', day' = day -> rows' = rows -> reason' = reason ->
        _fallback_summary py_str day' rows' reason' = s)
  /\ (forall more, (5 <= len rows)%N ->
        _fallback_summary py_str day (rows ++ more) reason = s)
  /\ (forall T d c bridges limit ev,
        evidence_result T d c bridges limit ev -> rows = map evidence_dict ev ->
        take 5 rows = map evidence_dict (take 5 ev)
        /\ forall a b, In a (take 5 ev) -> In b (drop 5 ev) ->
             match Evidence.net_usd a, Evidence.net_usd b with
             | Some x, Some y => (Qcabs.Qcabs y <= Qcabs.Qcabs x)%Qc
             | Some _, None => True
             | None, Some _ => False
             | None, None => True
             end)
  /\ (forall lower strip w request run chain,
        explain py_str lower strip w request = Ok run ->
        lower_method lower (py_or (_get_param request (lit "chain") PNone)
                                  (PStr (lit "ethereum"))) = Ok chain ->
        let day' := py_or (_get_param request (lit "day") PNone)
                          (PStr (yesterday w)) in
        let got (q : result (list dict)) : list dict :=
          match q with Ok l => l | Raise _ => [] end in
        let bridges :=
          match _fetch_anom_bridges (query_anoms w day' chain) with
          | Ok b => b
          | Raise _ => []
          end in
        let ev := got (query_evidence w day' chain bridges 200) in
        let tops := got (query_evidence w day' chain [] 20) in
        let prompt := match bridges with [] => PROMPT_NO_ANOMALY | _ => PROMPT_ANOMALY end in
        let payload :=
          match bridges with
          | [] =>
              PDict [ (lit "date", day');
                      (lit "chain", PStr chain);
                      (lit "contrast",
                       PList (map PDict (got (query_contrast w day' chain)))) ]
          | _ =>
              PDict [ (lit "date", day');
                      (lit "chain", PStr chain);
                      (lit "anomaly_bridges", PList (map (cell PStr) (take 12 bridges)));
                      (lit "evidence", PList (map PDict (take 100 ev))) ]
          end in
        let fallback :=
          match bridges with
          | [] => _fallback_summary py_str day' tops (lit "No significant anomaly")
          | _ => _fallback_summary py_str day' ev
                   (lit "Anomaly detected but model failed (fallback)")
          end in
        let stripped (t : option str) : str :=
          strip (match t with Some x => x | None => [] end) in
        (forall e, generate w prompt (json_dumps py_str payload) = Raise e ->
           run_text run = fallback)
        /\ (forall t, generate w prompt (json_dumps py_str payload) = Ok t ->
              stripped t = [] -> run_text run = fallback)
        /\ (forall t, generate w prompt (json_dumps py_str payload) = Ok t ->
              stripped t <> [] -> run_text run = stripped t)).
Proof.
  intros s get line flows.
  assert (B : fallback_body py_str rows = flows).
  { unfold fallback_body, flows. destruct rows as [|r rows']; reflexivity. }
  assert (E : s = lit "[Cross-Chain Flow Briefing | " ++ py_str day ++ lit "]" ++ NL
                ++ lit "Conclusion: " ++ reason ++ lit "." ++ NL
                ++ flows ++ NL ++ fallback_tail).
  { rewrite <- B. unfold s, _fallback_summary, fallback_head. cbn [join].
    repeat rewrite <- app_assoc. reflexivity. }
  split; [rewrite E; discriminate|].
  split; [exact E|].
  split.
  { rewrite E.
    rewrite (app_assoc (lit "[Cross-Chain Flow Briefing | ")).
    rewrite (app_assoc _ (lit "]")).
    rewrite (app_assoc _ NL).
    rewrite (app_assoc _ (lit "Conclusion: ")).
    apply contains_later. apply contains_here. }
  split; [intros day' rows' reason' -> -> ->; reflexivity|].
  split.
  { intros more Hlen. unfold s, _fallback_summary. do 2 f_equal.
    rewrite (fallback_body_take py_str (rows ++ more)), (fallback_body_take py_str rows).
    now rewrite (@take_app_le _ 5 rows more Hlen). }
  split.
  - intros T d c bridges limit ev [sorted [[Hp Hs] Hev]] Hrows.
    split; [rewrite Hrows; apply take_map|].
    intros a b Ha Hb.
    assert (Hsev : StronglySorted (fun x y => evidence_leb x y = true) ev).
    { rewrite Hev. now apply take_StronglySorted. }
    pose proof (take_before_drop 5 Hsev a b Ha Hb) as H.
    unfold evidence_leb, ABS in H.
    destruct (Evidence.net_usd a), (Evidence.net_usd b); cbn in H;
      try exact I; try discriminate.
    now apply Qc_leb_le.
  - intros lower strip w request run chain H Hc day' got bridges ev tops
           prompt payload fallback stripped.
    unfold explain in H. rewrite Hc in H.
    destruct (client w) as [u|e]; [|discriminate].
    assert (F : forall dy txt rws fb rsn,
              finish py_str w dy chain txt rws fb rsn = Ok run ->
              run_text run = txt).
    { intros dy txt rws fb rsn. unfold finish.
      destruct (json_dumps_std py_str _) as [body|e]; [|discriminate].
      intros R. inversion R. reflexivity. }
    assert (G : forall pr pl fb,
              (match ask_model py_str strip w pr pl with
               | Ok txt => run_text run = txt
               | Raise _ => run_text run = fb
               end) ->
              (forall e, generate w pr (json_dumps py_str pl) = Raise e ->
                 run_text run = fb)
              /\ (forall t, generate w pr (json_dumps py_str pl) = Ok t ->
                    stripped t = [] -> run_text run = fb)
              /\ (forall t, generate w pr (json_dumps py_str pl) = Ok t ->
                    stripped t <> [] -> run_text run = stripped t)).
    { intros pr pl fb. unfold ask_model.
      destruct (generate w pr (json_dumps py_str pl)) as [t|e].
      - fold (stripped t). destruct (stripped t) as [|ch rest] eqn:Es; intros R.
        + split; [discriminate|]. split; [intros t' _ _; exact R|].
          intros t' Ht' N. inversion Ht'; subst t'. congruence.
        + split; [discriminate|]. split.
          * intros t' Ht' N. inversion Ht'; subst t'. congruence.
          * intros t' Ht' _. inversion Ht'; subst t'. now rewrite Es.
      - intros R. split; [intros e' _; exact R|]. split; discriminate. }
    subst prompt payload fallback ev tops bridges got day'. cbv beta.
    destruct (match _fetch_anom_bridges _ with Ok b => b | Raise _ => [] end)
      as [|b bs]; apply G;
      match type of H with
      | context [ask_model ?p ?st ?w' ?pr ?pl] =>
          destruct (ask_model p st w' pr pl) as [txt|err]
      end; exact (F _ _ _ _ _ H).
Qed.

(** The six evidence rows of [flows_six]: the summary is built from the
    five of largest |net_usd|, and a seventh row would change nothing. *)
Lemma C9_fallback_summary_witness :
  let ev := evidence_query flows_six 10 ethereum [] 20 in
  let rows := map evidence_dict ev in
  let day := PStr (lit "2024-01-15") in
  let reason := lit "No significant anomaly" in
  evidence_result flows_six 10 ethereum [] 20 ev
  /\ rows = map evidence_dict ev
  /\ (5 <= len rows)%N
  /\ len rows = 6%N
  /\ take 5 rows = map evidence_dict (take 5 ev)
  /\ _fallback_summary simple_str day (rows ++ [[]]) reason
     = _fallback_summary simple_str day rows reason
  /\ _fallback_summary simple_str day [] reason <> [].
Proof.
  intros ev rows day reason.
  assert (H1 : evidence_result flows_six 10 ethereum [] 20 ev)
    by apply evidence_query_result.
  assert (H2 : rows = map evidence_dict ev) by reflexivity.
  assert (H3 : (5 <= len rows)%N) by (vm_compute; discriminate).
  split; [exact H1|]. split; [exact H2|]. split; [exact H3|].
  split; [reflexivity|].
  destruct (C9_fallback_summary simple_str day rows reason)
    as [_ [_ [_ [_ [Hmore [Hev _]]]]]].
  split; [exact (proj1 (Hev flows_six 10%Z ethereum [] 20%N ev H1 H2))|].
  split; [exact (Hmore [[]] H3)|].
  exact (proj1 (C9_fallback_summary simple_str day [] reason)).
Defined.

(** The summary for the six evidence rows of [flows_six] names the five
    bridges of largest |net_usd| and leaves out across, whose net is 1. *)
Example fallback_summary_six :
  let s := _fallback_summary simple_str (PStr (lit "2024-01-15"))
             (map evidence_dict (evidence_query flows_six 10 ethereum [] 20))
             (lit "No significant anomaly") in
  contains (lit "- ethereum/hop USDC: ") s = true
  /\ contains (lit "- ethereum/celer USDC: ") s = true
  /\ contains (lit "- ethereum/synapse USDC: ") s = true
  /\ contains (lit "- ethereum/stargate USDC: ") s = true
  /\ contains (lit "- ethereum/connext USDC: ") s = true
  /\ contains (lit "across") s = false
  /\ contains (lit ", tx=1, wallets=1") s = true.
Proof. vm_compute. repeat split. Qed.

(** The summary for the empty evidence list. *)
Example fallback_summary_empty :
  _fallback_summary simple_str (PStr (lit "2024-01-15")) [] (lit "No significant anomaly")
  = lit "[Cross-Chain Flow Briefing | 2024-01-15]" ++ NL
    ++ lit "Conclusion: No significant anomaly." ++ NL
    ++ lit "Top flows: none." ++ NL
    ++ lit "Action: keep watching major bridges/tokens; set threshold alerts for large addresses.".
Proof. reflexivity. Qed.

(* ================================================================== *)
(** * Part III: further properties of the code                        *)
(* ================================================================== *)

(** ** The contrast query: rows and keys *)

(** X1: every result of the contrast query has exactly one chain-level row,
    and its bridge-level rows carry pairwise distinct (bridge, token_symbol)
    keys, which are exactly the distinct keys of the day's flow records. *)
Theorem X1_one_chain_row_and_distinct_keys (T : FlowsTable) (d : Z) (c : str)
    (out : list Contrast.row) :
  contrast_result T d c out ->
  filter (fun r => str_eqb (Contrast.level r) CHAIN_LEVEL) out = [chain_ctx T d c]
  /\ NoDup (map (fun r => row_key r) (bridge_level_rows out))
  /\ Permutation (map (fun r => row_key r) (bridge_level_rows out))
                 (nodup Key_eq_dec (map flow_key (filter (on_day d c) T)))
  /\ List.length out =
     S (List.length (nodup Key_eq_dec (map flow_key (filter (on_day d c) T)))).
Proof.
  intros H.
  assert (P : Permutation (map (fun r => row_key r) (bridge_level_rows out))
                (nodup Key_eq_dec (map flow_key (filter (on_day d c) T)))).
  { change (nodup Key_eq_dec (map flow_key (filter (on_day d c) T)))
      with (group_keys Key_eq_dec flow_key (filter (on_day d c) T)).
    rewrite <- bridge_ctx_keys. apply Permutation_map, Permutation_sym.
    now apply contrast_result_bridge_rows. }
  split; [now apply chain_level_rows_of_result|].
  split.
  { eapply Permutation_NoDup; [apply Permutation_sym; exact P|]. apply NoDup_nodup. }
  split; [exact P|].
  destruct H as [Hp _]. rewrite <- (Permutation_length Hp).
  unfold contrast_union. simpl. f_equal.
  rewrite <- (length_map (fun r => row_key r)), bridge_ctx_keys. reflexivity.
Qed.

Lemma X1_one_chain_row_and_distinct_keys_witness :
  let out := _fetch_contrast_rows flows_sample 10 ethereum in
  contrast_result flows_sample 10 ethereum out
  /\ List.length out = 3%nat.
Proof.
  intros out.
  assert (Hres : contrast_result flows_sample 10 ethereum out)
    by apply fetch_contrast_rows_result.
  split; [exact Hres|].
  destruct (@X1_one_chain_row_and_distinct_keys _ _ _ _ Hres) as [_ [_ [_ H]]].
  rewrite H. reflexivity.
Defined.

(** X2: when the table has no record for the day and chain, the result is
    the chain-level row alone; its five today-columns, both percentage
    columns and the share are NULL, not zero. *)
Theorem X2_no_records_today (T : FlowsTable) (d : Z) (c : str)
    (out : list Contrast.row) :
  contrast_result T d c out ->
  filter (on_day d c) T = [] ->
  out = [chain_ctx T d c]
  /\ Contrast.in_usd_d (chain_ctx T d c) = None
  /\ Contrast.out_usd_d (chain_ctx T d c) = None
  /\ Contrast.net_usd_d (chain_ctx T d c) = None
  /\ Contrast.txs_d (chain_ctx T d c) = None
  /\ Contrast.uw_d (chain_ctx T d c) = None
  /\ Contrast.net_dod_pct (chain_ctx T d c) = None
  /\ Contrast.net_vs7d_pct (chain_ctx T d c) = None
  /\ Contrast.net_share_of_chain (chain_ctx T d c) = None.
Proof.
  intros H Hnil.
  assert (Hb : bridge_ctx T d c = []).
  { apply map_eq_nil with (f := fun r => row_key r).
    rewrite bridge_ctx_keys, Hnil. reflexivity. }
  destruct (contrast_result_shape H) as [tail [-> [Hp _]]].
  rewrite Hb in Hp. apply Permutation_nil in Hp. subst tail.
  split; [reflexivity|].
  unfold chain_ctx, chain_today. rewrite Hnil. simpl.
  repeat split; reflexivity.
Qed.

Lemma X2_no_records_today_witness :
  let out := _fetch_contrast_rows flows_sample 11 ethereum in
  contrast_result flows_sample 11 ethereum out
  /\ filter (on_day 11 ethereum) flows_sample = []
  /\ out = [chain_ctx flows_sample 11 ethereum].
Proof.
  intros out.
  assert (Hres : contrast_result flows_sample 11 ethereum out)
    by apply fetch_contrast_rows_result.
  assert (Hnil : filter (on_day 11 ethereum) flows_sample = []) by reflexivity.
  split; [exact Hres|]. split; [exact Hnil|].
  exact (proj1 (@X2_no_records_today _ _ _ _ Hres Hnil)).
Defined.

(** ** The contrast query: the other totals *)

Ltac today_column :=
  unfold bridge_ctx; rewrite map_map; simpl;
  rewrite <- bridge_joined_left, map_map; reflexivity.

Ltac grouped_total comm assoc :=
  unfold bridge_today, chain_today, totals; simpl;
  rewrite map_map; simpl; symmetry;
  apply SUM_group_keys; [apply comm | apply assoc].

Lemma SUMz_Permutation (l1 l2 : list (option Z)) :
  Permutation l1 l2 -> SUMz l1 = SUMz l2.
Proof.
  apply SUM_Permutation; [apply Z.add_comm | apply Z.add_assoc].
Qed.

(** X3: in every result of the contrast query the chain-level row's
    [txs_d] and [uw_d], which are INT64 sums, are the SUMs of the same
    columns of the bridge-level rows. *)
Theorem X3_chain_totals_are_sums (T : FlowsTable) (d : Z) (c : str)
    (out : list Contrast.row) (ch : Contrast.row) :
  contrast_result T d c out -> In ch out -> Contrast.level ch = CHAIN_LEVEL ->
  Contrast.txs_d ch = SUMz (map Contrast.txs_d (bridge_level_rows out))
  /\ Contrast.uw_d ch = SUMz (map Contrast.uw_d (bridge_level_rows out)).
Proof.
  intros Hres Hin Hl.
  rewrite (@contrast_result_chain_row T d c out ch Hres Hin Hl).
  pose proof (@contrast_result_bridge_rows T d c out Hres) as P.
  apply Permutation_sym in P.
  split.
  - rewrite (SUMz_Permutation (Permutation_map Contrast.txs_d P)).
    replace (map Contrast.txs_d (bridge_ctx T d c))
      with (map (fun bt => t_txs (snd bt)) (bridge_today T d c)) by (symmetry; today_column).
    change (Contrast.txs_d (chain_ctx T d c)) with (t_txs (chain_today T d c)).
    unfold SUMz. grouped_total Z.add_comm Z.add_assoc.
  - rewrite (SUMz_Permutation (Permutation_map Contrast.uw_d P)).
    replace (map Contrast.uw_d (bridge_ctx T d c))
      with (map (fun bt => t_uw (snd bt)) (bridge_today T d c)) by (symmetry; today_column).
    change (Contrast.uw_d (chain_ctx T d c)) with (t_uw (chain_today T d c)).
    unfold SUMz. grouped_total Z.add_comm Z.add_assoc.
Qed.

Lemma X3_chain_totals_are_sums_witness :
  let out := _fetch_contrast_rows flows_sample 10 ethereum in
  let ch := chain_ctx flows_sample 10 ethereum in
  contrast_result flows_sample 10 ethereum out
  /\ In ch out
  /\ Contrast.level ch = CHAIN_LEVEL
  /\ Contrast.txs_d ch = SUMz (map Contrast.txs_d (bridge_level_rows out)).
Proof.
  intros out ch.
  assert (Hres : contrast_result flows_sample 10 ethereum out)
    by apply fetch_contrast_rows_result.
  assert (Hin : In ch out) by (vm_compute; left; reflexivity).
  assert (Hl : Contrast.level ch = CHAIN_LEVEL) by reflexivity.
  split; [exact Hres|]. split; [exact Hin|]. split; [exact Hl|].
  exact (proj1 (@X3_chain_totals_are_sums _ _ _ _ _ Hres Hin Hl)).
Defined.

(** ** The contrast query: the reference columns of a bridge-level row *)

(** X4: on a bridge-level row the previous-day columns are the key's sums
    over the previous day's records, cast to FLOAT64, NULL when the key has
    no record that day; a row whose bridge or token_symbol is NULL never
    finds reference values, so all its reference and percentage columns are
    NULL; and the transaction and wallet references are NULL on every
    bridge-level row. *)
Theorem X4_bridge_previous_day (T : FlowsTable) (d : Z) (c : str)
    (out : list Contrast.row) (r : Contrast.row) :
  contrast_result T d c out -> In r out -> Contrast.level r = BRIDGE_LEVEL ->
  (forall b t, Contrast.bridge r = Some b -> Contrast.token_symbol r = Some t ->
     let g := group Key_eq_dec flow_key (Some b, Some t)
                    (filter (on_day (d - 1) c) T) in
     Contrast.in_usd_p1 r = CAST64 (SUMq (map Flow.in_amount_usd g))
     /\ Contrast.out_usd_p1 r = CAST64 (SUMq (map Flow.out_amount_usd g))
     /\ Contrast.net_usd_p1 r = CAST64 (SUMq (map Flow.net_amount_usd g))
     /\ (g = [] -> Contrast.net_usd_p1 r = None /\ Contrast.net_dod_pct r = None))
  /\ (Contrast.bridge r = None \/ Contrast.token_symbol r = None ->
      Contrast.in_usd_p1 r = None /\ Contrast.out_usd_p1 r = None
      /\ Contrast.net_usd_p1 r = None /\ Contrast.in_usd_7avg r = None
      /\ Contrast.out_usd_7avg r = None /\ Contrast.net_usd_7avg r = None
      /\ Contrast.net_dod_pct r = None /\ Contrast.net_vs7d_pct r = None)
  /\ Contrast.txs_p1 r = None /\ Contrast.uw_p1 r = None
  /\ Contrast.txs_7avg r = None /\ Contrast.uw_7avg r = None.
Proof.
  intros Hres Hin Hl.
  pose proof (@bridge_row_of_result T d c out r Hres Hin Hl) as Hb.
  destruct (@bridge_ctx_references T d c r Hb) as [P1 [P2 [P3 [W1 [W2 W3]]]]].
  destruct (@bridge_ctx_In T d c r Hb) as [_ [D1 [D2 _]]].
  split; [|split].
  - intros b t Eb Et g. rewrite Eb, Et in P1, P2, P3.
    split; [exact P1|]. split; [exact P2|]. split; [exact P3|].
    intros Hg. fold g in P3. rewrite Hg in P3. simpl in P3.
    split; [exact P3|]. rewrite D1, P3. now destruct (Contrast.net_usd_d r).
  - intros Hnull.
    assert (E : forall (proj : Usd -> option Qc) rows,
              match (Contrast.bridge r, Contrast.token_symbol r) with
              | (Some _, Some _) =>
                  proj (usd (group Key_eq_dec flow_key
                               (Contrast.bridge r, Contrast.token_symbol r) rows))
              | _ => None
              end = None).
    { intros proj rows. destruct Hnull as [-> | ->]; [reflexivity|].
      now destruct (Contrast.bridge r). }
    rewrite E in P1, P2, P3, W1, W2, W3.
    rewrite D1, D2, P3, W3.
    repeat split; try assumption; now destruct (Contrast.net_usd_d r).
  - unfold bridge_ctx in Hb. apply in_map_iff in Hb.
    destruct Hb as [j [<- _]]. simpl. repeat split.
Qed.

Lemma X4_bridge_previous_day_witness :
  let out := _fetch_contrast_rows flows_sample 10 ethereum in
  exists r,
    contrast_result flows_sample 10 ethereum out
    /\ In r out
    /\ Contrast.level r = BRIDGE_LEVEL
    /\ Contrast.bridge r = Some (lit "hop")
    /\ Contrast.net_dod_pct r = None.
Proof.
  intros out.
  assert (Hres : contrast_result flows_sample 10 ethereum out)
    by apply fetch_contrast_rows_result.
  exists (nth 2 out (chain_ctx flows_sample 10 ethereum)).
  assert (Hin : In (nth 2 out (chain_ctx flows_sample 10 ethereum)) out)
    by (vm_compute; right; right; left; reflexivity).
  assert (Hl : Contrast.level (nth 2 out (chain_ctx flows_sample 10 ethereum))
               = BRIDGE_LEVEL) by reflexivity.
  split; [exact Hres|]. split; [exact Hin|]. split; [exact Hl|].
  split; [reflexivity|].
  destruct (@X4_bridge_previous_day _ _ _ _ _ Hres Hin Hl) as [H _].
  apply (H (lit "hop") (lit "USDC")); reflexivity.
Defined.

(** X5: on a bridge-level row the three [_7avg] columns hold the key's sums
    over all records of the trailing window, cast to FLOAT64: the inner
    query of [bridge_7d] groups by key alone, so the outer AVG averages a
    single row and the total is not divided by the number of days. *)
Theorem X5_bridge_7avg_is_window_total (T : FlowsTable) (d : Z) (c : str)
    (out : list Contrast.row) (r : Contrast.row) :
  contrast_result T d c out -> In r out -> Contrast.level r = BRIDGE_LEVEL ->
  forall b t, Contrast.bridge r = Some b -> Contrast.token_symbol r = Some t ->
    let g := group Key_eq_dec flow_key (Some b, Some t)
                   (filter (in_window d c) T) in
    Contrast.in_usd_7avg r = CAST64 (SUMq (map Flow.in_amount_usd g))
    /\ Contrast.out_usd_7avg r = CAST64 (SUMq (map Flow.out_amount_usd g))
    /\ Contrast.net_usd_7avg r = CAST64 (SUMq (map Flow.net_amount_usd g)).
Proof.
  intros Hres Hin Hl b t Eb Et g.
  pose proof (@bridge_row_of_result T d c out r Hres Hin Hl) as Hb.
  destruct (@bridge_ctx_references T d c r Hb) as [_ [_ [_ [W1 [W2 W3]]]]].
  rewrite Eb, Et in W1, W2, W3. auto.
Qed.

(** With 4 on day 9 and 6 on day 8 the column holds 10, not 5. *)
Lemma X5_bridge_7avg_is_window_total_witness :
  let out := _fetch_contrast_rows flows_history 10 ethereum in
  let r := nth 1 out (chain_ctx flows_history 10 ethereum) in
  contrast_result flows_history 10 ethereum out
  /\ In r out
  /\ Contrast.level r = BRIDGE_LEVEL
  /\ Contrast.net_usd_7avg r =
     CAST64 (SUMq [Some (qz (4 - 0)); Some (qz (6 - 0))]).
Proof.
  intros out r.
  assert (Hres : contrast_result flows_history 10 ethereum out)
    by apply fetch_contrast_rows_result.
  assert (Hin : In r out) by (vm_compute; right; left; reflexivity).
  assert (Hl : Contrast.level r = BRIDGE_LEVEL) by reflexivity.
  split; [exact Hres|]. split; [exact Hin|]. split; [exact Hl|].
  destruct (@X5_bridge_7avg_is_window_total _ _ _ _ _ Hres Hin Hl
              (lit "across") (lit "USDC") eq_refl eq_refl) as [_ [_ H]].
  exact H.
Defined.

Example bridge_7avg_sample :
  map (fun r => option_map this (Contrast.net_usd_7avg r))
      (_fetch_contrast_rows flows_history 10 ethereum)
  = [Some 5; Some 10]%Q.
Proof. reflexivity. Qed.

(** ** The contrast query: the chain-level average *)

Lemma SUM_Some_count {A : Type} (add : A -> A -> A) (l : list (option A)) (s : A) :
  SUM add l = Some s -> (1 <= count_non_null l)%Z.
Proof.
  revert s. induction l as [|x l IH]; intros s; [discriminate|].
  unfold SUM in *. destruct x as [a|]; cbn [count_non_null fold_right acc].
  - intros _. assert (0 <= count_non_null l)%Z; [|lia].
    clear. induction l as [|[b|] l IH]; cbn [count_non_null]; lia.
  - intros H. now apply IH with s.
Qed.

Lemma count_non_null_le {A : Type} (l : list (option A)) :
  (count_non_null l <= Z.of_nat (List.length l))%Z.
Proof.
  induction l as [|[a|] l IH]; cbn [count_non_null List.length];
    rewrite ?Nat2Z.inj_succ; lia.
Qed.

(** At most seven distinct days fall in the window. *)
Lemma window_days_le_7 (T : FlowsTable) (d : Z) (c : str) :
  (List.length (group_keys day_eq_dec Flow.day (filter (in_window d c) T)) <= 7)%nat.
Proof.
  set (ks := group_keys day_eq_dec Flow.day (filter (in_window d c) T)).
  assert (Hnd : NoDup ks) by apply NoDup_nodup.
  assert (Hin : incl ks (map (fun i => Some (d - 7 + Z.of_nat i)%Z) (seq 0 7))).
  { intros k Hk. unfold ks, group_keys in Hk. apply nodup_In in Hk.
    apply in_map_iff in Hk. destruct Hk as [r [<- Hr]].
    apply filter_In in Hr. destruct Hr as [_ Hw].
    unfold in_window in Hw. apply andb_true_iff in Hw. destruct Hw as [_ Hw].
    destruct (Flow.day r) as [v|]; [|discriminate]. simpl in Hw.
    apply andb_true_iff in Hw. destruct Hw as [H1 H2].
    apply Z.leb_le in H1, H2.
    apply in_map_iff. exists (Z.to_nat (v - (d - 7))). split.
    - f_equal. lia.
    - apply in_seq. lia. }
  pose proof (NoDup_incl_length Hnd Hin) as H.
  now rewrite length_map, length_seq in H.
Qed.

Lemma SUM_None_iff {A : Type} (add : A -> A -> A) (l : list (option A)) :
  SUM add l = None <-> (forall x, In x l -> x = None).
Proof.
  unfold SUM. induction l as [|x l IH]; cbn [fold_right].
  - split; [intros _ x []|reflexivity].
  - destruct x as [a|].
    + split.
      * destruct (fold_right (acc add) None l); discriminate.
      * intros H. discriminate (H (Some a) (or_introl eq_refl)).
    + cbn [acc]. rewrite IH. split.
      * intros H x [<-|Hx]; [reflexivity|now apply H].
      * intros H x Hx. apply H. now right.
Qed.

(** The rows of a window whose records all carry one day form one group. *)
Lemma group_single_day (w : list Flow.row) (dy : option Z) :
  group_keys day_eq_dec Flow.day w = [dy] -> group day_eq_dec Flow.day dy w = w.
Proof.
  intros H. unfold group. apply forallb_filter_id. apply forallb_forall.
  intros r Hr. destruct (day_eq_dec (Flow.day r) dy) as [|N]; [reflexivity|].
  exfalso. assert (Hin : In (Flow.day r) (group_keys day_eq_dec Flow.day w)).
  { unfold group_keys. apply nodup_In. now apply in_map. }
  rewrite H in Hin. destruct Hin as [E|[]]. now apply N.
Qed.

(** X6: the chain-level [net_usd_7avg] is the FLOAT64 average of one value
    per day of the window that has a record, the day's total net: the
    FLOAT64 sum of these daily totals, added in some order, is divided by
    the number of them that are not NULL, between 1 and 7, and not by 7.  With records on a single
    day the average is that day's total.  It is NULL when the window holds
    no net at all, and all five averages are NULL when the window holds no
    record. *)
Theorem X6_chain_7avg_divides_by_days_present (T : FlowsTable) (d : Z) (c : str)
    (out : list Contrast.row) (ch : Contrast.row) :
  contrast_result T d c out -> In ch out -> Contrast.level ch = CHAIN_LEVEL ->
  let w := filter (in_window d c) T in
  let days := group_keys day_eq_dec Flow.day w in
  let daily :=
    map (fun dy => CAST64 (SUMq (map Flow.net_amount_usd
                                   (group day_eq_dec Flow.day dy w)))) days in
  let n := count_non_null daily in
  (exists summed, Permutation summed daily
     /\ Contrast.net_usd_7avg ch = AVG summed
     /\ (SUMq (map Flow.net_amount_usd w) <> None ->
           exists s, SUM64 summed = Some s
                     /\ Contrast.net_usd_7avg ch = Some (fl (s / qz n))))
  /\ (List.length days <= 7)%nat
  /\ (SUMq (map Flow.net_amount_usd w) = None -> Contrast.net_usd_7avg ch = None)
  /\ (SUMq (map Flow.net_amount_usd w) <> None -> (1 <= n <= 7)%Z)
  /\ (forall dy, days = [dy] ->
        Contrast.net_usd_7avg ch = CAST64 (SUMq (map Flow.net_amount_usd w)))
  /\ (w = [] ->
        Contrast.in_usd_7avg ch = None /\ Contrast.out_usd_7avg ch = None
        /\ Contrast.net_usd_7avg ch = None /\ Contrast.txs_7avg ch = None
        /\ Contrast.uw_7avg ch = None).
Proof.
  intros Hres Hin Hl w days daily n.
  rewrite (@contrast_result_chain_row T d c out ch Hres Hin Hl).
  assert (E : Contrast.net_usd_7avg (chain_ctx T d c) = AVG daily).
  { unfold chain_ctx, chain_7d, chain_daily. cbn [Contrast.net_usd_7avg a_net].
    now rewrite map_map. }
  assert (Hdays : (List.length days <= 7)%nat) by apply window_days_le_7.
  assert (Hsum : SUMq (map Flow.net_amount_usd w) <> None ->
                 exists s, SUM64 daily = Some s).
  { intros H.
    assert (Hs : SUM64 daily <> None).
    { intros C. apply H. apply SUM_None_iff. intros x Hx.
      apply in_map_iff in Hx. destruct Hx as [r [<- Hr]].
      destruct (Flow.net_amount_usd r) as [v|] eqn:Ev; [|reflexivity]. exfalso.
      assert (Hd : In (Flow.day r) days).
      { unfold days, group_keys. apply nodup_In. now apply in_map. }
      assert (Hg : In (CAST64 (SUMq (map Flow.net_amount_usd
                                       (group day_eq_dec Flow.day (Flow.day r) w))))
                      daily).
      { unfold daily. apply in_map_iff. exists (Flow.day r). now split. }
      apply (proj1 (SUM_None_iff f64_add daily) C) in Hg.
      destruct (SUMq (map Flow.net_amount_usd
                        (group day_eq_dec Flow.day (Flow.day r) w))) eqn:Es;
        [discriminate|].
      assert (Hv : Some v = None).
      { apply (proj1 (SUM_None_iff Qcplus _) Es). rewrite <- Ev.
        apply in_map. unfold group. apply filter_In. split; [exact Hr|].
        now destruct (day_eq_dec (Flow.day r) (Flow.day r)). }
      discriminate. }
    destruct (SUM64 daily) as [s|]; [now exists s|congruence]. }
  split.
  { exists daily. split; [apply Permutation_refl|]. split; [exact E|].
    intros H. destruct (Hsum H) as [s Es]. exists s. split; [exact Es|].
    rewrite E. unfold AVG. now rewrite Es. }
  split; [exact Hdays|].
  split; [|split; [|split]].
  - intros H. rewrite E. unfold AVG.
    replace (SUM64 daily) with (@None Qc); [reflexivity|].
    symmetry. apply SUM_None_iff. intros x Hx. unfold daily in Hx.
    apply in_map_iff in Hx. destruct Hx as [dy [<- _]].
    replace (SUMq (map Flow.net_amount_usd (group day_eq_dec Flow.day dy w)))
      with (@None Qc); [reflexivity|].
    symmetry. apply SUM_None_iff. intros x Hx. apply in_map_iff in Hx.
    destruct Hx as [r [<- Hr]]. apply filter_In in Hr. destruct Hr as [Hr _].
    apply (proj1 (SUM_None_iff Qcplus (map Flow.net_amount_usd w)) H).
    now apply in_map.
  - intros H. destruct (Hsum H) as [s Es]. split.
    + now apply SUM_Some_count with f64_add s.
    + eapply Z.le_trans; [apply count_non_null_le|].
      unfold daily. rewrite length_map. lia.
  - intros dy Hd. rewrite E. unfold daily. rewrite Hd. cbn [map].
    rewrite (group_single_day w Hd). apply AVG_single.
  - intros Hw. unfold chain_ctx, chain_7d, chain_daily. fold w. rewrite Hw.
    repeat split.
Qed.

(** With 4 on day 9 and 6 on day 8 the chain-level average is 10 / 2. *)
Lemma X6_chain_7avg_divides_by_days_present_witness :
  let out := _fetch_contrast_rows flows_history 10 ethereum in
  let ch := chain_ctx flows_history 10 ethereum in
  contrast_result flows_history 10 ethereum out
  /\ In ch out
  /\ Contrast.level ch = CHAIN_LEVEL
  /\ SUMq (map Flow.net_amount_usd (filter (in_window 10 ethereum) flows_history))
     <> None
  /\ exists s, Contrast.net_usd_7avg ch = Some (fl (s / qz 2)).
Proof.
  intros out ch.
  assert (Hres : contrast_result flows_history 10 ethereum out)
    by apply fetch_contrast_rows_result.
  assert (Hin : In ch out) by (vm_compute; left; reflexivity).
  assert (Hl : Contrast.level ch = CHAIN_LEVEL) by reflexivity.
  assert (Hw : SUMq (map Flow.net_amount_usd
                       (filter (in_window 10 ethereum) flows_history)) <> None)
    by (vm_compute; discriminate).
  split; [exact Hres|]. split; [exact Hin|]. split; [exact Hl|].
  split; [exact Hw|].
  destruct (@X6_chain_7avg_divides_by_days_present _ _ _ _ _ Hres Hin Hl)
    as [[summed [_ [_ H]]] _].
  destruct (H Hw) as [s [_ E]].
  exists s. exact E.
Defined.

(** ** The evidence query *)

Lemma NoDup_take {A : Type} (n : N) (l : list A) : NoDup l -> NoDup (take n l).
Proof.
  intros H. rewrite (take_drop n l) in H. now apply NoDup_app_remove_r in H.
Qed.

Lemma evidence_rows_keys (T : FlowsTable) (d : Z) (c : str)
    (bridges : list (option str)) :
  map (fun r => (Evidence.bridge r, Evidence.token_symbol r))
      (evidence_rows T d c bridges) =
  group_keys Key_eq_dec flow_key
    (filter (fun r => on_day d c r && in_bridges bridges r) T).
Proof.
  unfold evidence_rows. rewrite map_map. simpl.
  rewrite <- (map_id (group_keys _ _ _)) at 2.
  apply map_ext. now intros [kb kt].
Qed.

(** X7: every result of the evidence query holds at most [limit] rows, all
    of the requested day and chain, with pairwise distinct (bridge,
    token_symbol) keys, each the key of a flow record of that day and
    chain; with a non-empty bridge list every row's bridge is one of the
    listed bridges; and the rows come in non-increasing |net_usd|, NULLs
    last. *)
Theorem X7_evidence_rows (T : FlowsTable) (d : Z) (c : str)
    (bridges : list (option str)) (limit : N) (out : list Evidence.row) :
  evidence_result T d c bridges limit out ->
  (len out <= limit)%N
  /\ NoDup (map (fun r => (Evidence.bridge r, Evidence.token_symbol r)) out)
  /\ StronglySorted
       (fun a b => desc_leb (ABS (Evidence.net_usd a)) (ABS (Evidence.net_usd b)) = true)
       out
  /\ (forall r, In r out ->
        Evidence.chain r = c /\ Evidence.day r = d
        /\ (exists f, In f T /\ on_day d c f = true
                      /\ flow_key f = (Evidence.bridge r, Evidence.token_symbol r))
        /\ (bridges <> [] ->
            exists b, Evidence.bridge r = Some b /\ In (Some b) bridges)).
Proof.
  intros [sorted [[Hp Hs] ->]].
  split; [apply take_len_le|]. split; [|split].
  - rewrite <- take_map. apply NoDup_take.
    eapply Permutation_NoDup; [apply Permutation_map; exact Hp|].
    rewrite evidence_rows_keys. apply NoDup_nodup.
  - now apply take_StronglySorted.
  - intros r Hr. apply take_In in Hr.
    apply (Permutation_in _ (Permutation_sym Hp)) in Hr.
    assert (Hk : In (Evidence.bridge r, Evidence.token_symbol r)
                   (group_keys Key_eq_dec flow_key
                      (filter (fun r => on_day d c r && in_bridges bridges r) T))).
    { rewrite <- evidence_rows_keys.
      now apply (in_map (fun r => (Evidence.bridge r, Evidence.token_symbol r))). }
    unfold evidence_rows in Hr. apply in_map_iff in Hr.
    destruct Hr as [k [<- _]]. simpl in *.
    split; [reflexivity|]. split; [reflexivity|].
    unfold group_keys in Hk. apply nodup_In in Hk. apply in_map_iff in Hk.
    destruct Hk as [f [Hf Hin]]. apply filter_In in Hin.
    destruct Hin as [Hin Hw]. apply andb_true_iff in Hw. destruct Hw as [Hd Hb].
    split; [exists f; auto|].
    intros Hne. unfold in_bridges in Hb.
    destruct bridges as [|b0 bs]; [congruence|].
    apply existsb_exists in Hb. destruct Hb as [b [Hbin Hbeq]].
    unfold flow_key in Hf. inversion Hf as [[Hfb Hft]].
    destruct (Flow.bridge f) as [x|]; [|discriminate].
    destruct b as [y|]; [|discriminate]. simpl in Hbeq.
    apply str_eqb_eq in Hbeq. subst y. exists x. split; [reflexivity|assumption].
Qed.

Lemma X7_evidence_rows_witness :
  let out := evidence_query flows_sample 10 ethereum [Some (lit "hop")] 200 in
  evidence_result flows_sample 10 ethereum [Some (lit "hop")] 200 out
  /\ (len out <= 200)%N
  /\ map Evidence.bridge out = [Some (lit "hop")].
Proof.
  intros out.
  assert (H : evidence_result flows_sample 10 ethereum [Some (lit "hop")] 200 out)
    by apply evidence_query_result.
  split; [exact H|].
  split; [exact (proj1 (@X7_evidence_rows _ _ _ _ _ _ H))|reflexivity].
Defined.

(** ** The explain entrypoint: what a run does *)

Lemma finish_fields (py_str : pyval -> str) (w : World) (day : pyval)
    (chain txt : str) (rows : list dict) (fallback : bool) (reason : str)
    (run : Run) :
  finish py_str w day chain txt rows fallback reason = Ok run ->
  run_text run = txt
  /\ run_merge run = merge_params py_str w day txt (inr rows)
  /\ run_merged run =
     match query_merge w (merge_params py_str w day txt (inr rows)) with
     | Ok _ => true
     | Raise _ => false
     end
  /\ run_posted run =
     (if SEND_ON_FALLBACK w || negb fallback
      then snd (_send_telegram w txt) else None)
  /\ run_response run =
     (json_text py_str true
        (PDict [ (lit "ok", PBool true);
                 (lit "day", day);
                 (lit "chain", PStr chain);
                 (lit "rev", PStr (K_REVISION w));
                 (lit "wrote", PBool true);
                 (lit "fallback", PBool fallback);
                 (lit "reason", PStr reason);
                 (lit "rows", PInt (Z.of_N (len rows)));
                 (lit "model", PStr (MODEL w)) ]),
      200%Z, [(lit "Content-Type", lit "application/json")]).
Proof.
  unfold finish, json_dumps_std, _merge_briefing.
  destruct (json_serializable _); [|discriminate].
  intros H. inversion H. simpl. repeat split.
Qed.

Lemma ask_model_nonempty (py_str : pyval -> str) (strip : str -> str) (w : World)
    (prompt : str) (payload : pyval) (txt : str) :
  ask_model py_str strip w prompt payload = Ok txt -> txt <> [].
Proof.
  unfold ask_model. destruct (generate w prompt _) as [t|e]; [|discriminate].
  destruct (strip _) eqn:E; [discriminate|].
  intros H. inversion H. discriminate.
Qed.

Lemma fallback_summary_nonempty (py_str : pyval -> str) (day : pyval)
    (rows : list dict) (reason : str) :
  _fallback_summary py_str day rows reason <> [].
Proof. unfold _fallback_summary, fallback_head. cbn [join]. discriminate. Qed.

Lemma send_telegram_cases (w : World) (txt : str) :
  fst (_send_telegram w txt) = Ok tt
  /\ (snd (_send_telegram w txt) = None
      \/ (snd (_send_telegram w txt) = Some (take 3900 txt)
          /\ exists token chat, TG_TOKEN w = Some token /\ token <> []
                                /\ TG_CHAT w = Some chat /\ chat <> [])).
Proof.
  unfold _send_telegram.
  destruct (TG_TOKEN w) as [[|a token]|]; try (split; [reflexivity|now left]);
    destruct (TG_CHAT w) as [[|b chat]|]; try (split; [reflexivity|now left]).
  split.
  - simpl. now destruct (post_telegram w _ _ _).
  - right. split; [reflexivity|].
    exists (a :: token), (b :: chat). repeat split; discriminate.
Qed.

(** X8: the answer does not tell whether the briefing was written or the
    notification delivered.  With any other outcomes of the MERGE query and
    of the Telegram post, a run answers with the same response, produces
    the same text and attempts the same write.  The response is a 200 whose
    body says [wrote = true], also for a run whose write raised. *)
Theorem X8_response_ignores_write_and_notification (py_str : pyval -> str)
    (lower strip : str -> str) (w : World) (request : Request) (run : Run)
    (qm : Merge -> result unit) (pt : str -> str -> str -> result unit) :
  explain py_str lower strip w request = Ok run ->
  exists run',
    explain py_str lower strip (with_effects w qm pt) request = Ok run'
    /\ run_response run' = run_response run
    /\ run_text run' = run_text run
    /\ run_merge run' = run_merge run
    /\ snd (fst (run_response run)) = 200%Z
    /\ run_merged run' =
       match qm (run_merge run) with
       | Ok _ => true
       | Raise _ => false
       end
    /\ exists day chain fallback reason n,
         run_response run' =
         (json_text py_str true
            (PDict [ (lit "ok", PBool true);
                     (lit "day", day);
                     (lit "chain", PStr chain);
                     (lit "rev", PStr (K_REVISION w));
                     (lit "wrote", PBool true);
                     (lit "fallback", PBool fallback);
                     (lit "reason", PStr reason);
                     (lit "rows", PInt n);
                     (lit "model", PStr (MODEL w)) ]),
          200%Z, [(lit "Content-Type", lit "application/json")]).
Proof.
  unfold explain. cbn [yesterday client query_anoms query_evidence query_contrast
                       with_effects].
  destruct (lower_method lower _) as [chain|e]; [|discriminate].
  destruct (client w) as [u|e]; [|discriminate].
  assert (A : forall prompt payload,
            ask_model py_str strip (with_effects w qm pt) prompt payload =
            ask_model py_str strip w prompt payload) by reflexivity.
  assert (F : forall day txt rows fb reason,
            finish py_str w day chain txt rows fb reason = Ok run ->
            exists run',
              finish py_str (with_effects w qm pt) day chain txt rows fb reason = Ok run'
              /\ run_response run' = run_response run
              /\ run_text run' = run_text run
              /\ run_merge run' = run_merge run
              /\ snd (fst (run_response run)) = 200%Z
              /\ run_merged run' =
                 match qm (run_merge run) with
                 | Ok _ => true
                 | Raise _ => false
                 end
              /\ exists day' chain' fallback reason' n,
                   run_response run' =
                   (json_text py_str true
                      (PDict [ (lit "ok", PBool true);
                               (lit "day", day');
                               (lit "chain", PStr chain');
                               (lit "rev", PStr (K_REVISION w));
                               (lit "wrote", PBool true);
                               (lit "fallback", PBool fallback);
                               (lit "reason", PStr reason');
                               (lit "rows", PInt n);
                               (lit "model", PStr (MODEL w)) ]),
                    200%Z, [(lit "Content-Type", lit "application/json")])).
  { intros day txt rows fb reason H.
    destruct (finish_fields _ _ _ _ _ _ _ _ H) as [T1 [M1 [_ [_ R1]]]].
    assert (S : json_serializable
                  (PDict [ (lit "ok", PBool true);
                           (lit "day", day);
                           (lit "chain", PStr chain);
                           (lit "rev", PStr (K_REVISION w));
                           (lit "wrote", PBool true);
                           (lit "fallback", PBool fb);
                           (lit "reason", PStr reason);
                           (lit "rows", PInt (Z.of_N (len rows)));
                           (lit "model", PStr (MODEL w)) ]) = true).
    { unfold finish, json_dumps_std in H.
      destruct (json_serializable _); [reflexivity|discriminate]. }
    destruct (finish py_str (with_effects w qm pt) day chain txt rows fb reason)
      as [run'|e] eqn:E.
    2:{ unfold finish, json_dumps_std in E. cbn [K_REVISION MODEL with_effects] in E.
        rewrite S in E. discriminate. }
    destruct (finish_fields _ _ _ _ _ _ _ _ E) as [T2 [M2 [G2 [_ R2]]]].
    cbn [K_REVISION MODEL query_merge with_effects] in R2, G2.
    exists run'. split; [reflexivity|].
    split; [now rewrite R1, R2|]. split; [now rewrite T1, T2|].
    split; [rewrite M1, M2; reflexivity|].
    split; [now rewrite R1|].
    split; [rewrite G2, M1; reflexivity|].
    exists day, chain, fb, reason, (Z.of_N (len rows)). exact R2. }
  intros H.
  destruct (match _fetch_anom_bridges _ with Ok b => b | Raise _ => [] end);
    rewrite A; destruct (ask_model _ _ _ _ _); now apply F.
Qed.

(** On the calm world with a refused write: the run records the failed
    write and answers as the run whose write succeeds, with [wrote = true]. *)
Lemma X8_response_ignores_write_and_notification_witness :
  exists run run',
    explain simple_str ascii_lower ascii_strip calm_world request_get = Ok run
    /\ explain simple_str ascii_lower ascii_strip
         (with_effects calm_world (fun _ => Raise (lit "Forbidden"))
                       (fun _ _ _ => Raise (lit "ConnectionError")))
         request_get = Ok run'
    /\ run_merged run' = false
    /\ run_response run' = run_response run
    /\ contains (lit "wrote") (fst (fst (run_response run'))) = true.
Proof.
  eexists.
  assert (H : explain simple_str ascii_lower ascii_strip calm_world request_get
              = Ok _) by reflexivity.
  destruct (@X8_response_ignores_write_and_notification simple_str ascii_lower
              ascii_strip calm_world request_get _
              (fun _ => Raise (lit "Forbidden"))
              (fun _ _ _ => Raise (lit "ConnectionError")) H)
    as [run' [E [R [_ [_ [_ [G _]]]]]]].
  exists run'. split; [exact H|]. split; [exact E|]. split; [exact G|].
  split; [exact R|]. rewrite R. vm_compute. reflexivity.
Defined.

Ltac explain_branches H :=
  unfold explain in H;
  destruct (lower_method _ _) as [chain|?]; [|discriminate];
  destruct (client _) as [u|?]; [|discriminate];
  destruct (match _fetch_anom_bridges _ with Ok b => b | Raise _ => [] end);
  match type of H with
  | context [ask_model ?p ?s ?w' ?pr ?pl] =>
      destruct (ask_model p s w' pr pl) as [txt|err] eqn:Eask
  end;
  apply finish_fields in H;
  destruct H as [Htext [Hmerge [Hmerged [Hposted Hresp]]]].

(** X9: a run posts to Telegram at most the first 3900 characters of its
    text, and only with a non-empty token and chat id; without
    SEND_ON_FALLBACK a fallback text is never posted, so whatever is posted
    then came from the model; with SEND_ON_FALLBACK and credentials every
    run posts. *)
Theorem X9_notification_policy (py_str : pyval -> str) (lower strip : str -> str)
    (w : World) (request : Request) (run : Run) :
  explain py_str lower strip w request = Ok run ->
  (run_posted run = None \/ run_posted run = Some (take 3900 (run_text run)))
  /\ (run_posted run <> None ->
        (exists token chat, TG_TOKEN w = Some token /\ token <> []
                            /\ TG_CHAT w = Some chat /\ chat <> [])
        /\ (SEND_ON_FALLBACK w = true
            \/ exists prompt payload,
                 ask_model py_str strip w prompt payload = Ok (run_text run)))
  /\ (SEND_ON_FALLBACK w = true ->
        forall token chat, TG_TOKEN w = Some token -> token <> [] ->
                           TG_CHAT w = Some chat -> chat <> [] ->
        run_posted run = Some (take 3900 (run_text run))).
Proof.
  intros H.
  assert (G : forall txt fb,
            run_text run = txt ->
            run_posted run =
              (if SEND_ON_FALLBACK w || negb fb
               then snd (_send_telegram w txt) else None) ->
            (fb = false -> exists prompt payload,
                 ask_model py_str strip w prompt payload = Ok txt) ->
            (run_posted run = None \/ run_posted run = Some (take 3900 (run_text run)))
            /\ (run_posted run <> None ->
                (exists token chat, TG_TOKEN w = Some token /\ token <> []
                                    /\ TG_CHAT w = Some chat /\ chat <> [])
                /\ (SEND_ON_FALLBACK w = true
                    \/ exists prompt payload,
                         ask_model py_str strip w prompt payload = Ok (run_text run)))
            /\ (SEND_ON_FALLBACK w = true ->
                forall token chat, TG_TOKEN w = Some token -> token <> [] ->
                                   TG_CHAT w = Some chat -> chat <> [] ->
                run_posted run = Some (take 3900 (run_text run)))).
  { intros txt fb Ht Hp Hm. rewrite Ht, Hp.
    destruct (send_telegram_cases w txt) as [_ [Hn|[Hs Hc]]].
    - split; [left; now destruct (_ || _)|]. split.
      + intros C. exfalso. apply C. now destruct (_ || _).
      + intros Hf token chat Et Hnt Ec Hnc. exfalso.
        unfold _send_telegram in Hn. rewrite Et, Ec in Hn.
        destruct token; [congruence|]. destruct chat; [congruence|]. discriminate.
    - split; [destruct (_ || _); [now right|now left]|]. split.
      + intros C. split; [exact Hc|].
        destruct (SEND_ON_FALLBACK w); [now left|right].
        destruct fb; [simpl in C; congruence|]. now apply Hm.
      + intros Hf token chat _ _ _ _. now rewrite Hf. }
  explain_branches H.
  - apply (G txt false); auto. intros _. eauto.
  - eapply (G _ true); eauto. discriminate.
  - apply (G txt false); auto. intros _. eauto.
  - eapply (G _ true); eauto. discriminate.
Qed.

Lemma X9_notification_policy_witness :
  exists run,
    explain simple_str ascii_lower ascii_strip broken_world request_get = Ok run
    /\ run_posted run = None.
Proof.
  eexists.
  assert (H : explain simple_str ascii_lower ascii_strip broken_world request_get
              = Ok _) by reflexivity.
  split; [exact H|].
  destruct (@X9_notification_policy simple_str ascii_lower ascii_strip broken_world
              request_get _ H) as [_ [P _]].
  destruct (run_posted _) eqn:E; [|reflexivity].
  exfalso. destruct P as [_ [C|[prompt [payload C]]]]; [discriminate| |discriminate].
  vm_compute in E. discriminate.
Defined.

(** X10: the text of a run is never empty, it is the summary the run
    writes, under the configured model name and the requested day, and the
    [rows] field of the response counts the rows whose serialization the
    run writes. *)
Theorem X10_text_written_and_counted (py_str : pyval -> str)
    (lower strip : str -> str) (w : World) (request : Request) (run : Run) :
  explain py_str lower strip w request = Ok run ->
  run_text run <> []
  /\ m_summary (run_merge run) = run_text run
  /\ m_model (run_merge run) = MODEL w
  /\ m_day (run_merge run) =
     py_or (_get_param request (lit "day") PNone) (PStr (yesterday w))
  /\ exists rows chain fallback reason,
       m_src (run_merge run) = snapshot py_str (inr rows)
       /\ run_response run =
          (json_text py_str true
             (PDict [ (lit "ok", PBool true);
                      (lit "day", m_day (run_merge run));
                      (lit "chain", PStr chain);
                      (lit "rev", PStr (K_REVISION w));
                      (lit "wrote", PBool true);
                      (lit "fallback", PBool fallback);
                      (lit "reason", PStr reason);
                      (lit "rows", PInt (Z.of_N (len rows)));
                      (lit "model", PStr (MODEL w)) ]),
           200%Z, [(lit "Content-Type", lit "application/json")]).
Proof.
  intros H. explain_branches H; rewrite Htext, Hmerge, Hresp;
    (split; [first [now apply ask_model_nonempty in Eask
                   | apply fallback_summary_nonempty]|]);
    (split; [reflexivity|]); (split; [reflexivity|]); (split; [reflexivity|]);
    do 4 eexists; split; reflexivity.
Qed.

Lemma X10_text_written_and_counted_witness :
  exists run,
    explain simple_str ascii_lower ascii_strip broken_world request_get = Ok run
    /\ run_text run <> []
    /\ m_summary (run_merge run) = run_text run.
Proof.
  eexists.
  assert (H : explain simple_str ascii_lower ascii_strip broken_world request_get
              = Ok _) by reflexivity.
  split; [exact H|].
  destruct (@X10_text_written_and_counted simple_str ascii_lower ascii_strip
              broken_world request_get _ H) as [N [S _]].
  split; assumption.
Defined.

(** X11: when the anomaly query raises or returns no row, a run takes the
    routine branch.  It never reports [vertex_failed]: the reason is
    [no_anomaly] with the contrast rows written, or [no_anomaly_fallback]
    with the fallback summary of the top evidence as text and, written, the
    contrast rows or, when there are none, that evidence.  When the query
    returns a row the reason is empty or [vertex_failed] and the evidence
    rows are written. *)
Theorem X11_routing (py_str : pyval -> str) (lower strip : str -> str)
    (w : World) (request : Request) (run : Run) (chain : str) :
  explain py_str lower strip w request = Ok run ->
  lower_method lower (py_or (_get_param request (lit "chain") PNone)
                            (PStr (lit "ethereum"))) = Ok chain ->
  let day := py_or (_get_param request (lit "day") PNone) (PStr (yesterday w)) in
  let contrast := match query_contrast w day chain with
                  | Ok rows => rows | Raise _ => [] end in
  let tops := match query_evidence w day chain [] 20 with
              | Ok rows => rows | Raise _ => [] end in
  ((exists e, query_anoms w day chain = Raise e) \/ query_anoms w day chain = Ok [] ->
     (finish py_str w day chain (run_text run) contrast false (lit "no_anomaly")
        = Ok run)
     \/ (run_text run = _fallback_summary py_str day tops (lit "No significant anomaly")
         /\ finish py_str w day chain (run_text run)
              (match contrast with [] => tops | _ => contrast end)
              true (lit "no_anomaly_fallback") = Ok run))
  /\ (forall r rs, query_anoms w day chain = Ok (r :: rs) ->
        let ev := match query_evidence w day chain (map sel_bridge (r :: rs)) 200 with
                  | Ok rows => rows | Raise _ => [] end in
        finish py_str w day chain (run_text run) ev false [] = Ok run
        \/ (run_text run =
              _fallback_summary py_str day ev
                (lit "Anomaly detected but model failed (fallback)")
            /\ finish py_str w day chain (run_text run) ev true (lit "vertex_failed")
               = Ok run)).
Proof.
  intros H Hc day contrast tops. unfold explain in H. rewrite Hc in H.
  destruct (client w) as [u|e]; [|discriminate].
  fold day in H.
  assert (T : forall txt rows fb reason,
            finish py_str w day chain txt rows fb reason = Ok run ->
            run_text run = txt).
  { intros txt rows fb reason F. now apply finish_fields in F. }
  split.
  - intros Hq.
    assert (B : match _fetch_anom_bridges (query_anoms w day chain) with
                | Ok b => b | Raise _ => [] end = []).
    { destruct Hq as [[e ->]| ->]; reflexivity. }
    rewrite B in H. fold contrast tops in H.
    destruct (ask_model _ _ _ _ _) as [txt|err].
    + left. now rewrite (T _ _ _ _ H).
    + right. rewrite (T _ _ _ _ H). split; [reflexivity|exact H].
  - intros r rs Hq ev. rewrite Hq in H. simpl _fetch_anom_bridges in H.
    cbv iota beta in H. fold ev in H.
    destruct (ask_model _ _ _ _ _) as [txt|err].
    + left. now rewrite (T _ _ _ _ H).
    + right. rewrite (T _ _ _ _ H). split; [reflexivity|exact H].
Qed.

Lemma X11_routing_witness :
  exists run,
    explain simple_str ascii_lower ascii_strip broken_world request_get = Ok run
    /\ lower_method ascii_lower
         (py_or (_get_param request_get (lit "chain") PNone) (PStr (lit "ethereum")))
       = Ok ethereum
    /\ run_text run =
       _fallback_summary simple_str (PStr (lit "2024-01-15")) []
         (lit "No significant anomaly").
Proof.
  eexists.
  assert (H : explain simple_str ascii_lower ascii_strip broken_world request_get
              = Ok _) by reflexivity.
  assert (Hc : lower_method ascii_lower
                 (py_or (_get_param request_get (lit "chain") PNone)
                        (PStr (lit "ethereum"))) = Ok ethereum) by reflexivity.
  split; [exact H|]. split; [exact Hc|].
  destruct (@X11_routing simple_str ascii_lower ascii_strip broken_world
              request_get _ ethereum H Hc) as [R _].
  destruct R as [F|[E _]].
  - left. exists (lit "NotFound"). reflexivity.
  - apply finish_fields in F. destruct F as [_ [_ [_ [_ F]]]].
    vm_compute in F. discriminate.
  - exact E.
Defined.

(** ** The briefing store: the MERGE statement *)

Lemma existsb_false_forall {A : Type} (P : A -> bool) (l : list A) :
  existsb P l = false -> forall x, In x l -> P x = false.
Proof.
  intros H x Hx. destruct (P x) eqn:E; [|reflexivity].
  assert (existsb P l = true) by (apply existsb_exists; eauto). congruence.
Qed.

Lemma merge_on_refl (d : Z) (m s x : option str) (n : option Z) :
  merge_on d {| Stored.day := Some d; Stored.model := m; Stored.summary_text := s;
                Stored.source_rows_json := x; Stored.created_at := n |} = true.
Proof. unfold merge_on. simpl. apply Z.eqb_refl. Qed.

(** X12: the MERGE is an upsert on [day].  Afterwards every row of the day
    carries the new model, summary, snapshot and timestamp; the rows of
    other days are untouched; and the day has as many rows as before, or
    one if it had none. *)
Theorem X12_merge_is_upsert (T : list Stored.row) (d : Z) (model summary src : str)
    (now : Z) :
  let T' := merge_statement T d model summary src now in
  (forall t, In t T' -> merge_on d t = true ->
     Stored.day t = Some d /\ Stored.model t = Some model
     /\ Stored.summary_text t = Some summary
     /\ Stored.source_rows_json t = Some src
     /\ Stored.created_at t = Some now)
  /\ filter (fun t => negb (merge_on d t)) T' = filter (fun t => negb (merge_on d t)) T
  /\ List.length (filter (merge_on d) T') =
     Nat.max 1 (List.length (filter (merge_on d) T))
  /\ (existsb (merge_on d) T = false -> List.length T' = S (List.length T))
  /\ (existsb (merge_on d) T = true -> map Stored.day T' = map Stored.day T).
Proof.
  intros T'. unfold T', merge_statement.
  destruct (existsb (merge_on d) T) eqn:E.
  - split; [|split; [|split; [|split]]]; try discriminate.
    + intros t Ht Hon. apply in_map_iff in Ht. destruct Ht as [t0 [<- Ht0]].
      destruct (merge_on d t0) eqn:E0.
      * unfold merge_on in E0. destruct (Stored.day t0) as [v|]; [|discriminate].
        simpl in E0. apply Z.eqb_eq in E0. subst v. simpl. auto.
      * congruence.
    + clear E. induction T as [|t T IH]; [reflexivity|]. simpl.
      destruct (merge_on d t) eqn:E0.
      * replace (merge_on d _) with true by (symmetry; exact E0). simpl. exact IH.
      * rewrite E0. simpl. now rewrite IH.
    + assert (L : forall T0, List.length
                (filter (merge_on d)
                   (map (fun t => if merge_on d t
                                  then {| Stored.day := Stored.day t;
                                          Stored.model := Some model;
                                          Stored.summary_text := Some summary;
                                          Stored.source_rows_json := Some src;
                                          Stored.created_at := Some now |}
                                  else t) T0))
              = List.length (filter (merge_on d) T0)).
      { induction T0 as [|t T0 IH]; [reflexivity|]. simpl.
        destruct (merge_on d t) eqn:E0.
        - replace (merge_on d _) with true by (symmetry; exact E0). simpl. now rewrite IH.
        - rewrite E0. exact IH. }
      rewrite L. apply existsb_exists in E. destruct E as [t [Ht Hon]].
      assert (In t (filter (merge_on d) T)) by (apply filter_In; auto).
      destruct (filter (merge_on d) T); [contradiction|]. simpl. lia.
    + intros _. rewrite map_map. apply map_ext. intros t.
      now destruct (merge_on d t).
  - pose proof (existsb_false_forall _ _ E) as F.
    split; [|split; [|split; [|split]]]; try discriminate.
    + intros t Ht Hon. apply in_app_or in Ht. destruct Ht as [Ht|[<-|[]]].
      * rewrite (F t Ht) in Hon. discriminate.
      * simpl. auto.
    + rewrite filter_app. simpl. rewrite merge_on_refl. simpl. apply app_nil_r.
    + rewrite filter_app. simpl. rewrite merge_on_refl.
      rewrite (filter_none _ _ F). reflexivity.
    + intros _. rewrite length_app. simpl. lia.
Qed.

Lemma X12_merge_is_upsert_witness :
  let T := [ {| Stored.day := Some 19736%Z; Stored.model := None;
                Stored.summary_text := Some (lit "kept");
                Stored.source_rows_json := None; Stored.created_at := None |};
             {| Stored.day := Some 19737%Z; Stored.model := None;
                Stored.summary_text := Some (lit "old");
                Stored.source_rows_json := None; Stored.created_at := None |} ] in
  let T' := merge_statement T 19737 (lit "m") (lit "new") (lit "[]") 7 in
  existsb (merge_on 19737) T = true
  /\ map Stored.day T' = map Stored.day T
  /\ filter (fun t => negb (merge_on 19737 t)) T'
     = filter (fun t => negb (merge_on 19737 t)) T.
Proof.
  intros T T'.
  assert (H : existsb (merge_on 19737) T = true) by reflexivity.
  split; [exact H|].
  destruct (X12_merge_is_upsert T 19737 (lit "m") (lit "new") (lit "[]") 7)
    as [_ [Hother [_ [_ Hdays]]]].
  split; [exact (Hdays H)|exact Hother].
Defined.

(** X13: the last write wins.  Two MERGEs for the same day leave the table
    that the second alone would leave; and if the day had at most one row
    it then has exactly one, holding the second write. *)
Theorem X13_last_write_wins (T : list Stored.row) (d : Z)
    (m1 s1 x1 m2 s2 x2 : str) (n1 n2 : Z) :
  merge_statement (merge_statement T d m1 s1 x1 n1) d m2 s2 x2 n2
  = merge_statement T d m2 s2 x2 n2
  /\ ((List.length (filter (merge_on d) T) <= 1)%nat ->
      filter (merge_on d)
        (merge_statement (merge_statement T d m1 s1 x1 n1) d m2 s2 x2 n2)
      = [ {| Stored.day := Some d;
             Stored.model := Some m2;
             Stored.summary_text := Some s2;
             Stored.source_rows_json := Some x2;
             Stored.created_at := Some n2 |} ]).
Proof.
  assert (E : merge_statement (merge_statement T d m1 s1 x1 n1) d m2 s2 x2 n2
              = merge_statement T d m2 s2 x2 n2).
  { unfold merge_statement at 2 3.
    destruct (existsb (merge_on d) T) eqn:Ex.
    - unfold merge_statement.
      assert (Ex' : existsb (merge_on d)
                (map (fun t => if merge_on d t
                               then {| Stored.day := Stored.day t;
                                       Stored.model := Some m1;
                                       Stored.summary_text := Some s1;
                                       Stored.source_rows_json := Some x1;
                                       Stored.created_at := Some n1 |}
                               else t) T) = true).
      { apply existsb_exists in Ex. destruct Ex as [t [Ht Hon]].
        apply existsb_exists. eexists. split; [apply in_map; exact Ht|].
        rewrite Hon. exact Hon. }
      rewrite Ex', map_map. apply map_ext. intros t.
      destruct (merge_on d t) eqn:E0.
      + replace (merge_on d _) with true by (symmetry; exact E0). reflexivity.
      + now rewrite E0.
    - pose proof (existsb_false_forall _ _ Ex) as F.
      unfold merge_statement. rewrite existsb_app. simpl.
      rewrite merge_on_refl, orb_true_r, map_app. simpl. rewrite merge_on_refl.
      f_equal. rewrite <- (map_id T) at 2. apply map_ext_in.
      intros t Ht. now rewrite (F t Ht). }
  split; [exact E|].
  intros Hle. rewrite E. unfold merge_statement.
  destruct (existsb (merge_on d) T) eqn:Ex.
  - clear E. induction T as [|t T IH]; [discriminate|]. simpl in *.
    destruct (merge_on d t) eqn:E0.
    + replace (merge_on d _) with true by (symmetry; exact E0).
      assert (Hnil : filter (merge_on d) T = []).
      { destruct (filter (merge_on d) T); [reflexivity|simpl in Hle; lia]. }
      f_equal.
      * unfold merge_on in E0. destruct (Stored.day t) as [v|]; [|discriminate].
        simpl in E0. apply Z.eqb_eq in E0. now subst v.
      * apply filter_none. intros t' Ht'. apply in_map_iff in Ht'.
        destruct Ht' as [t0 [<- Ht0]].
        assert (F0 : merge_on d t0 = false).
        { destruct (merge_on d t0) eqn:E1; [|reflexivity].
          assert (In t0 (filter (merge_on d) T)) by (apply filter_In; auto).
          rewrite Hnil in H. contradiction. }
        now rewrite F0.
    + rewrite E0. simpl in Ex. apply IH; assumption.
  - pose proof (existsb_false_forall _ _ Ex) as F.
    rewrite filter_app, (filter_none _ _ F). simpl. now rewrite merge_on_refl.
Qed.

Lemma X13_last_write_wins_witness :
  let T := [ {| Stored.day := Some 19737%Z; Stored.model := None;
                Stored.summary_text := Some (lit "old");
                Stored.source_rows_json := None; Stored.created_at := None |} ] in
  (List.length (filter (merge_on 19737) T) <= 1)%nat
  /\ filter (merge_on 19737)
       (merge_statement (merge_statement T 19737 (lit "m") (lit "first") (lit "[]") 1)
                        19737 (lit "m") (lit "second") (lit "[]") 2)
     = [ {| Stored.day := Some 19737%Z;
            Stored.model := Some (lit "m");
            Stored.summary_text := Some (lit "second");
            Stored.source_rows_json := Some (lit "[]");
            Stored.created_at := Some 2%Z |} ].
Proof.
  intros T.
  assert (H : (List.length (filter (merge_on 19737) T) <= 1)%nat) by (simpl; lia).
  split; [exact H|].
  exact (proj2 (X13_last_write_wins T 19737 (lit "m") (lit "first") (lit "[]")
                  (lit "m") (lit "second") (lit "[]") 1 2) H).
Defined.

(** ** The publisher: [main] of attest.py *)

Lemma main_prepared (lower keccak : str -> str) (json_loads : str -> result pyval)
    (isoformat : Z -> str) (hex : str -> str) (py_str : pyval -> str)
    (L : Ledger) (args : Args) (rows : list Briefing.row) (pk from : str)
    (cid gasPrice nonce : Z) :
  prepared L args rows pk from cid gasPrice nonce ->
  main lower keccak json_loads isoformat hex py_str L args
  = publish_rows lower keccak json_loads isoformat hex py_str L
      (arg_chain args) (arg_dry args) pk from cid gasPrice rows nonce.
Proof.
  intros [y [u [addr [a' [Hy [Hu [Hr [Hrows [Hpk [Hpk' [Hcid [Haddr [Haddr'
    [Hfrom [Hsum [Hn Hg]]]]]]]]]]]]]]]].
  unfold main. rewrite Hy, Hu, Hr.
  destruct rows as [|r rows]; [congruence|].
  rewrite Hpk, Hcid, Haddr.
  destruct pk as [|c pk]; [congruence|]. destruct addr as [|c' addr]; [congruence|].
  now rewrite Hfrom, Hsum, Hn, Hg.
Qed.

Lemma nonces_shift (nonce : Z) (k : nat) :
  map (fun i => (nonce + 1 + Z.of_nat i)%Z) (seq 0 k)
  = map (fun i => (nonce + Z.of_nat i)%Z) (seq 1 k).
Proof.
  rewrite <- seq_shift, map_map. apply map_ext. intros i. lia.
Qed.

Lemma publish_rows_live (lower keccak : str -> str) (json_loads : str -> result pyval)
    (isoformat : Z -> str) (hex : str -> str) (py_str : pyval -> str)
    (L : Ledger) (chain pk from : str) (cid gasPrice : Z)
    (rows : list Briefing.row) (nonce : Z) :
  let out := publish_rows lower keccak json_loads isoformat hex py_str L
               chain false pk from cid gasPrice rows nonce in
  exists k : nat,
    map fst (sents (fst out))
    = map (attest_row lower keccak json_loads isoformat chain) (firstn k rows)
    /\ map (fun s => tx_nonce (snd s)) (sents (fst out))
       = map (fun i => (nonce + Z.of_nat i)%Z) (seq 0 k)
    /\ Forall (fun s => tx_from (snd s) = from /\ tx_chainId (snd s) = cid
                        /\ tx_gas (snd s) = 200000%Z
                        /\ tx_gasPrice (snd s) = gasPrice) (sents (fst out))
    /\ List.length (printed (fst out)) = k
    /\ ((snd out = Ok tt /\ k = List.length rows)
        \/ (exists e, snd out = Raise e) /\ (k < List.length rows)%nat).
Proof.
  revert nonce. induction rows as [|r rows IH]; intros nonce out.
  - exists 0%nat. subst out. simpl. repeat split; auto.
  - subst out. cbn [publish_rows].
    destruct (build_transaction L _ _) as [tx|e].
    2:{ exists 0%nat. simpl. repeat split; auto. right. split; [eauto|lia]. }
    destruct (sign_transaction L pk tx) as [raw|e].
    2:{ exists 0%nat. simpl. repeat split; auto. right. split; [eauto|lia]. }
    destruct (send_raw_transaction L raw) as [txh|e].
    2:{ exists 0%nat. simpl. repeat split; auto. right. split; [eauto|lia]. }
    destruct (IH (nonce + 1)%Z) as [k [Ha [Hn [Hp [Hl He]]]]].
    destruct (publish_rows _ _ _ _ _ _ _ _ _ _ _ _ _ rows (nonce + 1)) as [trace ended].
    cbn [fst snd] in *. exists (S k). cbn [sents printed map firstn seq fst snd].
    split; [now rewrite Ha|].
    split; [rewrite Hn, nonces_shift; f_equal; simpl; lia|].
    split; [constructor; [simpl; auto|exact Hp]|].
    split; [simpl; now rewrite Hl|].
    destruct He as [[E1 E2]|[E1 E2]]; [left|right]; split; auto; simpl; lia.
Qed.

Lemma publish_rows_dry (lower keccak : str -> str) (json_loads : str -> result pyval)
    (isoformat : Z -> str) (hex : str -> str) (py_str : pyval -> str)
    (L : Ledger) (chain pk from : str) (cid gasPrice : Z)
    (rows : list Briefing.row) (nonce : Z) :
  let out := publish_rows lower keccak json_loads isoformat hex py_str L
               chain true pk from cid gasPrice rows nonce in
  exists k : nat,
    fst out
    = map (fun r => Printed (dry_line hex py_str
                      (attest_row lower keccak json_loads isoformat chain r)))
          (firstn k rows)
    /\ ((snd out = Ok tt /\ k = List.length rows)
        \/ (exists e, snd out = Raise e) /\ (k < List.length rows)%nat).
Proof.
  revert nonce. induction rows as [|r rows IH]; intros nonce out.
  - exists 0%nat. subst out. simpl. auto.
  - subst out. cbn [publish_rows].
    destruct (build_transaction L _ _) as [tx|e].
    2:{ exists 0%nat. simpl. split; auto. right. split; [eauto|lia]. }
    destruct (IH (nonce + 1)%Z) as [k [Ht He]].
    destruct (publish_rows _ _ _ _ _ _ _ _ _ _ _ _ _ rows (nonce + 1)) as [trace ended].
    cbn [fst snd] in *. exists (S k). cbn [map firstn].
    split; [now rewrite Ht|].
    destruct He as [[E1 E2]|[E1 E2]]; [left|right]; split; auto; simpl; lia.
Qed.

Lemma publish_rows_dry_wallet (lower keccak : str -> str)
    (json_loads : str -> result pyval)
    (isoformat : Z -> str) (hex : str -> str) (py_str : pyval -> str)
    (L : Ledger) (sign : str -> pyval -> result str) (send : str -> result str)
    (chain pk from : str) (cid gasPrice : Z)
    (rows : list Briefing.row) (nonce : Z) :
  publish_rows lower keccak json_loads isoformat hex py_str (with_wallet L sign send)
    chain true pk from cid gasPrice rows nonce
  = publish_rows lower keccak json_loads isoformat hex py_str L
      chain true pk from cid gasPrice rows nonce.
Proof.
  revert nonce. induction rows as [|r rows IH]; intros nonce; [reflexivity|].
  cbn [publish_rows]. rewrite IH. reflexivity.
Qed.

Lemma sents_printed_only (lines : list str) :
  sents (map Printed lines) = [].
Proof. induction lines; simpl; auto. Qed.

Lemma prepared_with_wallet (L : Ledger) (sign : str -> pyval -> result str)
    (send : str -> result str) (args : Args) (rows : list Briefing.row)
    (pk from : str) (cid gasPrice nonce : Z) :
  prepared L args rows pk from cid gasPrice nonce ->
  prepared (with_wallet L sign send) args rows pk from cid gasPrice nonce.
Proof.
  intros [y [u [addr [a' H]]]]. exists y, u, addr, a'. exact H.
Qed.

Lemma prepared_calm (args : Args) :
  prepared calm_ledger args calm_rows (lit "key") (lit "0xfrom") 7001 1 5.
Proof.
  exists (lit "2024-01-15"), tt, (lit "0xabc"), (lit "0xabc").
  repeat split; try reflexivity; discriminate.
Qed.

(** X14: [main] looks at the signing key and the contract address only
    once rows were read.  Without rows it prints one line and ends well,
    whatever the keys.  With rows, a chain id that does not parse raises
    first; otherwise a missing or empty key or contract address raises the
    AssertionError before anything is printed, built or sent, in a dry run
    too. *)
Theorem X14_keys_checked_only_with_rows (lower keccak : str -> str)
    (json_loads : str -> result pyval) (isoformat : Z -> str) (hex : str -> str)
    (py_str : pyval -> str) (L : Ledger) (args : Args) (yesterday : str) (u : unit)
    (rows : list Briefing.row) :
  yesterday_in L (arg_tz args) = Ok yesterday ->
  bq_client L = Ok u ->
  read_briefings L (briefing_query args yesterday) = Ok rows ->
  let out := main lower keccak json_loads isoformat hex py_str L args in
  (rows = [] ->
     out = ([Printed (lit "No rows from daily_briefings for given date(s).")], Ok tt))
  /\ (rows <> [] -> forall e, ZETA_CHAIN_ID L = Raise e -> out = ([], Raise e))
  /\ (rows <> [] -> forall cid, ZETA_CHAIN_ID L = Ok cid ->
      given (first_given (ZETA_PRIVATE_KEY L) (PRIVATE_KEY L)) = false
      \/ given (ZETA_CONTRACT L) = false ->
      out = ([], Raise (lit "AssertionError"))).
Proof.
  intros Hy Hu Hr out. subst out. unfold main. rewrite Hy, Hu, Hr.
  split; [intros ->; reflexivity|].
  split.
  - intros Hrows e He. destruct rows; [congruence|]. now rewrite He.
  - intros Hrows cid Hcid Hmiss. destruct rows; [congruence|]. rewrite Hcid.
    destruct (first_given _ _) as [[|c pk]|]; try reflexivity.
    destruct (ZETA_CONTRACT L) as [[|c' addr]|]; try reflexivity.
    simpl in Hmiss. destruct Hmiss; discriminate.
Qed.

Lemma X14_keys_checked_only_with_rows_witness :
  yesterday_in keyless_ledger (arg_tz args_dry) = Ok (lit "2024-01-15")
  /\ bq_client keyless_ledger = Ok tt
  /\ read_briefings keyless_ledger (briefing_query args_dry (lit "2024-01-15"))
     = Ok calm_rows
  /\ main ascii_lower (fun s => s) loads_empty_array (fun _ => lit "2024-01-15")
       (fun s => s) simple_str keyless_ledger args_dry
     = ([], Raise (lit "AssertionError")).
Proof.
  assert (Hy : yesterday_in keyless_ledger (arg_tz args_dry) = Ok (lit "2024-01-15"))
    by reflexivity.
  assert (Hu : bq_client keyless_ledger = Ok tt) by reflexivity.
  assert (Hr : read_briefings keyless_ledger
                 (briefing_query args_dry (lit "2024-01-15")) = Ok calm_rows)
    by reflexivity.
  split; [exact Hy|]. split; [exact Hu|]. split; [exact Hr|].
  destruct (@X14_keys_checked_only_with_rows ascii_lower (fun s => s)
              loads_empty_array (fun _ => lit "2024-01-15") (fun s => s) simple_str
              keyless_ledger args_dry _ _ _ Hy Hu Hr) as [_ [_ H]].
  apply (H ltac:(discriminate) 7001%Z eq_refl). right. reflexivity.
Defined.

(** X15: a live run broadcasts one transaction per row, in the order of the
    rows, each carrying the fields of [attest_row] for its row, the sender's
    address, the chain id, gas 200000 and the gas price read once before the
    loop.  The nonces are consecutive from the account's transaction count.
    The first call that raises ends the run: the rows before it were sent,
    one line printed for each, and no later row is touched. *)
Theorem X15_live_run_consecutive_nonces (lower keccak : str -> str)
    (json_loads : str -> result pyval) (isoformat : Z -> str) (hex : str -> str)
    (py_str : pyval -> str) (L : Ledger) (args : Args)
    (rows : list Briefing.row) (pk from : str) (cid gasPrice nonce : Z) :
  prepared L args rows pk from cid gasPrice nonce ->
  arg_dry args = false ->
  let out := main lower keccak json_loads isoformat hex py_str L args in
  exists k : nat,
    map fst (sents (fst out))
    = map (attest_row lower keccak json_loads isoformat (arg_chain args))
          (firstn k rows)
    /\ map (fun s => tx_nonce (snd s)) (sents (fst out))
       = map (fun i => (nonce + Z.of_nat i)%Z) (seq 0 k)
    /\ Forall (fun s => tx_from (snd s) = from /\ tx_chainId (snd s) = cid
                        /\ tx_gas (snd s) = 200000%Z
                        /\ tx_gasPrice (snd s) = gasPrice) (sents (fst out))
    /\ List.length (printed (fst out)) = k
    /\ ((snd out = Ok tt /\ k = List.length rows)
        \/ (exists e, snd out = Raise e) /\ (k < List.length rows)%nat).
Proof.
  intros Hp Hdry out. subst out.
  rewrite (@main_prepared lower keccak json_loads isoformat hex py_str L args
             rows pk from cid gasPrice nonce Hp), Hdry.
  apply publish_rows_live.
Qed.

Lemma X15_live_run_consecutive_nonces_witness :
  prepared flaky_ledger args_default calm_rows (lit "key") (lit "0xfrom") 7001 1 5
  /\ arg_dry args_default = false
  /\ exists k : nat,
       map (fun s => tx_nonce (snd s))
         (sents (fst (main ascii_lower (fun s => s) loads_empty_array
                        (fun _ => lit "2024-01-15") (fun s => s) simple_str
                        flaky_ledger args_default)))
       = map (fun i => (5 + Z.of_nat i)%Z) (seq 0 k).
Proof.
  assert (Hp : prepared flaky_ledger args_default calm_rows (lit "key")
                 (lit "0xfrom") 7001 1 5).
  { exists (lit "2024-01-15"), tt, (lit "0xabc"), (lit "0xabc").
    repeat split; try reflexivity; discriminate. }
  split; [exact Hp|]. split; [reflexivity|].
  destruct (@X15_live_run_consecutive_nonces ascii_lower (fun s => s)
              loads_empty_array (fun _ => lit "2024-01-15") (fun s => s) simple_str
              flaky_ledger args_default _ _ _ _ _ _ Hp eq_refl)
    as [k [_ [Hn _]]].
  exists k. exact Hn.
Defined.

(** X16: a dry run broadcasts nothing and signs nothing: its outcome is the
    same whatever signing and broadcasting would do.  It still builds every
    transaction, and prints one [DRY] line per row built, in the order of
    the rows, until the first build that raises. *)
Theorem X16_dry_run_sends_nothing (lower keccak : str -> str)
    (json_loads : str -> result pyval) (isoformat : Z -> str) (hex : str -> str)
    (py_str : pyval -> str) (L : Ledger) (args : Args)
    (rows : list Briefing.row) (pk from : str) (cid gasPrice nonce : Z) :
  prepared L args rows pk from cid gasPrice nonce ->
  arg_dry args = true ->
  let out := main lower keccak json_loads isoformat hex py_str L args in
  sents (fst out) = []
  /\ (forall sign send,
        main lower keccak json_loads isoformat hex py_str
          (with_wallet L sign send) args = out)
  /\ exists k : nat,
       fst out
       = map (fun r => Printed (dry_line hex py_str
                         (attest_row lower keccak json_loads isoformat
                            (arg_chain args) r)))
             (firstn k rows)
       /\ ((snd out = Ok tt /\ k = List.length rows)
           \/ (exists e, snd out = Raise e) /\ (k < List.length rows)%nat).
Proof.
  intros Hp Hdry out. subst out.
  assert (Hw : forall sign send,
             main lower keccak json_loads isoformat hex py_str
               (with_wallet L sign send) args
             = main lower keccak json_loads isoformat hex py_str L args).
  { intros sign send.
    rewrite (@main_prepared lower keccak json_loads isoformat hex py_str _ args
               rows pk from cid gasPrice nonce
               (@prepared_with_wallet L sign send _ _ _ _ _ _ _ Hp)).
    rewrite (@main_prepared lower keccak json_loads isoformat hex py_str L args
               rows pk from cid gasPrice nonce Hp), Hdry.
    apply publish_rows_dry_wallet. }
  rewrite (@main_prepared lower keccak json_loads isoformat hex py_str L args
             rows pk from cid gasPrice nonce Hp) in *.
  rewrite Hdry in *.
  destruct (@publish_rows_dry lower keccak json_loads isoformat hex py_str L
              (arg_chain args) pk from cid gasPrice rows nonce) as [k [Ht He]].
  split; [|split; [exact Hw|exists k; split; [exact Ht|exact He]]].
  rewrite Ht, <- map_map. apply sents_printed_only.
Qed.

Lemma X16_dry_run_sends_nothing_witness :
  prepared calm_ledger args_dry calm_rows (lit "key") (lit "0xfrom") 7001 1 5
  /\ arg_dry args_dry = true
  /\ sents (fst (main ascii_lower (fun s => s) loads_empty_array
                   (fun _ => lit "2024-01-15") (fun s => s) simple_str
                   calm_ledger args_dry)) = [].
Proof.
  split; [apply prepared_calm|]. split; [reflexivity|].
  exact (proj1 (@X16_dry_run_sends_nothing ascii_lower (fun s => s)
                  loads_empty_array (fun _ => lit "2024-01-15") (fun s => s)
                  simple_str calm_ledger args_dry _ _ _ _ _ _
                  (prepared_calm args_dry) eq_refl)).
Defined.

(** The refusing node: the first row is sent with nonce 5, the second is not. *)
Example live_run_stops_at_refusal :
  let out := main ascii_lower (fun s => s) loads_empty_array
               (fun _ => lit "2024-01-15") (fun s => s) simple_str
               flaky_ledger args_default in
  map (fun s => tx_nonce (snd s)) (sents (fst out)) = [5%Z]
  /\ snd out = Raise (lit "ValueError").
Proof. vm_compute. split; reflexivity. Qed.

(** ** The anomaly flag and letter case *)

Lemma starts_with_map (f : N -> N) (p s : str) :
  starts_with p s = true -> starts_with (map f p) (map f s) = true.
Proof.
  revert s. induction p as [|a p IH]; intros [|b s] H; simpl in *; auto.
  apply andb_true_iff in H. destruct H as [Hab H].
  apply N.eqb_eq in Hab. subst b. rewrite N.eqb_refl. simpl. auto.
Qed.

Lemma contains_map (f : N -> N) (p s : str) :
  contains p s = true -> contains (map f p) (map f s) = true.
Proof.
  induction s as [|b s IH]; intros H.
  - simpl in *. rewrite orb_false_r in *. now apply (starts_with_map f p []).
  - cbn [contains] in H. apply orb_true_iff in H. cbn [contains map].
    apply orb_true_iff. destruct H as [H|H].
    + left. now apply (starts_with_map f p (b :: s)).
    + right. fold (map f s). auto.
Qed.

Lemma contains_nonempty (p s : str) :
  p <> [] -> contains p s = true -> s <> [].
Proof.
  intros Hp H ->. destruct p; [congruence|]. discriminate.
Qed.

(** X17: the flag does not depend on the letter case of the summary.  For
    a summary that [str.lower] lowers as ASCII text, a negation phrase in
    any mix of upper and lower case clears the flag whatever else the
    summary says, and a keyword in any mix of case sets it when no
    negation phrase occurs. *)
Theorem X17_flag_ignores_letter_case (lower : str -> str) (s v : str) :
  lower s = ascii_lower s ->
  contains v s = true ->
  (In (ascii_lower v) good -> decide_has_anomaly lower (Some s) = false)
  /\ (In (ascii_lower v) bad -> any_in good (ascii_lower s) = false ->
      decide_has_anomaly lower (Some s) = true).
Proof.
  intros Hl Hc.
  assert (Hm : contains (ascii_lower v) (ascii_lower s) = true)
    by (apply contains_map; exact Hc).
  split.
  - intros Hin. unfold decide_has_anomaly. destruct s as [|c s]; [reflexivity|].
    rewrite Hl. replace (any_in good (ascii_lower (c :: s))) with true; [reflexivity|].
    symmetry. apply existsb_exists. eauto.
  - intros Hin Hgood.
    assert (Hv : v <> []).
    { intros ->. simpl in Hin. intuition discriminate. }
    pose proof (contains_nonempty Hv Hc) as Hs.
    unfold decide_has_anomaly. destruct s as [|c s]; [congruence|].
    rewrite Hl, Hgood. replace (any_in bad (ascii_lower (c :: s))) with true;
      [reflexivity|].
    symmetry. apply existsb_exists. eauto.
Qed.

Lemma X17_flag_ignores_letter_case_witness :
  let s := lit "ABNORMAL outflow on Stargate, but No Significant change overall" in
  ascii_lower s = ascii_lower s
  /\ contains (lit "No Significant") s = true
  /\ decide_has_anomaly ascii_lower (Some s) = false.
Proof.
  intros s.
  assert (Hc : contains (lit "No Significant") s = true) by reflexivity.
  split; [reflexivity|]. split; [exact Hc|].
  apply (proj1 (@X17_flag_ignores_letter_case ascii_lower s (lit "No Significant")
                  eq_refl Hc)).
  vm_compute. tauto.
Defined.
